(** * VC pitch analyzer: the pipeline core, embedded and verified

    A shallow embedding of the Python sources
    [currency_converter.py], [schema_normalizer.py], [scoring_engine.py],
    [consistency_checker.py] and [orchestrator.py].

    Documents and analysis results are Python values (JSON shaped); a
    Python [dict] is an association list in insertion order, looked up by
    its first matching key.  Python numbers are exact rationals ([Q]):
    an [int] and a [float] are not told apart, and the binary rounding
    of [float], its overflow ([OverflowError], [inf]) and [nan] are not
    part of the model; a theorem that asserts a numeric result is stated
    for numbers within [FLOAT_ROOM].  A function that can raise returns
    [result]. *)

From Stdlib Require Import ZArith QArith Qround Qabs List String Ascii Bool Lia Lqa.
From Stdlib Require Import DecimalString Sorting.Sorted Sorting.Permutation.
Import ListNotations.
Open Scope string_scope.
Open Scope Z_scope.

(** ** Python values and exceptions *)

Module Py.

Inductive exn : Type :=
| TypeError
| AttributeError
| KeyError
| ValueError
| ZeroDivisionError
| OtherError (msg : string).

Inductive result (A : Type) : Type :=
| Ok (a : A)
| Raise (e : exn).
Arguments Ok {A} a.
Arguments Raise {A} e.

Definition bind {A B : Type} (r : result A) (k : A -> result B) : result B :=
  match r with
  | Ok a => k a
  | Raise e => Raise e
  end.

#[warnings="-register-all"]
Inductive value : Type :=
| VNone
| VBool (b : bool)
| VNum (q : Q)
| VStr (s : string)
| VList (l : list value)
| VDict (d : list (string * value)).

Definition dict : Type := list (string * value).

(** [d.get(k)] on the association list: the first binding of [k]. *)
Fixpoint lookup {A : Type} (k : string) (d : list (string * A)) : option A :=
  match d with
  | [] => None
  | (k', v) :: d' => if String.eqb k k' then Some v else lookup k d'
  end.

(** [k in d] *)
Definition dict_mem {A : Type} (k : string) (d : list (string * A)) : bool :=
  match lookup k d with Some _ => true | None => false end.

(** [d[k] = v]: replaces the binding in place, appends a new key. *)
Fixpoint dict_set {A : Type} (k : string) (v : A) (d : list (string * A))
  : list (string * A) :=
  match d with
  | [] => [(k, v)]
  | (k', v') :: d' =>
      if String.eqb k k' then (k, v) :: d' else (k', v') :: dict_set k v d'
  end.

(** [d.get(k, default)] *)
Definition get_default (k : string) (default : value) (d : dict) : value :=
  match lookup k d with Some v => v | None => default end.

(** [d.get(k)], [None] when the key is missing. *)
Definition get (k : string) (d : dict) : value := get_default k VNone d.

(** [obj.get(k, default)] on any value: only a dict has the method. *)
Definition attr_get (obj : value) (k : string) (default : value) : result value :=
  match obj with
  | VDict d => Ok (get_default k default d)
  | _ => Raise AttributeError
  end.

(** Truth value of a Python object. *)
Definition truthy (v : value) : bool :=
  match v with
  | VNone => false
  | VBool b => b
  | VNum q => negb (Qeq_bool q 0)
  | VStr s => negb (String.eqb s "")
  | VList l => match l with [] => false | _ => true end
  | VDict d => match d with [] => false | _ => true end
  end.

(** The number a value stands for in arithmetic; [bool] is an [int]. *)
Definition as_num (v : value) : result Q :=
  match v with
  | VNum q => Ok q
  | VBool true => Ok 1%Q
  | VBool false => Ok 0%Q
  | _ => Raise TypeError
  end.

(** [a == b] *)
Fixpoint py_eqb (a b : value) : bool :=
  match a, b with
  | VNone, VNone => true
  | VStr s, VStr t => String.eqb s t
  | VList la, VList lb =>
      (fix go (la lb : list value) : bool :=
         match la, lb with
         | [], [] => true
         | x :: xs, y :: ys => py_eqb x y && go xs ys
         | _, _ => false
         end) la lb
  | VDict da, VDict db =>
      Nat.eqb (List.length da) (List.length db) &&
      (fix go (da : list (string * value)) : bool :=
         match da with
         | [] => true
         | (k, x) :: da' =>
             match lookup k db with
             | Some y => py_eqb x y && go da'
             | None => false
             end
         end) da
  | VNum p, VNum q => Qeq_bool p q
  | VNum p, VBool c => Qeq_bool p (if c then 1 else 0)
  | VBool c, VNum q => Qeq_bool (if c then 1 else 0) q
  | VBool b, VBool c => Bool.eqb b c
  | _, _ => false
  end.

(** [needle in s] for strings: substring test. *)
Fixpoint str_contains (needle s : string) : bool :=
  String.prefix needle s ||
  match s with
  | EmptyString => false
  | String _ s' => str_contains needle s'
  end.

(** [key in obj] with a string on the left. *)
Definition py_in (key : string) (obj : value) : result bool :=
  match obj with
  | VDict d => Ok (dict_mem key d)
  | VList l => Ok (existsb (py_eqb (VStr key)) l)
  | VStr s => Ok (str_contains key s)
  | _ => Raise TypeError
  end.

(** [a >= b] and [a > b] on numbers *)
Definition Qgeb (a b : Q) : bool := Qle_bool b a.
Definition Qgtb (a b : Q) : bool := negb (Qle_bool a b).

(** [round(x)]: to the nearest integer, a tie to the even one. *)
Definition py_round (x : Q) : Z :=
  let f := Qfloor x in
  match Qcompare (x - inject_Z f) (1 # 2) with
  | Lt => f
  | Gt => f + 1
  | Eq => if Z.even f then f else f + 1
  end.

(** [round(x, 1)] *)
Definition py_round1 (x : Q) : Q := inject_Z (py_round (x * 10)) / 10.

(** *** Strings and number formats *)

Definition is_digit (c : ascii) : bool :=
  let n := nat_of_ascii c in (48 <=? n)%nat && (n <=? 57)%nat.

Definition is_space (c : ascii) : bool :=
  let n := nat_of_ascii c in Nat.eqb n 32 || ((9 <=? n)%nat && (n <=? 13)%nat).

(** [s.replace(c, "")] for a one-character [c] *)
Fixpoint remove_char (c : ascii) (s : string) : string :=
  match s with
  | EmptyString => EmptyString
  | String a s' =>
      if Ascii.eqb a c then remove_char c s' else String a (remove_char c s')
  end.

(** [s.endswith(c)] for a one-character [c] *)
Fixpoint ends_with_char (c : ascii) (s : string) : bool :=
  match s with
  | EmptyString => false
  | String a EmptyString => Ascii.eqb a c
  | String _ s' => ends_with_char c s'
  end.

(** [s[:-1]] *)
Fixpoint drop_last (s : string) : string :=
  match s with
  | EmptyString => EmptyString
  | String _ EmptyString => EmptyString
  | String a s' => String a (drop_last s')
  end.

(** [s.split(c)[0]]: the part before the first [c] *)
Fixpoint before_char (c : ascii) (s : string) : string :=
  match s with
  | EmptyString => EmptyString
  | String a s' => if Ascii.eqb a c then EmptyString else String a (before_char c s')
  end.

(** The part after the first [c], when [c] occurs. *)
Fixpoint after_char (c : ascii) (s : string) : option string :=
  match s with
  | EmptyString => None
  | String a s' => if Ascii.eqb a c then Some s' else after_char c s'
  end.

Fixpoint all_digits (s : string) : bool :=
  match s with
  | EmptyString => true
  | String a s' => is_digit a && all_digits s'
  end.

(** [s.isdigit()] on ASCII text *)
Definition isdigit (s : string) : bool :=
  negb (String.eqb s "") && all_digits s.

(** The number written by a string of decimal digits, after [acc]. *)
Fixpoint digits_value (acc : Z) (s : string) : Z :=
  match s with
  | EmptyString => acc
  | String a s' => digits_value (10 * acc + (Z.of_nat (nat_of_ascii a) - 48)) s'
  end.

(** [int(s)] for a digit string *)
Definition int_of_digits (s : string) : Z := digits_value 0 s.

Fixpoint lstrip (s : string) : string :=
  match s with
  | String a s' => if is_space a then lstrip s' else s
  | EmptyString => EmptyString
  end.

Definition string_rev (s : string) : string :=
  string_of_list_ascii (rev (list_ascii_of_string s)).

(** [s.strip()] *)
Definition strip (s : string) : string :=
  string_rev (lstrip (string_rev (lstrip s))).

(** An unsigned decimal literal, [digits], [digits.digits], [digits.]
    or [.digits]. *)
Definition unsigned_decimal (s : string) : option Q :=
  let ip := before_char "." s in
  let fp := match after_char "." s with Some f => f | None => EmptyString end in
  if all_digits ip && all_digits fp && negb (String.eqb (ip ++ fp) "")
  then Some (inject_Z (digits_value 0 (ip ++ fp))
             / inject_Z (10 ^ Z.of_nat (String.length fp)))%Q
  else None.

(** [float(s)] on a string: surrounding white space, an optional sign and
    a decimal literal.  [None] stands for [ValueError].  The value is the
    exact decimal, not the nearest double.  Exponents, digit-group
    underscores, [inf] and [nan] are outside this model and are read as
    errors. *)
Definition py_float (s : string) : option Q :=
  match strip s with
  | String "-" s' =>
      match unsigned_decimal s' with Some q => Some (- q)%Q | None => None end
  | String "+" s' => unsigned_decimal s'
  | s' => unsigned_decimal s'
  end.

Definition string_of_Z (z : Z) : string :=
  DecimalString.NilZero.string_of_int (Z.to_int z).

(** Commas between groups of three digits, on the reversed digits. *)
Fixpoint group3 (rev_digits : list ascii) : list ascii :=
  match rev_digits with
  | a :: b :: c :: ((_ :: _) as rest) =>
      a :: b :: c :: ","%char :: group3 rest
  | l => l
  end.

Definition sign_prefix (x : Q) : string :=
  match Qcompare x 0 with Lt => "-" | _ => "" end.

(** [f"{x:,.0f}"] *)
Definition format_comma_0f (x : Q) : string :=
  sign_prefix x ++
  string_of_list_ascii
    (rev (group3 (rev (list_ascii_of_string (string_of_Z (py_round (Qabs x))))))).

(** [f"{x:.1f}"] *)
Definition format_1f (x : Q) : string :=
  let n := py_round (Qabs x * 10) in
  sign_prefix x ++ string_of_Z (n / 10) ++ "." ++ string_of_Z (n mod 10).

(** [obj[key]] with a string key *)
Definition getitem (obj : value) (key : string) : result value :=
  match obj with
  | VDict d => match lookup key d with Some v => Ok v | None => Raise KeyError end
  | _ => Raise TypeError
  end.

(** The elements a [for] loop draws from a value. *)
Definition py_iter (v : value) : result (list value) :=
  match v with
  | VList l => Ok l
  | VDict d => Ok (map (fun kv => VStr (fst kv)) d)
  | VStr s => Ok (map (fun c => VStr (String c EmptyString)) (list_ascii_of_string s))
  | _ => Raise TypeError
  end.

(** [len(v)] *)
Definition py_len (v : value) : result nat :=
  match v with
  | VList l => Ok (List.length l)
  | VDict d => Ok (List.length d)
  | VStr s => Ok (String.length s)
  | _ => Raise TypeError
  end.

(** [s.lower()] on ASCII text *)
Definition lower_char (c : ascii) : ascii :=
  let n := nat_of_ascii c in
  if (65 <=? n)%nat && (n <=? 90)%nat then ascii_of_nat (n + 32) else c.

Fixpoint lower (s : string) : string :=
  match s with
  | EmptyString => EmptyString
  | String a s' => String (lower_char a) (lower s')
  end.

(** [s.split()]: the words between runs of white space; [word] is the
    word being read. *)
Fixpoint split_words (word : string) (s : string) : list string :=
  match s with
  | EmptyString =>
      match word with EmptyString => [] | _ => [string_rev word] end
  | String a s' =>
      if is_space a then
        match word with
        | EmptyString => split_words EmptyString s'
        | _ => string_rev word :: split_words EmptyString s'
        end
      else split_words (String a word) s'
  end.

Definition split_ws (s : string) : list string := split_words EmptyString s.

Definition is_dict (v : value) : bool :=
  match v with VDict _ => true | _ => false end.

End Py.

Import Py.

Notation "x <- c1 ;; c2" := (bind c1 (fun x => c2))
  (at level 61, c1 at next level, right associativity).

(** ** currency_converter.py *)

Module currency_converter.

(** The configuration as the converter sees it: no configuration object
    at all, or the mapping found under ["currency.rates"] (empty when the
    key is missing). *)
Definition config : Type := option (list (string * Q)).

Definition DEFAULT_RATES : list (string * Q) :=
  [ ("USD", 1.0%Q); ("EUR", 0.85%Q); ("GBP", 0.73%Q); ("JPY", 110.0%Q);
    ("CNY", 6.45%Q); ("INR", 75.0%Q); ("AUD", 1.35%Q); ("CAD", 1.25%Q);
    ("SGD", 1.35%Q); ("CHF", 0.92%Q) ].

Definition FALLBACK_RATES : list (string * Q) :=
  [ ("USD", 1.0%Q); ("EUR", 0.85%Q); ("GBP", 0.73%Q); ("JPY", 110.0%Q);
    ("CNY", 6.45%Q); ("INR", 75.0%Q); ("AUD", 1.35%Q); ("CAD", 1.25%Q);
    ("SGD", 1.35%Q); ("CHF", 0.92%Q); ("HKD", 7.8%Q); ("NZD", 1.4%Q);
    ("SEK", 8.6%Q); ("KRW", 1150.0%Q); ("NOK", 8.5%Q); ("MXN", 20.0%Q);
    ("BRL", 5.3%Q); ("RUB", 75.0%Q); ("ZAR", 15.0%Q); ("TRY", 8.6%Q) ].

(** [d.update(other)] *)
Definition dict_update {A : Type} (d other : list (string * A)) : list (string * A) :=
  fold_left (fun d kv => dict_set (fst kv) (snd kv) d) other d.

Definition _get_currency_rates (cfg : config) : list (string * Q) :=
  match cfg with
  | Some config_rates =>
      match config_rates with
      | [] => DEFAULT_RATES
      | _ => dict_update DEFAULT_RATES config_rates
      end
  | None => DEFAULT_RATES
  end.

(** [currency in table] and [table[currency]] for a table keyed by
    strings: a list or a dict cannot be hashed, any other value that is
    not a string is no key of the table. *)
Definition find_rate (currency : value) (table : list (string * Q))
  : result (option Q) :=
  match currency with
  | VStr c => Ok (lookup c table)
  | VList _ | VDict _ => Raise TypeError
  | _ => Ok None
  end.

Definition _get_default_rate (currency : value) : result Q :=
  r <- find_rate currency FALLBACK_RATES ;;
  match r with
  | Some rate => Ok rate
  | None => Ok 50.0%Q
  end.

(** The rate the converter uses for a currency. *)
Definition rate_for (currency : value) (rates : list (string * Q)) : result Q :=
  r <- find_rate currency rates ;;
  match r with
  | Some rate => Ok rate
  | None => _get_default_rate currency
  end.

(** [a / b] on numbers: the exact quotient.  Of Python's exceptions only
    [ZeroDivisionError] is kept; an operand or a quotient beyond the
    range of [float] is outside the model. *)
Definition py_div (a b : Q) : result Q :=
  if Qeq_bool b 0 then Raise ZeroDivisionError else Ok (a / b)%Q.

(** [convert_currency]: the division and the multiplication are exact,
    on an amount read as a number; an amount that is a string or a list,
    which Python repeats when the rate is an [int], raises [TypeError]
    here. *)
Definition convert_currency
  (amount : value) (from_currency to_currency : value) (cfg : config)
  : result value :=
  match amount with
  | VNone => Ok VNone
  | _ =>
      if py_eqb from_currency to_currency then Ok amount
      else
        let rates := _get_currency_rates cfg in
        amount_usd <-
          (if negb (py_eqb from_currency (VStr "USD")) then
             from_rate <- rate_for from_currency rates ;;
             a <- as_num amount ;;
             q <- py_div a from_rate ;;
             Ok (VNum q)
           else Ok amount) ;;
        if negb (py_eqb to_currency (VStr "USD")) then
          to_rate <- rate_for to_currency rates ;;
          a <- as_num amount_usd ;;
          Ok (VNum (a * to_rate))
        else Ok amount_usd
  end.

End currency_converter.

(** ** schema_normalizer.py *)

Module schema_normalizer.

Import currency_converter.

Definition money_default : value :=
  VDict [("value", VNone); ("currency", VStr "USD"); ("raw", VNone)].

Definition CANONICAL_SCHEMA : dict :=
  [ ("metadata",
     VDict [ ("company_name", VNone); ("tagline", VNone); ("website", VNone);
             ("date", VNone); ("source", VNone); ("client_id", VNone);
             ("original_file_name", VNone) ]);
    ("contact", VDict [ ("email", VNone); ("phone", VNone); ("address", VNone) ]);
    ("team", VDict [ ("founders", VList []); ("experience", VNone) ]);
    ("market",
     VDict [ ("tam", money_default); ("sam", money_default); ("som", money_default);
             ("cagr", VNone); ("domain", VNone); ("sub_domain", VNone) ]);
    ("positioning",
     VDict [ ("problem_statement", VNone); ("solution", VNone); ("usp", VNone);
             ("competitors", VList []) ]);
    ("finance",
     VDict [ ("arr", money_default); ("mrr", money_default);
             ("total_revenue", money_default); ("gross_profit", money_default);
             ("ebita", money_default); ("year_on_year_growth", VNone);
             ("revenues", VList []); ("runway", VNone) ]);
    ("fundraise",
     VDict [ ("ask", money_default); ("valuation", money_default);
             ("funds_raised", money_default) ]);
    ("gtm",
     VDict [ ("revenue_streams", VList []); ("business_model", VNone);
             ("channels", VList []) ]);
    ("units", VDict [ ("base_currency", VStr "USD") ]);
    ("extras", VDict []) ].

(** [_deep_copy]: values are immutable here, the copy rebuilds the same
    structure. *)
Fixpoint _deep_copy (obj : value) : value :=
  match obj with
  | VDict d =>
      VDict ((fix copy_items (d : list (string * value)) : list (string * value) :=
                match d with
                | [] => []
                | (k, v) :: rest => (k, _deep_copy v) :: copy_items rest
                end) d)
  | VList l =>
      VList ((fix copy_elems (l : list value) : list value :=
                match l with
                | [] => []
                | item :: rest => _deep_copy item :: copy_elems rest
                end) l)
  | _ => obj
  end.

(** [canonical[section][key] = v] *)
Definition set_in (section key : string) (v : value) (canonical : dict) : dict :=
  match lookup section canonical with
  | Some (VDict d) => dict_set section (VDict (dict_set key v d)) canonical
  | _ => canonical
  end.

(** The value and its USD conversion shared by [_normalize_currency] and
    [_normalize_revenues]: [(raw, value_usd)]. *)
Definition to_usd (cfg : config) (v currency : value) : result (value * value) :=
  let raw :=
    match v with
    | VNone => VNone
    | _ => VDict [("value", v); ("currency", currency)]
    end in
  value_usd <-
    match v with
    | VNone => Ok v
    | _ =>
        if truthy currency && negb (py_eqb currency (VStr "USD"))
        then convert_currency v currency (VStr "USD") cfg
        else Ok v
    end ;;
  Ok (raw, value_usd).

Definition _normalize_currency (cfg : config) (currency_data : value) : result value :=
  match currency_data with
  | VDict d =>
      if negb (truthy currency_data) then Ok money_default
      else
        let v := get "value" d in
        let currency := get_default "currency" (VStr "USD") d in
        r <- to_usd cfg v currency ;;
        Ok (VDict [("value", snd r); ("currency", VStr "USD"); ("raw", fst r)])
  | _ => Ok money_default
  end.

Definition normalize_founder (founder : value) : list value :=
  match founder with
  | VDict d =>
      [ VDict [ ("name", get "name" d); ("title", get "title" d);
                ("linkedin", get "linkedin" d); ("bio", get "bio" d) ] ]
  | _ => []
  end.

Definition _normalize_founders (founders : value) : result value :=
  l <- py_iter founders ;;
  Ok (VList (flat_map normalize_founder l)).

(** [a or b] *)
Definition py_or (a b : value) : value := if truthy a then a else b.

Fixpoint normalize_revenue_entries (cfg : config) (revenues : list value)
  : result (list value) :=
  match revenues with
  | [] => Ok []
  | VDict d :: rest =>
      let v := get "value" d in
      let currency := get_default "currency" (VStr "USD") d in
      let period := py_or (get "year" d) (py_or (get "quarter" d) (get "period" d)) in
      r <- to_usd cfg v currency ;;
      rs <- normalize_revenue_entries cfg rest ;;
      Ok (VDict [ ("period", period); ("value", snd r);
                  ("currency", VStr "USD"); ("raw", fst r) ] :: rs)
  | _ :: rest => normalize_revenue_entries cfg rest
  end.

(** [a < b] between sort keys: strings with strings, numbers with
    numbers; [None] stands for [TypeError].  Keys that are lists, which
    Python can order, are not modelled and read as errors. *)
Definition py_lt (a b : value) : option bool :=
  match a, b with
  | VStr s, VStr t => Some (String.ltb s t)
  | VStr _, _ | _, VStr _ => None
  | _, _ =>
      match as_num a, as_num b with
      | Ok p, Ok q => Some (Qgtb q p)
      | _, _ => None
      end
  end.

Definition period_of (revenue : value) : value :=
  match revenue with
  | VDict d => get "period" d
  | _ => VNone
  end.

(** Stable insertion by period; [None] when a comparison fails. *)
Fixpoint insert_by_period (x : value) (sorted : list value) : option (list value) :=
  match sorted with
  | [] => Some [x]
  | y :: rest =>
      match py_lt (period_of x) (period_of y) with
      | Some true => Some (x :: sorted)
      | Some false =>
          match insert_by_period x rest with
          | Some l => Some (y :: l)
          | None => None
          end
      | None => None
      end
  end.

Fixpoint sort_by_period (sorted todo : list value) : option (list value) :=
  match todo with
  | [] => Some sorted
  | x :: rest =>
      match insert_by_period x sorted with
      | Some sorted' => sort_by_period sorted' rest
      | None => None
      end
  end.

(** The [try: sort ... except (TypeError, KeyError)] of
    [_normalize_revenues].  When a comparison fails the entries are kept
    in source order (CPython may leave them partly reordered). *)
Definition sort_revenues (normalized_revenues : list value) : list value :=
  match sort_by_period [] normalized_revenues with
  | Some sorted => sorted
  | None => normalized_revenues
  end.

Definition _normalize_revenues (cfg : config) (revenues : value) : result value :=
  l <- py_iter revenues ;;
  normalized_revenues <- normalize_revenue_entries cfg l ;;
  Ok (VList (sort_revenues normalized_revenues)).

Definition is_container (v : value) : bool :=
  match v with
  | VDict _ | VList _ => true
  | _ => false
  end.

(** [_get_paths]: the dotted paths it adds to [result], in traversal
    order. *)
Fixpoint _get_paths (obj : value) (current_path : list string) : list string :=
  match obj with
  | VDict d =>
      (fix on_items (d : list (string * value)) : list string :=
         match d with
         | [] => []
         | (k, v) :: rest =>
             let new_path := (current_path ++ [k])%list in
             (String.concat "." new_path
                :: (if is_container v then _get_paths v new_path else []))
             ++ on_items rest
         end)%list d
  | VList l =>
      (fix on_elems (l : list value) : list string :=
         match l with
         | [] => []
         | item :: rest =>
             (if is_container item then _get_paths item current_path else [])
             ++ on_elems rest
         end)%list l
  | _ => []
  end.

Fixpoint _get_by_path (obj : value) (path : list string) : value :=
  match path with
  | [] => obj
  | key :: rest =>
      match obj with
      | VDict d =>
          match lookup key d with
          | Some v => _get_by_path v rest
          | None => VNone
          end
      | _ => VNone
      end
  end.

(** [p.endswith(suffix)] *)
Definition ends_with (p suffix : string) : bool :=
  String.prefix (string_rev suffix) (string_rev p).

(** [s.split(c)] for a one-character [c] *)
Fixpoint split_char (c : ascii) (s : string) : list string :=
  match s with
  | EmptyString => [EmptyString]
  | String a s' =>
      if Ascii.eqb a c then EmptyString :: split_char c s'
      else
        match split_char c s' with
        | first :: rest => String a first :: rest
        | [] => [String a EmptyString]
        end
  end.

(** The body of the loop over [extraction_paths]. *)
Definition extras_step
  (extraction : value) (canonical_paths : list string) (extras : dict) (path : string)
  : dict :=
  if negb (existsb (fun p => ends_with p path) canonical_paths) then
    match _get_by_path extraction (split_char "." path) with
    | VNone => extras
    | v => dict_set path v extras
    end
  else extras.

(** [_extract_extras]; the two sets of paths are lists without
    duplicates, walked in the order of first occurrence. *)
Definition _extract_extras (extraction canonical : value) : value :=
  let canonical_paths := nodup string_dec (_get_paths canonical []) in
  let extraction_paths := nodup string_dec (_get_paths extraction []) in
  VDict (fold_left (extras_step extraction canonical_paths) extraction_paths []).

(** The assignments of [normalize] to the copy of the template, in
    source order, given the normalized values of the founders, the
    monetary fields and the revenues. *)
Definition assign_fields
  (raw_data extraction : dict)
  (founders tam sam som arr mrr total_revenue gross_profit ebita revenues
   ask valuation funds_raised : value)
  (canonical : dict) : dict :=
  let canonical := set_in "metadata" "company_name" (get "company_name" extraction) canonical in
  let canonical := set_in "metadata" "tagline" (get "tagline" extraction) canonical in
  let canonical := set_in "metadata" "website" (get "website" extraction) canonical in
  let canonical := set_in "metadata" "date" (get "date" extraction) canonical in
  let canonical := set_in "metadata" "source" (get "source" raw_data) canonical in
  let canonical := set_in "metadata" "client_id" (get "clientId" raw_data) canonical in
  let canonical := set_in "metadata" "original_file_name" (get "originalFileName" raw_data) canonical in
  let canonical := set_in "contact" "email" (get "email" extraction) canonical in
  let canonical := set_in "contact" "phone" (get "phone" extraction) canonical in
  let canonical := set_in "contact" "address" (get "address" extraction) canonical in
  let canonical := set_in "team" "founders" founders canonical in
  let canonical := set_in "team" "experience" (get "experience" extraction) canonical in
  let canonical := set_in "market" "tam" tam canonical in
  let canonical := set_in "market" "sam" sam canonical in
  let canonical := set_in "market" "som" som canonical in
  let canonical := set_in "market" "cagr" (get "cagr" extraction) canonical in
  let canonical := set_in "market" "domain" (get "domain" extraction) canonical in
  let canonical := set_in "market" "sub_domain" (get "sub_domain" extraction) canonical in
  let canonical := set_in "positioning" "problem_statement" (get "problem_statement" extraction) canonical in
  let canonical := set_in "positioning" "solution" (get "solution" extraction) canonical in
  let canonical := set_in "positioning" "usp" (get "USP" extraction) canonical in
  let canonical := set_in "positioning" "competitors" (get_default "competitors" (VList []) extraction) canonical in
  let canonical := set_in "finance" "arr" arr canonical in
  let canonical := set_in "finance" "mrr" mrr canonical in
  let canonical := set_in "finance" "total_revenue" total_revenue canonical in
  let canonical := set_in "finance" "gross_profit" gross_profit canonical in
  let canonical := set_in "finance" "ebita" ebita canonical in
  let canonical := set_in "finance" "year_on_year_growth" (get "year_on_year_growth" extraction) canonical in
  let canonical := set_in "finance" "revenues" revenues canonical in
  let canonical := set_in "finance" "runway" (get "runway" extraction) canonical in
  let canonical := set_in "fundraise" "ask" ask canonical in
  let canonical := set_in "fundraise" "valuation" valuation canonical in
  let canonical := set_in "fundraise" "funds_raised" funds_raised canonical in
  let canonical := set_in "gtm" "revenue_streams" (get_default "revenue_streams" (VList []) extraction) canonical in
  let canonical := set_in "gtm" "business_model" (get "business_model" extraction) canonical in
  let canonical := set_in "gtm" "channels" (get_default "channels" (VList []) extraction) canonical in
  canonical.

(** The canonical document after the field mapping, before the extras
    are collected.  The calls that can raise are made in source order;
    the assignments between them cannot raise and are gathered in
    [assign_fields]. *)
Definition map_fields (cfg : config) (raw_data extraction : dict) : result dict :=
  let canonical :=
    match _deep_copy (VDict CANONICAL_SCHEMA) with
    | VDict c => c
    | _ => []
    end in
  founders <- _normalize_founders (get_default "founders" (VList []) extraction) ;;
  tam <- _normalize_currency cfg (get "tam" extraction) ;;
  sam <- _normalize_currency cfg (get "sam" extraction) ;;
  som <- _normalize_currency cfg (get "som" extraction) ;;
  arr <- _normalize_currency cfg (get "arr" extraction) ;;
  mrr <- _normalize_currency cfg (get "mrr" extraction) ;;
  total_revenue <- _normalize_currency cfg (get "total_revenue" extraction) ;;
  gross_profit <- _normalize_currency cfg (get "gross_profit" extraction) ;;
  ebita <- _normalize_currency cfg (get "ebita" extraction) ;;
  revenues <- _normalize_revenues cfg (get_default "revenues" (VList []) extraction) ;;
  ask <- _normalize_currency cfg (get "ask" extraction) ;;
  valuation <- _normalize_currency cfg (get "valuation" extraction) ;;
  funds_raised <- _normalize_currency cfg (get "funds_raised" extraction) ;;
  Ok (assign_fields raw_data extraction founders tam sam som arr mrr total_revenue
        gross_profit ebita revenues ask valuation funds_raised canonical).

(** [normalize]; [cfg] is the agent's configuration. *)
Definition normalize (cfg : config) (raw_data : value) : result value :=
  extraction <- attr_get raw_data "extraction" (VDict []) ;;
  match raw_data, extraction with
  | VDict raw, VDict e =>
      canonical <- map_fields cfg raw e ;;
      let canonical :=
        dict_set "extras" (_extract_extras extraction (VDict canonical)) canonical in
      let canonical := set_in "units" "base_currency" (VStr "USD") canonical in
      Ok (VDict canonical)
  | _, _ => Raise AttributeError
  end.

End schema_normalizer.

(** ** orchestrator.py *)

Module orchestrator.

(** [sum(1 for section in analysis_results.values() if "error" in section)] *)
Fixpoint count_error_sections (sections : dict) : result Z :=
  match sections with
  | [] => Ok 0
  | (_, section) :: rest =>
      e <- py_in "error" section ;;
      n <- count_error_sections rest ;;
      Ok ((if e then 1 else 0) + n)
  end.

Definition _calculate_confidence_score (analysis_results : dict) : result Z :=
  if negb (truthy (VDict analysis_results)) then Ok 6
  else
    let total_sections := Z.of_nat (List.length analysis_results) in
    error_sections <- count_error_sections analysis_results ;;
    if total_sections =? 0 then Ok 5
    else
      let confidence_pct :=
        (inject_Z (total_sections - error_sections) / inject_Z total_sections)%Q in
      Ok (py_round (5 + confidence_pct * 5)).

(** [v.lower()] and [v.split()]: only a string has the methods. *)
Definition str_of (v : value) : result string :=
  match v with
  | VStr s => Ok s
  | _ => Raise AttributeError
  end.

(** [founders[0]] *)
Definition first_item (v : value) : result value :=
  match v with
  | VList (x :: _) => Ok x
  | VList [] => Raise (OtherError "IndexError")
  | VStr (String a _) => Ok (VStr (String a EmptyString))
  | VStr EmptyString => Raise (OtherError "IndexError")
  | VDict _ => Raise KeyError
  | _ => Raise TypeError
  end.

(** The [for founder in founders] loop with its [break]: the new value
    of [ceo]. *)
Fixpoint find_ceo (founders : list value) (ceo : value) : result value :=
  match founders with
  | [] => Ok ceo
  | founder :: rest =>
      title <- attr_get founder "title" (VStr "") ;;
      t <- str_of title ;;
      if str_contains "ceo" (lower t) || str_contains "founder" (lower t)
      then attr_get founder "name" ceo
      else find_ceo rest ceo
  end.

(** [any("retail" in stream.lower() for stream in revenue_streams)] *)
Fixpoint any_retail (streams : list value) : result bool :=
  match streams with
  | [] => Ok false
  | stream :: rest =>
      s <- str_of stream ;;
      if str_contains "retail" (lower s) then Ok true else any_retail rest
  end.

(** The part of [_extract_basic_details] that reads the extraction
    section: [(company_name, domain, business_model, ceo)]. *)
Definition details_from_extraction (extraction company_name : value)
  : result (value * value * value * value) :=
  domain <- attr_get extraction "domain" (VStr "Technology") ;;
  tagline <- attr_get extraction "tagline" VNone ;;
  company_name <-
    (if truthy tagline
        && (negb (truthy company_name) || py_eqb company_name (VStr "Unknown Company"))
     then
       t <- str_of tagline ;;
       match split_ws t with
       | w1 :: w2 :: _ => Ok (VStr (w1 ++ " " ++ w2))
       | _ => Ok company_name
       end
     else Ok company_name) ;;
  founders <- attr_get extraction "founders" (VList []) ;;
  ceo <-
    (if truthy founders then
       n <- py_len founders ;;
       if (0 <? n)%nat then
         l <- py_iter founders ;;
         ceo <- find_ceo l (VStr "Management Team") ;;
         if py_eqb ceo (VStr "Management Team") then
           f0 <- first_item founders ;;
           name <- attr_get f0 "name" VNone ;;
           if truthy name then attr_get f0 "name" VNone else Ok ceo
         else Ok ceo
       else Ok (VStr "Management Team")
     else Ok (VStr "Management Team")) ;;
  revenue_streams <- attr_get extraction "revenue_streams" (VList []) ;;
  business_model <-
    (if truthy revenue_streams then
       l <- py_iter revenue_streams ;;
       retail <- any_retail l ;;
       Ok (if retail then VStr "B2C" else VStr "B2B")
     else Ok (VStr "B2B")) ;;
  Ok (company_name, domain, business_model, ceo).

Definition _extract_basic_details (data : value) : result value :=
  r <-
    (if truthy data then
       metadata <- attr_get data "metadata" (VDict []) ;;
       company_name <-
         (if truthy metadata
          then attr_get metadata "company_name" (VStr "Unknown Company")
          else Ok (VStr "Unknown Company")) ;;
       extraction <- attr_get data "extraction" (VDict []) ;;
       if truthy extraction then details_from_extraction extraction company_name
       else Ok (company_name, VStr "Technology", VStr "B2B", VStr "Management Team")
     else Ok (VStr "Unknown Company", VStr "Technology", VStr "B2B",
              VStr "Management Team")) ;;
  let '(company_name, domain, business_model, ceo) := r in
  Ok (VDict [ ("name", company_name); ("domain", domain);
              ("business_model", business_model); ("CEO", ceo) ]).

(** The test of [_extract_pros] on one metric of one category:
    [cat and metric in cat and cat[metric].get("final_score", 0) >= 7]. *)
Definition scores_at_least_7 (category : value) (metric : string) : result bool :=
  if truthy category then
    present <- py_in metric category ;;
    if present then
      m <- getitem category metric ;;
      s <- attr_get m "final_score" (VNum 0) ;;
      q <- as_num s ;;
      Ok (Qgeb q 7)
    else Ok false
  else Ok false.

Definition _extract_pros (analysis_results : dict) : result (list string) :=
  match analysis_results with
  | [] =>
      Ok [ "Strong founding team with relevant experience";
           "Attractive market opportunity";
           "Scalable business model" ]
  | _ =>
      m <- scores_at_least_7 (get_default "MarketAnalysis" (VDict []) analysis_results)
             "tam" ;;
      f <- scores_at_least_7 (get_default "Finance" (VDict []) analysis_results)
             "runway" ;;
      let pros :=
        ((if m then ["Attractive market size with strong growth potential"] else [])
         ++ (if f then ["Solid financial runway and capital efficiency"] else []))%list in
      let additional_pros :=
        [ "Experienced founding team with domain expertise";
          "Scalable business model with multiple revenue streams";
          "Clear product differentiation in competitive landscape" ] in
      Ok (pros ++ firstn (3 - List.length pros) additional_pros)%list
  end.

Definition _extract_red_flags (analysis_results : dict) : list string :=
  match analysis_results with
  | [] =>
      [ "Limited financial data available for validation";
        "Highly competitive market with established players";
        "Execution risk in scaling operations" ]
  | _ =>
      [ "Highly competitive market with established players";
        "Potential regulatory challenges in target markets";
        "Supply chain complexity may impact margins" ]
  end.

Definition INVESTMENT_WEIGHTS : list (string * Q) :=
  [ ("MarketAnalysis", 0.25%Q); ("Finance", 0.25%Q); ("ProductMarketFit", 0.20%Q);
    ("Scalability", 0.15%Q); ("CompetitiveLandscape", 0.15%Q) ].

(** The loop of [_calculate_investment_score]:
    [(total_score, total_weight)], with exact products and sums. *)
Fixpoint weighted_totals (items : dict) (total_score total_weight : Q)
  : result (Q * Q) :=
  match items with
  | [] => Ok (total_score, total_weight)
  | (category, r) :: rest =>
      match lookup category INVESTMENT_WEIGHTS with
      | Some weight =>
          present <- py_in "category_average" r ;;
          if present then
            score <- getitem r "category_average" ;;
            q <- as_num score ;;
            weighted_totals rest (total_score + q * weight)%Q (total_weight + weight)%Q
          else weighted_totals rest total_score total_weight
      | None => weighted_totals rest total_score total_weight
      end
  end.

Definition _calculate_investment_score (analysis_results : dict) : result Z :=
  match analysis_results with
  | [] => Ok 5
  | _ =>
      t <- weighted_totals analysis_results 0 0 ;;
      if Qgtb (snd t) 0 then Ok (py_round (fst t / snd t)) else Ok 7
  end.

(** The inner loop of [_count_validation_points]. *)
Fixpoint count_validated_items (items : dict) : result Z :=
  match items with
  | [] => Ok 0
  | (_, VDict m) :: rest =>
      n <- count_validated_items rest ;;
      Ok ((if dict_mem "validated" m then 1 else 0) + n)
  | _ :: rest => count_validated_items rest
  end.

Fixpoint count_points (categories : dict) : result Z :=
  match categories with
  | [] => Ok 0
  | (_, VDict d) :: rest =>
      c <- count_validated_items d ;;
      n <- count_points rest ;;
      Ok (c + n)
  | _ :: _ => Raise AttributeError
  end.

Definition _count_validation_points (analysis_results : dict) : result Z :=
  count <- count_points analysis_results ;;
  Ok (Z.max count 1).

Section Pipeline.

(** The agents the orchestrator has set up, and their [process]
    methods; [now] is the clock reading, [exn_str] is [str(e)] and
    [py_str] is [str] on a value that is not a string. *)
Variable available_agents : list string.
Variable mongo_fetcher : string -> result value.
Variable schema_normalizer : value -> result value.
Variable market_analysis : value -> result value.
Variable finance_analysis : value -> result value.
Variable now : string.
Variable exn_str : exn -> string.
Variable py_str : value -> string.

Definition available (agent : string) : bool :=
  existsb (String.eqb agent) available_agents.

Definition _estimate_processing_time : string :=
  let agent_count := List.length available_agents in
  if (agent_count <=? 2)%nat then "2-5 minutes"
  else if (agent_count <=? 5)%nat then "5-10 minutes"
  else "10-15 minutes".

Definition _generate_error_response (error_message : string) : value :=
  VDict [ ("error", VStr error_message);
          ("status", VStr "failed");
          ("metadata", VDict [ ("generated_at", VStr now);
                               ("analysis_version", VStr "1.0") ]) ].

(** One analysis agent under its [try]: the entry it adds to
    [analysis_results], if the agent is available. *)
Definition run_agent (agent category : string) (process : value -> result value)
  (normalized_data : value) (analysis_results : dict) : dict :=
  if available agent then
    match process normalized_data with
    | Ok r => dict_set category r analysis_results
    | Raise e => dict_set category (VDict [("error", VStr (exn_str e))]) analysis_results
    end
  else analysis_results.

(** Step 3: the analysis results for the data handed to the agents. *)
Definition run_analyses (normalized_data : value) : dict :=
  let analysis_results := [] in
  let analysis_results :=
    run_agent "market_analysis" "MarketAnalysis" market_analysis normalized_data
      analysis_results in
  run_agent "finance_analysis" "Finance" finance_analysis normalized_data
    analysis_results.

Definition text_of (v : value) : string :=
  match v with
  | VStr s => s
  | _ => py_str v
  end.

(** Step 4, from [self.results["analysis"] = analysis_results] to the
    [return]: the report built on [results]. *)
Definition consolidate (results : dict) (normalized_data : value)
  (analysis_results : dict) : result value :=
  let results := dict_set "analysis" (VDict analysis_results) results in
  details <- _extract_basic_details normalized_data ;;
  let results := dict_set "details" details results in
  name <- attr_get details "name" (VStr "Company") ;;
  domain <- attr_get details "domain" (VStr "Technology") ;;
  let results :=
    dict_set "summary"
      (VStr (text_of name ++ " presents an investment opportunity in the "
             ++ text_of domain ++ " sector.")) results in
  pros <- _extract_pros analysis_results ;;
  let results := dict_set "pros" (VList (map VStr pros)) results in
  let results :=
    dict_set "red_flags" (VList (map VStr (_extract_red_flags analysis_results)))
      results in
  irs <- _calculate_investment_score analysis_results ;;
  let results := dict_set "final_irs_score" (VNum (inject_Z irs)) results in
  cs <- _calculate_confidence_score analysis_results ;;
  let results := dict_set "final_cs_score" (VNum (inject_Z cs)) results in
  let results := dict_set "uniqueness" (VNum 75) results in
  let results := schema_normalizer.set_in "metadata" "generated_at" (VStr now) results in
  points <- _count_validation_points analysis_results ;;
  let results :=
    schema_normalizer.set_in "metadata" "total_validation_points"
      (VNum (inject_Z points)) results in
  let results :=
    schema_normalizer.set_in "metadata" "processing_time_estimate"
      (VStr _estimate_processing_time) results in
  Ok (VDict results).

Definition initial_results (pitch_id : string) : dict :=
  [ ("pitchId", VStr pitch_id);
    ("clientId", VNone);
    ("metadata", VDict [ ("generated_at", VStr "");
                         ("analysis_version", VStr "1.0");
                         ("data_sources_used", VNum 0);
                         ("total_validation_points", VNum 0);
                         ("processing_time_estimate", VStr "") ]);
    ("analysis", VDict []);
    ("details", VDict []) ].

(** Step 2: the data the later steps work on, and [results] with
    [normalized_data] stored when the normalizer succeeded. *)
Definition normalize_step (raw_data : value) (results : dict) : value * dict :=
  if truthy raw_data && available "schema_normalizer" then
    match schema_normalizer raw_data with
    | Ok normalized_data =>
        (normalized_data, dict_set "normalized_data" normalized_data results)
    | Raise _ => (raw_data, results)
    end
  else (raw_data, results).

Definition _process_pitch_async (pitch_id : string) : result value :=
  let results := initial_results pitch_id in
  if available "mongo_fetcher" then
    raw_data <- mongo_fetcher pitch_id ;;
    client_id <- attr_get raw_data "clientId" VNone ;;
    let results := dict_set "clientId" client_id results in
    let results := dict_set "raw_data" raw_data results in
    let '(normalized_data, results) := normalize_step raw_data results in
    consolidate results normalized_data (run_analyses normalized_data)
  else Ok (_generate_error_response "Data fetching not available").

End Pipeline.

End orchestrator.

(** ** scoring_engine.py *)

Module scoring_engine.

(** The engine's configuration: the entries of [scoring.weights], a map
    from category name to a number. *)
Definition DEFAULT_WEIGHTS : list (string * Q) :=
  [ ("MarketAnalysis", 0.20%Q);
    ("CompetitiveLandscape", 0.15%Q);
    ("ProductMarketFit", 0.20%Q);
    ("Finance", 0.25%Q);
    ("WhyAnalysis", 0.10%Q);
    ("Scalability", 0.10%Q) ].

Definition THRESHOLD_excellent : Q := 8.5.
Definition THRESHOLD_good : Q := 7.0.
Definition THRESHOLD_average : Q := 5.0.
Definition THRESHOLD_below_average : Q := 3.0.

(** [sum(xs)] *)
Definition qsum (xs : list Q) : Q := fold_left Qplus xs 0%Q.

(** The body of the override loop:
    [if category in weights: weights[category] = weight]. *)
Definition override_step (weights : list (string * Q)) (cw : string * Q)
  : list (string * Q) :=
  if dict_mem (fst cw) weights then dict_set (fst cw) (snd cw) weights else weights.

Definition _get_weights (config_weights : list (string * Q)) : list (string * Q) :=
  let weights := fold_left override_step config_weights DEFAULT_WEIGHTS in
  let total_weight := qsum (map snd weights) in
  if Qgtb total_weight 0
  then map (fun cw => (fst cw, (snd cw / total_weight)%Q)) weights
  else weights.

(** [max(1, min(10, x))] *)
Definition clamp_1_10 (x : Q) : Q :=
  let m := if Qgtb 10 x then x else 10%Q in
  if Qgtb m 1 then m else 1%Q.

Definition _adjust_score_with_research
  (category : string) (score : value) (research_results : value) : result value :=
  if negb (truthy research_results) then Ok score
  else
    summary <- attr_get research_results "summary" (VDict []) ;;
    credibility <- attr_get summary "credibility_score" (VNum 0) ;;
    credibility_score <- as_num credibility ;;
    let adjustment :=
      if Qgeb credibility_score 80 then 0.5%Q
      else if Qgeb credibility_score 50 then 0%Q
      else (- 1.0)%Q in
    s <- as_num score ;;
    Ok (VNum (clamp_1_10 (s + adjustment))).

Record CategoryScore : Type := {
  raw_score : value;
  adjusted_score : value;
  weight : Q;
  weighted_score : Q
}.

(** The loop of [score] over [weights.items()]. *)
Fixpoint score_categories
  (weights : list (string * Q)) (analysis_results : dict) (research_results : value)
  : result (list (string * CategoryScore)) :=
  match weights with
  | [] => Ok []
  | (category, w) :: rest =>
      match lookup category analysis_results with
      | Some category_data =>
          category_average <- attr_get category_data "category_average" (VNum 0) ;;
          adjusted <- _adjust_score_with_research category category_average
                        research_results ;;
          a <- as_num adjusted ;;
          scores <- score_categories rest analysis_results research_results ;;
          Ok ((category,
               {| raw_score := category_average;
                  adjusted_score := adjusted;
                  weight := w;
                  weighted_score := (a * w)%Q |}) :: scores)
      | None => score_categories rest analysis_results research_results
      end
  end.

Definition _calculate_overall_score (category_scores : list (string * CategoryScore)) : Q :=
  let weighted_sum := qsum (map (fun cs => weighted_score (snd cs)) category_scores) in
  let weights_sum := qsum (map (fun cs => weight (snd cs)) category_scores) in
  let overall_score :=
    if Qgtb weights_sum 0 then (weighted_sum / weights_sum)%Q else 0%Q in
  py_round1 overall_score.

(** [analysis_results[category].get("category_average", 0)] as a number,
    when the category is present. *)
Definition category_average_of (category : string) (analysis_results : dict)
  : result (option Q) :=
  match lookup category analysis_results with
  | Some category_data =>
      v <- attr_get category_data "category_average" (VNum 0) ;;
      q <- as_num v ;;
      Ok (Some q)
  | None => Ok None
  end.

Definition _apply_overall_adjustments (overall_raw : Q) (analysis_results : dict)
  : result Q :=
  risk <- category_average_of "RiskMitigation" analysis_results ;;
  let adjusted :=
    match risk with
    | Some risk_score =>
        if Qle_bool risk_score 3 then (overall_raw - 1.0)%Q
        else if Qle_bool risk_score 5 then (overall_raw - 0.5)%Q
        else overall_raw
    | None => overall_raw
    end in
  pmf <- category_average_of "ProductMarketFit" analysis_results ;;
  let adjusted :=
    match pmf with
    | Some pmf_score => if Qgeb pmf_score 9 then (adjusted + 0.5)%Q else adjusted
    | None => adjusted
    end in
  market <- category_average_of "MarketAnalysis" analysis_results ;;
  let adjusted :=
    match market with
    | Some market_score => if Qgeb market_score 9 then (adjusted + 0.5)%Q else adjusted
    | None => adjusted
    end in
  let adjusted := clamp_1_10 adjusted in
  Ok (py_round1 adjusted).

Definition category_explanation (cs : string * CategoryScore) : result (list string) :=
  a <- as_num (adjusted_score (snd cs)) ;;
  let category := fst cs in
  if Qgeb a 9 then
    Ok [category ++ " is exceptionally strong, presenting a compelling advantage."]
  else if Qgeb a 8 then
    Ok [category ++ " is very strong, contributing significantly to overall potential."]
  else if Qle_bool a 3 then
    Ok [category ++ " is critically weak, posing a significant risk to success."]
  else if Qle_bool a 5 && Qgeb (weight (snd cs)) 0.2 then
    Ok [category ++ " shows concerning weaknesses in a high-impact area."]
  else Ok [].

Fixpoint category_explanations (category_scores : list (string * CategoryScore))
  : result (list string) :=
  match category_scores with
  | [] => Ok []
  | cs :: rest =>
      e <- category_explanation cs ;;
      es <- category_explanations rest ;;
      Ok (e ++ es)%list
  end.

Definition _generate_explanations
  (category_scores : list (string * CategoryScore)) (overall_score : Q)
  : result (list string) :=
  let overall :=
    if Qgeb overall_score THRESHOLD_excellent then
      "Overall score indicates an excellent investment opportunity with strong fundamentals."
    else if Qgeb overall_score THRESHOLD_good then
      "Overall score indicates a good investment opportunity with solid potential but some areas for improvement."
    else if Qgeb overall_score THRESHOLD_average then
      "Overall score indicates an average investment opportunity with both strengths and weaknesses."
    else if Qgeb overall_score THRESHOLD_below_average then
      "Overall score indicates a below-average investment opportunity with significant concerns."
    else
      "Overall score indicates a poor investment opportunity with major issues that need addressing." in
  es <- category_explanations category_scores ;;
  Ok (overall :: es).

Record Recommendation : Type := {
  recommendation : string;
  conviction : string;
  rationale : string;
  timeline : string
}.

Definition _generate_investment_recommendation (overall_score : Q) : Recommendation :=
  if Qgeb overall_score THRESHOLD_excellent then
    {| recommendation := "Strong Buy"; conviction := "High";
       rationale := "Exceptional opportunity with strong fundamentals across key categories.";
       timeline := "Immediate action recommended." |}
  else if Qgeb overall_score THRESHOLD_good then
    {| recommendation := "Buy"; conviction := "Medium";
       rationale := "Solid opportunity with good fundamentals and manageable risks.";
       timeline := "Near-term action recommended." |}
  else if Qgeb overall_score THRESHOLD_average then
    {| recommendation := "Hold/Watch"; conviction := "Low";
       rationale := "Average opportunity with mixed signals. Some strengths but also notable weaknesses.";
       timeline := "Monitor for improvements before committing." |}
  else if Qgeb overall_score THRESHOLD_below_average then
    {| recommendation := "Weak Pass"; conviction := "Medium";
       rationale := "Below-average opportunity with significant concerns in key areas.";
       timeline := "Pass for now, but consider revisiting if major improvements occur." |}
  else
    {| recommendation := "Strong Pass"; conviction := "High";
       rationale := "Poor opportunity with major issues across multiple critical categories.";
       timeline := "Do not pursue." |}.

(** The inner loop of [_calculate_confidence]: the metrics of a category
    that carry a ["validated"] key, and those whose value there is truthy. *)
Fixpoint count_validated (items : dict) : Z * Z :=
  match items with
  | [] => (0, 0)
  | (_, VDict m) :: rest =>
      let '(total, complete) := count_validated rest in
      if dict_mem "validated" m
      then (total + 1, if truthy (get "validated" m) then complete + 1 else complete)
      else (total, complete)
  | _ :: rest => count_validated rest
  end.

(** The outer loop: the reliability scores collected, the number of
    metrics and the number of complete ones. *)
Fixpoint collect_confidence (analysis_results : dict) : result (list value * Z * Z) :=
  match analysis_results with
  | [] => Ok ([], 0, 0)
  | (_, category_data) :: rest =>
      has_meta <- py_in "category_metadata" category_data ;;
      reliability <-
        (if has_meta then
           match category_data with
           | VDict d =>
               r <- attr_get (get "category_metadata" d) "data_reliability_score"
                      (VNum 0.5) ;;
               Ok [r]
           | _ => Raise TypeError
           end
         else Ok []) ;;
      match category_data with
      | VDict d =>
          let '(total, complete) := count_validated d in
          r <- collect_confidence rest ;;
          let '(scores, total', complete') := r in
          Ok ((reliability ++ scores)%list, total + total', complete + complete')
      | _ => Raise AttributeError
      end
  end.

Fixpoint sum_values (vs : list value) : result Q :=
  match vs with
  | [] => Ok 0%Q
  | v :: rest =>
      q <- as_num v ;;
      s <- sum_values rest ;;
      Ok (q + s)%Q
  end.

Record Confidence : Type := {
  level : string;
  score_ : Q;
  completeness : string;
  factors : list string
}.

Definition _calculate_confidence (analysis_results : dict) : result Confidence :=
  c <- collect_confidence analysis_results ;;
  let '(confidence_scores, total_fields, data_completeness) := c in
  total <- sum_values confidence_scores ;;
  let avg_confidence :=
    match confidence_scores with
    | [] => 0.5%Q
    | _ => (total / inject_Z (Z.of_nat (List.length confidence_scores)))%Q
    end in
  let completeness_pct :=
    if 0 <? total_fields
    then (inject_Z data_completeness / inject_Z total_fields * 100)%Q
    else 0%Q in
  let confidence_level :=
    if Qgeb avg_confidence 0.8 && Qgeb completeness_pct 80 then "High"
    else if Qgeb avg_confidence 0.6 && Qgeb completeness_pct 60 then "Medium"
    else "Low" in
  Ok {| level := confidence_level;
        score_ := (inject_Z (py_round (avg_confidence * 100)) / 100)%Q;
        completeness := string_of_Z (py_round completeness_pct) ++ "%";
        factors := [ "Data quality and completeness";
                     "Source reliability";
                     "Consistency across analyses" ] |}.

Record ScoringResult : Type := {
  category_scores : list (string * CategoryScore);
  overall_raw : Q;
  overall_adjusted : Q;
  explanations : list string;
  investment_recommendation : Recommendation;
  confidence : Confidence;
  scoring_version : string;
  scored_at : string
}.

(** [score]; [now] is the clock reading taken for [scored_at]. *)
Definition score
  (config_weights : list (string * Q)) (now : string)
  (analysis_results : dict) (research_results : value) : result ScoringResult :=
  let weights := _get_weights config_weights in
  category_scores <- score_categories weights analysis_results research_results ;;
  let overall_raw := _calculate_overall_score category_scores in
  overall_adjusted <- _apply_overall_adjustments overall_raw analysis_results ;;
  explanations <- _generate_explanations category_scores overall_adjusted ;;
  confidence <- _calculate_confidence analysis_results ;;
  Ok {| category_scores := category_scores;
        overall_raw := overall_raw;
        overall_adjusted := overall_adjusted;
        explanations := explanations;
        investment_recommendation :=
          _generate_investment_recommendation overall_adjusted;
        confidence := confidence;
        scoring_version := "2.1";
        scored_at := now |}.

End scoring_engine.

(** ** consistency_checker.py *)

Module consistency_checker.

Section Builtins.

(** [str(v)], as an f-string applies it to a value that is not a string;
    how Python prints numbers, lists and dicts is left open. *)
Variable py_str : value -> string.

(** [x ** y] on floats, used by the CAGR rule with a fractional
    exponent; left open, as the result is irrational in general. *)
Variable py_pow : Q -> Q -> Q.

Definition fmt (v : value) : string :=
  match v with
  | VStr s => s
  | _ => py_str v
  end.

(** The body of the loops of [_check_currency_consistency] for one
    metric of one section; [exempt] lists the units that are not
    currencies. *)
Definition check_unit
  (section : string) (exempt : list string) (analysis : value)
  (base_currency : value) (metric : string)
  : result (list value * list value) :=
  present <- py_in metric analysis ;;
  if present then
    metric_data <- getitem analysis metric ;;
    unit <- attr_get metric_data "unit" VNone ;;
    if truthy unit && negb (py_eqb unit base_currency)
       && forallb (fun e => negb (py_eqb unit (VStr e))) exempt
    then
      Ok ([ VDict [ ("section", VStr section);
                    ("field", VStr metric);
                    ("issue", VStr ("Currency mismatch: " ++ metric ++ " uses "
                                    ++ fmt unit ++ " instead of "
                                    ++ fmt base_currency));
                    ("severity", VStr "medium") ] ],
          [ VDict [ ("section", VStr section);
                    ("field", VStr (metric ++ ".unit"));
                    ("current", unit);
                    ("corrected", base_currency) ] ])
    else Ok ([], [])
  else Ok ([], []).

Fixpoint check_units
  (section : string) (exempt : list string) (analysis : value)
  (base_currency : value) (metrics : list string)
  : result (list value * list value) :=
  match metrics with
  | [] => Ok ([], [])
  | metric :: rest =>
      r <- check_unit section exempt analysis base_currency metric ;;
      rs <- check_units section exempt analysis base_currency rest ;;
      Ok ((fst r ++ fst rs)%list, (snd r ++ snd rs)%list)
  end.

Definition MARKET_METRICS : list string := ["tam"; "sam"; "som"].
Definition FINANCE_METRICS : list string :=
  ["gross_margin"; "ebitda"; "valuation"; "ask"].

Definition base_currency_of (normalized_data : value) : result value :=
  units <- attr_get normalized_data "units" (VDict []) ;;
  attr_get units "base_currency" (VStr "USD").

Definition _check_currency_consistency
  (normalized_data : value) (analysis_results : dict)
  : result (list value * list value) :=
  base_currency <- base_currency_of normalized_data ;;
  market <-
    match lookup "MarketAnalysis" analysis_results with
    | Some market_analysis =>
        check_units "MarketAnalysis" [] market_analysis base_currency MARKET_METRICS
    | None => Ok ([], [])
    end ;;
  finance <-
    match lookup "Finance" analysis_results with
    | Some finance_analysis =>
        check_units "Finance" ["Percent"; "Ratio"] finance_analysis base_currency
          FINANCE_METRICS
    | None => Ok ([], [])
    end ;;
  Ok ((fst market ++ fst finance)%list, (snd market ++ snd finance)%list).

(** The [try] block of the market rule: [None] is a caught [ValueError]. *)
Definition parse_market_value (validated : string) : option Q :=
  let clean_value := remove_char "," (remove_char "$" validated) in
  let '(multiplier, clean_value) :=
    if ends_with_char "B" clean_value then (1000000000%Q, drop_last clean_value)
    else if ends_with_char "M" clean_value then (1000000%Q, drop_last clean_value)
    else if ends_with_char "K" clean_value then (1000%Q, drop_last clean_value)
    else (1%Q, clean_value) in
  match py_float clean_value with
  | Some v => Some (v * multiplier)%Q
  | None => None
  end.

(** One round of the extraction loop: the numeric value of a metric
    when it is present with a parsable [validated] string. *)
Definition market_value (market_analysis : value) (metric : string)
  : result (option Q) :=
  present <- py_in metric market_analysis ;;
  if present then
    metric_data <- getitem market_analysis metric ;;
    validated <- attr_get metric_data "validated" VNone ;;
    match validated with
    | VStr s => if truthy validated then Ok (parse_market_value s) else Ok None
    | _ => Ok None
    end
  else Ok None.

(** The issue and the fix of one violated inequality [parent <= child]. *)
Definition hierarchy_violation
  (market_analysis : value) (parent child : string) (field : string)
  (parent_name child_name : string) (parent_value child_value : Q)
  : result (list value * list value) :=
  let issue :=
    VDict [ ("section", VStr "MarketAnalysis");
            ("field", VStr field);
            ("issue", VStr ("Market size hierarchy violation: " ++ parent_name
                            ++ " ($" ++ format_comma_0f parent_value ++ ") <= "
                            ++ child_name ++ " ($" ++ format_comma_0f child_value
                            ++ ")"));
            ("severity", VStr "high") ] in
  if Qgtb parent_value 0 then
    child_data <- getitem market_analysis child ;;
    current <- attr_get child_data "validated" VNone ;;
    Ok ([issue],
        [ VDict [ ("section", VStr "MarketAnalysis");
                  ("field", VStr (child ++ ".validated"));
                  ("current", current);
                  ("corrected", VStr ("$" ++ format_comma_0f (parent_value * 0.25)));
                  ("note", VStr ("Adjusted " ++ child_name ++ " to 25% of "
                                 ++ parent_name ++ " to maintain proper hierarchy")) ] ])
  else Ok ([issue], []).

Definition _check_market_size_hierarchy
  (normalized_data : value) (analysis_results : dict)
  : result (list value * list value) :=
  match lookup "MarketAnalysis" analysis_results with
  | None => Ok ([], [])
  | Some market_analysis =>
      tam_value <- market_value market_analysis "tam" ;;
      sam_value <- market_value market_analysis "sam" ;;
      som_value <- market_value market_analysis "som" ;;
      first <-
        match tam_value, sam_value with
        | Some tam, Some sam =>
            if Qle_bool tam sam
            then hierarchy_violation market_analysis "tam" "sam"
                   "tam_sam_hierarchy" "TAM" "SAM" tam sam
            else Ok ([], [])
        | _, _ => Ok ([], [])
        end ;;
      second <-
        match sam_value, som_value with
        | Some sam, Some som =>
            if Qle_bool sam som
            then hierarchy_violation market_analysis "sam" "som"
                   "sam_som_hierarchy" "SAM" "SOM" sam som
            else Ok ([], [])
        | _, _ => Ok ([], [])
        end ;;
      Ok ((fst first ++ fst second)%list, (snd first ++ snd second)%list)
  end.

(** The year read from a period: ["2019-20"] or ["2019"]. *)
Definition year_of_period (period : value) : result (option Z) :=
  match period with
  | VStr s =>
      if truthy period && str_contains "-" s then
        let year_str := before_char "-" s in
        if isdigit year_str then Ok (Some (int_of_digits year_str)) else Ok None
      else if truthy period && isdigit s && Nat.eqb (String.length s) 4 then
        Ok (Some (int_of_digits s))
      else Ok None
  | _ => if truthy period then Raise TypeError else Ok None
  end.

(** The loop that dates the revenue entries. *)
Fixpoint dated_revenues (revenues : list value) : result (list (Z * value)) :=
  match revenues with
  | [] => Ok []
  | revenue :: rest =>
      p <- attr_get revenue "period" VNone ;;
      let period := if truthy p then p else VStr "" in
      v <- attr_get revenue "value" VNone ;;
      match v with
      | VNone => dated_revenues rest
      | _ =>
          year <- year_of_period period ;;
          ds <- dated_revenues rest ;;
          match year with
          | Some y => if negb (y =? 0) then Ok ((y, v) :: ds) else Ok ds
          | None => Ok ds
          end
      end
  end.

(** [list.sort(key=lambda x: x["year"])]: stable, ascending. *)
Fixpoint insert_by_year (x : Z * value) (l : list (Z * value)) : list (Z * value) :=
  match l with
  | [] => [x]
  | y :: l' => if fst y <=? fst x then y :: insert_by_year x l' else x :: l
  end.

Definition sort_by_year (l : list (Z * value)) : list (Z * value) :=
  fold_left (fun sorted x => insert_by_year x sorted) l [].

(** The claimed CAGR of the market analysis, when it parses. *)
Definition claimed_cagr_of (analysis_results : dict) : result (option (Q * value)) :=
  match lookup "MarketAnalysis" analysis_results with
  | None => Ok None
  | Some market_analysis =>
      present <- py_in "cagr" market_analysis ;;
      if present then
        cagr_data <- getitem market_analysis "cagr" ;;
        claimed_str <- attr_get cagr_data "claimed" (VStr "") ;;
        match claimed_str with
        | VStr s =>
            if truthy claimed_str then
              match py_float (remove_char "%" s) with
              | Some c => Ok (Some (c, cagr_data))
              | None => Ok None
              end
            else Ok None
        | _ => Ok None
        end
      else Ok None
  end.

(** The body of the [try] block of the CAGR rule. *)
Definition cagr_try (revenues : list value) (analysis_results : dict)
  : result (list value * list value) :=
  ds <- dated_revenues revenues ;;
  let sorted := sort_by_year ds in
  if (2 <=? List.length sorted)%nat then
    match sorted, rev sorted with
    | (start_year, start_v) :: _, (end_year, end_v) :: _ =>
        let years := end_year - start_year in
        start_revenue <- as_num start_v ;;
        if Qle_bool start_revenue 0 || (years <=? 0) then Ok ([], [])
        else
          end_revenue <- as_num end_v ;;
          let calculated_cagr :=
            (py_pow (end_revenue / start_revenue) (1 / inject_Z years) - 1)%Q in
          let calculated_cagr_pct := (calculated_cagr * 100)%Q in
          claimed <- claimed_cagr_of analysis_results ;;
          match claimed with
          | Some (claimed_cagr, cagr_data) =>
              if Qgtb (Qabs (claimed_cagr - calculated_cagr_pct)) 5 then
                validated <- attr_get cagr_data "validated" VNone ;;
                Ok ([ VDict [ ("section", VStr "MarketAnalysis");
                              ("field", VStr "cagr");
                              ("issue", VStr ("CAGR inconsistency: claimed "
                                              ++ format_1f claimed_cagr
                                              ++ "%, calculated "
                                              ++ format_1f calculated_cagr_pct ++ "%"));
                              ("severity", VStr "medium") ] ],
                    [ VDict [ ("section", VStr "MarketAnalysis");
                              ("field", VStr "cagr.validated");
                              ("current", validated);
                              ("corrected", VStr (format_1f calculated_cagr_pct ++ "%"));
                              ("note", VStr "Adjusted CAGR to match historical revenue growth") ] ])
              else Ok ([], [])
          | None => Ok ([], [])
          end
    | _, _ => Ok ([], [])
    end
  else Ok ([], []).

Definition _check_cagr_calculations
  (normalized_data : value) (analysis_results : dict)
  : result (list value * list value) :=
  finance <- attr_get normalized_data "finance" (VDict []) ;;
  revenues <- attr_get finance "revenues" (VList []) ;;
  n <- py_len revenues ;;
  if (n <? 2)%nat then Ok ([], [])
  else
    match revenues with
    | VList l =>
        match cagr_try l analysis_results with
        | Ok r => Ok r
        | Raise _ => Ok ([], [])
        end
    | _ => Ok ([], [])
    end.

(** The body of the loop of [_check_scoring_consistency] for one
    category of the analysis results. *)
Definition scoring_step
  (category_scores : value) (category : string) (category_data : value)
  : result (list value * list value) :=
  known <- py_in category category_scores ;;
  if known then
    has_average <- py_in "category_average" category_data ;;
    if has_average then
      analysis_score <- getitem category_data "category_average" ;;
      category_score <- getitem category_scores category ;;
      scoring_raw <- attr_get category_score "raw_score" VNone ;;
      match scoring_raw with
      | VNone => Ok ([], [])
      | _ =>
          a <- as_num analysis_score ;;
          b <- as_num scoring_raw ;;
          if Qgtb (Qabs (a - b)) 1 then
            Ok ([ VDict [ ("section", VStr "Scoring");
                          ("field", VStr (category ++ ".raw_score"));
                          ("issue", VStr ("Score inconsistency: analysis "
                                          ++ fmt analysis_score ++ ", scoring "
                                          ++ fmt scoring_raw));
                          ("severity", VStr "medium") ] ],
                [ VDict [ ("section", VStr "Scoring");
                          ("field", VStr ("category_scores." ++ category
                                          ++ ".raw_score"));
                          ("current", scoring_raw);
                          ("corrected", analysis_score);
                          ("note", VStr ("Adjusted scoring to match analysis score for "
                                         ++ category)) ] ])
          else Ok ([], [])
      end
    else Ok ([], [])
  else Ok ([], []).

Fixpoint scoring_loop (category_scores : value) (items : dict)
  : result (list value * list value) :=
  match items with
  | [] => Ok ([], [])
  | (category, category_data) :: rest =>
      r <- scoring_step category_scores category category_data ;;
      rs <- scoring_loop category_scores rest ;;
      Ok ((fst r ++ fst rs)%list, (snd r ++ snd rs)%list)
  end.

Definition _check_scoring_consistency (analysis_results : dict) (scores : value)
  : result (list value * list value) :=
  present <- py_in "category_scores" scores ;;
  if negb present then Ok ([], [])
  else
    category_scores <- getitem scores "category_scores" ;;
    scoring_loop category_scores analysis_results.

(** [sum(1 for issue in issues if issue.get("severity") == severity)] *)
Fixpoint count_severity (severity : string) (issues : list value) : result Z :=
  match issues with
  | [] => Ok 0
  | issue :: rest =>
      s <- attr_get issue "severity" VNone ;;
      n <- count_severity severity rest ;;
      Ok ((if py_eqb s (VStr severity) then 1 else 0) + n)
  end.

Definition _calculate_consistency_score (issues : list value) : result Q :=
  high_count <- count_severity "high" issues ;;
  medium_count <- count_severity "medium" issues ;;
  low_count <- count_severity "low" issues ;;
  let score := 10.0%Q in
  let score := (score - inject_Z high_count * 2.0)%Q in
  let score := (score - inject_Z medium_count * 1.0)%Q in
  let score := (score - inject_Z low_count * 0.5)%Q in
  let m := if Qgtb 10.0 score then score else 10.0%Q in
  Ok (if Qgtb m 1.0 then m else 1.0%Q).

End Builtins.

End consistency_checker.

(** * Specification-side definitions *)

Import currency_converter.
Import schema_normalizer.
Import scoring_engine.
Import consistency_checker.

(** A category result shaped as an error: a mapping with an ["error"] key. *)
Definition shaped_as_error (section : value) : bool :=
  match section with
  | VDict d => dict_mem "error" d
  | _ => false
  end.

(** The fraction of the analysis categories that are not shaped as errors. *)
Definition non_error_fraction (analyses : dict) : Q :=
  inject_Z (Z.of_nat (List.length
     (filter (fun kv => negb (shaped_as_error (snd kv))) analyses)))
  / inject_Z (Z.of_nat (List.length analyses)).

(** Every category of the map holds a mapping (an [AnalysisResult] or an
    error object). *)
Definition all_mappings (analyses : dict) : Prop :=
  Forall (fun kv => is_dict (snd kv) = true) analyses.

Definition failed_market_analyses : dict :=
  [ ("MarketAnalysis", VDict [("error", VStr "timeout")]);
    ("Finance", VDict [("category_average", VNum 8)]) ].





(** The same run with the failed category left out of the map. *)
Definition finance_only_analyses : dict :=
  [ ("Finance", VDict [("category_average", VNum 8)]) ].

(** The value under a key of an issue or a fix. *)
Definition entry (k : string) (v : value) : value :=
  match v with
  | VDict d => get k d
  | _ => VNone
  end.

(** A metric is missing from an analysis result, or is a mapping. *)
Definition absent_or_mapping (key : string) (d : dict) : Prop :=
  match lookup key d with
  | Some v => is_dict v = true
  | None => True
  end.

(** Market analysis results with TAM = $100M and SAM = $150M. *)
Definition market_100_150 : dict :=
  [ ("tam", VDict [("validated", VStr "$100M")]);
    ("sam", VDict [("validated", VStr "$150M")]) ].

(** A power function for the CAGR rule that is exact on fractions of
    perfect squares: the exponent 1/2 takes the integer square roots of
    numerator and denominator. *)
Definition sqrt_pow (x y : Q) : Q :=
  if Qeq_bool y (1 # 2) then Z.sqrt (Qnum x) # Pos.sqrt (Qden x) else x.

(** The revenues of 2021 and 2023 and a claimed CAGR of 50%. *)
Definition revenues_100_144 : dict :=
  [ ("finance",
     VDict [ ("revenues",
              VList [ VDict [("period", VStr "2021"); ("value", VNum 100)];
                      VDict [("period", VStr "2023"); ("value", VNum 144)] ]) ]) ].

Definition claimed_cagr_50 : dict :=
  [ ("MarketAnalysis",
     VDict [ ("cagr", VDict [("claimed", VStr "50%"); ("validated", VStr "45%")]) ]) ].

(** The unit declared by a metric of an analysis result. *)
Definition declared_unit (a : dict) (metric : string) : value :=
  match lookup metric a with
  | Some (VDict m) => get "unit" m
  | _ => VNone
  end.

(** The checker's test on a declared unit. *)
Definition unit_mismatch (exempt : list string) (base unit : value) : bool :=
  truthy unit && negb (py_eqb unit base)
  && forallb (fun e => negb (py_eqb unit (VStr e))) exempt.

Definition issue_for (section field : string) (i : value) : bool :=
  py_eqb (entry "section" i) (VStr section) && py_eqb (entry "field" i) (VStr field).

(** The analysis of a section is missing, or a mapping whose checked
    metrics are mappings. *)
Definition section_shaped (section : string) (metrics : list string)
  (analyses : dict) : Prop :=
  match lookup section analyses with
  | None => True
  | Some v => exists a, v = VDict a /\ Forall (fun m => absent_or_mapping m a) metrics
  end.

(** The issue and the fix that the currency rule writes for a metric. *)
Definition unit_issue (py_str : value -> string) (section : string) (a : dict) (base : value) (metric : string) : value :=
  VDict [ ("section", VStr section);
          ("field", VStr metric);
          ("issue", VStr ("Currency mismatch: " ++ metric ++ " uses "
                          ++ fmt py_str (declared_unit a metric) ++ " instead of "
                          ++ fmt py_str base));
          ("severity", VStr "medium") ].

Definition unit_fix (section : string) (a : dict) (base : value) (metric : string) : value :=
  VDict [ ("section", VStr section);
          ("field", VStr (metric ++ ".unit"));
          ("current", declared_unit a metric);
          ("corrected", base) ].

Definition flagged (exempt : list string) (a : dict) (base : value) (metric : string) : bool :=
  unit_mismatch exempt base (declared_unit a metric).

(** The sections and metrics the currency rule looks at, with the units
    it does not take for currencies. *)
Definition CHECKED_SECTIONS : list (string * list string * list string) :=
  [ ("MarketAnalysis", [], MARKET_METRICS);
    ("Finance", ["Percent"; "Ratio"], FINANCE_METRICS) ].

(** A pitch in USD and a finance result whose ARR is declared in INR. *)
Definition usd_pitch : value :=
  VDict [ ("units", VDict [("base_currency", VStr "USD")]) ].

Definition finance_arr_inr : dict :=
  [ ("Finance",
     VDict [ ("arr", VDict [ ("claimed", VStr "INR 10,000,000");
                             ("data_type", VStr "currency");
                             ("unit", VStr "INR") ]) ]) ].

Definition market_tam_eur : dict :=
  [ ("MarketAnalysis",
     VDict [ ("tam", VDict [ ("validated", VStr "$100M");
                             ("data_type", VStr "currency");
                             ("unit", VStr "EUR") ]) ]) ].

(** A rendering of values for the issue texts of the examples. *)
Definition plain_str (v : value) : string := "<value>".

(** Magnitudes that binary floating point handles without overflow or
    underflow, with room for the roundings of a few operations: zero, or
    between 10^-200 and 10^200.  The embedding computes over the
    rationals, so a theorem that asserts a numeric result is stated for
    numbers in this range. *)
Definition FLOAT_ROOM : Q := inject_Z (10 ^ 200).

Definition float_safe (q : Q) : Prop :=
  (q == 0 \/ (1 / FLOAT_ROOM <= Qabs q /\ Qabs q <= FLOAT_ROOM))%Q.

(** An exchange rate of ordinary size: between 10^-9 and 10^9 in
    magnitude, so not zero. *)
Definition sane_rate (r : Q) : Prop :=
  (1 / 1000000000 <= Qabs r /\ Qabs r <= 1000000000)%Q.

(** The rates of the default configuration file. *)
Definition configured_rates : currency_converter.config :=
  Some [ ("INR", 87.0%Q); ("EUR", 0.85%Q); ("GBP", 0.73%Q) ].

(** A rate table that lists EUR with the rate 0. *)
Definition zero_eur_rates : currency_converter.config :=
  Some [ ("EUR", 0%Q) ].

(** The monetary leaves of the canonical schema, by section. *)
Definition MONEY_LEAVES : list (string * string) :=
  [ ("market", "tam"); ("market", "sam"); ("market", "som");
    ("finance", "arr"); ("finance", "mrr"); ("finance", "total_revenue");
    ("finance", "gross_profit"); ("finance", "ebita");
    ("fundraise", "ask"); ("fundraise", "valuation"); ("fundraise", "funds_raised") ].

(** A [CurrencyAmount] (or a revenue entry) is stated in USD. *)
Definition in_usd (amount : value) : Prop := entry "currency" amount = VStr "USD".

(** A raw document with mapped fields, amounts in INR and EUR, and fields
    the canonical schema does not know. *)
Definition sample_extraction : dict :=
  [ ("company_name", VStr "Acme");
    ("USP", VStr "fast");
    ("tam", VDict [("value", VNum 7500); ("currency", VStr "INR")]);
    ("notes", VNone);
    ("headcount", VNum 12);
    ("office", VDict [("city", VStr "Pune"); ("zip", VNone)]);
    ("founders", VList [VDict [("name", VStr "A"); ("age", VNum 30)]]);
    ("revenues",
     VList [ VDict [("year", VStr "2023"); ("value", VNum 144)];
             VDict [("year", VStr "2021"); ("value", VNum 100);
                    ("currency", VStr "EUR")] ]) ].

Definition sample_fields : dict :=
  [ ("clientId", VStr "c1"); ("extraction", VDict sample_extraction) ].

Definition sample_raw : value := VDict sample_fields.












(** Documents whose extraction holds one field the schema does not map. *)
Definition raw_with_name : value :=
  VDict [ ("extraction", VDict [ ("name", VStr "Acme Inc") ]) ].



(** An [int], a [float] or a [bool]: what arithmetic and [>=] accept. *)
Definition is_number (v : value) : bool :=
  match v with
  | VNum _ | VBool _ => true
  | _ => false
  end.

(** The metric the consolidation reads of an analysis result, if the
    result has it, is a mapping with a numeric [final_score]. *)
Definition scored_metric_ok (metric : string) (d : dict) : bool :=
  match lookup metric d with
  | None => true
  | Some (VDict m) => is_number (get_default "final_score" (VNum 0) m)
  | Some _ => false
  end.

(** A number within the floating-point range of [FLOAT_ROOM] (a category
    score is between 1 and 10). *)
Definition moderate_number (v : value) : bool :=
  match v with
  | VNum q => Qle_bool (Qabs q) FLOAT_ROOM
  | VBool _ => true
  | _ => false
  end.

(** [category_average], if the result has it, is such a number. *)
Definition category_average_ok (d : dict) : bool :=
  match lookup "category_average" d with
  | None => true
  | Some v => moderate_number v
  end.

(** An analysis result the consolidation can read. *)
Definition readable_result (metric : string) (r : value) : bool :=
  match r with
  | VDict d => scored_metric_ok metric d && category_average_ok d
  | _ => false
  end.

(** What an analysis agent did: it raised, or it returned a readable
    result. *)
Definition agent_outcome_ok (metric : string) (outcome : result value) : bool :=
  match outcome with
  | Ok r => readable_result metric r
  | Raise _ => true
  end.

Definition ALL_AGENTS : list string :=
  [ "mongo_fetcher"; "schema_normalizer"; "market_analysis"; "finance_analysis" ].

(** A document whose [revenues] is a number; its other fields are
    sound. *)
Definition raw_bad_revenues : dict :=
  [ ("clientId", VStr "c1");
    ("extraction", VDict [ ("tagline", VStr "Spice Story brings flavours home");
                           ("revenues", VNum 5) ]) ].

Definition sample_market_agent (data : value) : result value :=
  Ok (VDict [ ("tam", VDict [("final_score", VNum 8)]);
              ("category_average", VNum 8) ]).

Definition sample_finance_agent (data : value) : result value :=
  Raise (OtherError "no finance data").

Definition sample_exn_str (e : exn) : string :=
  match e with
  | TypeError => "TypeError"
  | AttributeError => "AttributeError"
  | KeyError => "KeyError"
  | ValueError => "ValueError"
  | ZeroDivisionError => "division by zero"
  | OtherError msg => msg
  end.

Definition sample_details : value :=
  VDict [ ("name", VStr "Spice Story"); ("domain", VStr "Technology");
          ("business_model", VStr "B2B"); ("CEO", VStr "Management Team") ].

(** What the consolidation needs of the analysis results. *)
Definition consolidable (l : dict) : Prop :=
  Forall (fun kv => exists d, snd kv = VDict d /\ category_average_ok d = true) l
  /\ readable_result "tam" (get_default "MarketAnalysis" (VDict []) l) = true
  /\ readable_result "runway" (get_default "Finance" (VDict []) l) = true.

Definition sample_fetcher (pitch_id : string) : result value :=
  Ok (VDict raw_bad_revenues).

(** A document whose [extraction] is not a mapping. *)
Definition raw_corrupt : dict :=
  [ ("clientId", VStr "c1"); ("extraction", VStr "corrupt") ].

Definition corrupt_fetcher (pitch_id : string) : result value :=
  Ok (VDict raw_corrupt).

(** The recommendation and the overall explanation of each band of the
    overall score, from the best band to the worst. *)
Definition BANDS : list (string * string) :=
  [ ("Strong Buy",
     "Overall score indicates an excellent investment opportunity with strong fundamentals.");
    ("Buy",
     "Overall score indicates a good investment opportunity with solid potential but some areas for improvement.");
    ("Hold/Watch",
     "Overall score indicates an average investment opportunity with both strengths and weaknesses.");
    ("Weak Pass",
     "Overall score indicates a below-average investment opportunity with significant concerns.");
    ("Strong Pass",
     "Overall score indicates a poor investment opportunity with major issues that need addressing.") ].

(** Python's order on the periods of two revenues, both numbers or both
    strings: the period of the first is not above that of the second. *)
Definition period_le (a b : value) : Prop :=
  match period_of a, period_of b with
  | VNum p, VNum q => (p <= q)%Q
  | VStr s, VStr t => String.ltb t s = false
  | _, _ => False
  end.

Definition numeric_period (x : value) : Prop :=
  exists q : Q, period_of x = VNum q.

Definition string_period (x : value) : Prop :=
  exists s : string, period_of x = VStr s.

Definition revenues_2023_2021 : value :=
  VList [ VDict [("year", VNum 2023); ("value", VNum 144); ("currency", VStr "USD")];
          VStr "n/a";
          VDict [("year", VNum 2021); ("value", VNum 100)] ].

(** Finance results whose margin is a percentage and whose valuation is
    in the base currency. *)
Definition finance_margin_percent : dict :=
  [ ("Finance",
     VDict [ ("gross_margin", VDict [("unit", VStr "Percent")]);
             ("valuation", VDict [("unit", VStr "USD")]) ]) ].

(** The first amount exceeds the second, which is positive, by more than
    one part in a billion: far more than the rounding of a double, so
    that the floating-point values compare as the amounts do. *)
Definition clearly_above (x y : Q) : Prop :=
  (0 < y /\ y * (1 + 1 / 1000000000) < x)%Q.

(** Market analysis results with TAM = $1.2B, SAM = $300M and
    SOM = $45M. *)
Definition market_proper : dict :=
  [ ("tam", VDict [("validated", VStr "$1.2B")]);
    ("sam", VDict [("validated", VStr "$300M")]);
    ("som", VDict [("validated", VStr "$45M")]) ].

(** A normalized document with three revenues, one of them undated. *)
Definition revenues_mixed : value :=
  VDict [ ("finance",
           VDict [ ("revenues",
                    VList [ VDict [("period", VStr "2021"); ("value", VNum 100)];
                            VDict [("period", VStr "n/a"); ("value", VNum 120)];
                            VStr "corrupt" ]) ]) ].

Definition issue_of_severity (severity : string) : value :=
  VDict [ ("section", VStr "MarketAnalysis"); ("severity", VStr severity) ].

(** The dictionary that [score] stores under a category, and the
    dictionary of all categories, as the consistency checker reads them. *)
Definition category_score_dict (cs : CategoryScore) : value :=
  VDict [ ("raw_score", raw_score cs);
          ("adjusted_score", adjusted_score cs);
          ("weight", VNum (weight cs));
          ("weighted_score", VNum (weighted_score cs)) ].

Definition category_scores_dict (scores : list (string * CategoryScore)) : value :=
  VDict (map (fun cs => (fst cs, category_score_dict (snd cs))) scores).

Definition analyses_8_6 : dict :=
  [ ("MarketAnalysis", VDict [("category_average", VNum 8)]);
    ("Finance", VDict [("category_average", VNum 6)]);
    ("Team", VDict [("category_average", VNum 9)]) ].


(** * Proofs *)

(** ** Rounding *)

Lemma py_round_comp (x y : Q) : (x == y)%Q -> py_round x = py_round y.
Proof.
  intros E. unfold py_round.
  rewrite (Qfloor_comp _ _ E).
  assert (C : (x - inject_Z (Qfloor y) ?= 1 # 2)%Q
              = (y - inject_Z (Qfloor y) ?= 1 # 2)%Q).
  { apply Qcompare_comp; [rewrite E|]; reflexivity. }
  now rewrite C.
Qed.

Lemma py_round_bounds (a b : Z) (x : Q) :
  (inject_Z a <= x)%Q -> (x <= inject_Z b)%Q -> a <= py_round x <= b.
Proof.
  intros Ha Hb.
  assert (Fa : a <= Qfloor x).
  { rewrite <- (Qfloor_Z a). now apply Qfloor_resp_le. }
  assert (Fb : Qfloor x <= b).
  { rewrite <- (Qfloor_Z b). now apply Qfloor_resp_le. }
  assert (Up : (inject_Z (Qfloor x) < x)%Q -> Qfloor x + 1 <= b).
  { intros L. assert (S : (inject_Z (Qfloor x) < inject_Z b)%Q)
      by (eapply Qlt_le_trans; eauto).
    rewrite <- Zlt_Qlt in S. lia. }
  unfold py_round.
  destruct (Qcompare (x - inject_Z (Qfloor x)) (1 # 2)) eqn:C.
  - apply Qeq_alt in C. destruct (Z.even (Qfloor x)); [lia|].
    split; [lia|]. apply Up. lra.
  - lia.
  - apply Qgt_alt in C. split; [lia|]. apply Up. lra.
Qed.

(** ** The confidence score of the orchestrator *)

Lemma count_error_sections_mappings (ar : dict) :
  all_mappings ar ->
  orchestrator.count_error_sections ar
  = Ok (Z.of_nat (List.length (filter (fun kv => shaped_as_error (snd kv)) ar))).
Proof.
  induction 1 as [|[k v] ar Hv _ IH]; [reflexivity|].
  destruct v; try discriminate. cbn [orchestrator.count_error_sections].
  cbn [py_in bind]. rewrite IH. cbn [bind filter snd shaped_as_error].
  destruct (dict_mem "error" d); cbn [List.length]; f_equal; lia.
Qed.

Lemma filter_split_length {A : Type} (p : A -> bool) (l : list A) :
  (List.length (filter p l) + List.length (filter (fun a => negb (p a)) l)
   = List.length l)%nat.
Proof.
  induction l as [|a l IH]; [reflexivity|].
  cbn. destruct (p a); cbn; lia.
Qed.

(** C10: on every analyses map whose categories are mappings the
    confidence score is an integer between 5 and 10: 6 on the empty map,
    otherwise [round(5 + 5 f)] with [f] the fraction of categories that
    are not shaped as errors; it is 5 when every category failed. *)
Theorem confidence_score_between_5_and_10 (analyses : dict) :
  all_mappings analyses ->
  exists n : Z,
    orchestrator._calculate_confidence_score analyses = Ok n
    /\ 5 <= n <= 10
    /\ (analyses = [] -> n = 6)
    /\ (analyses <> [] ->
        n = py_round (5 + 5 * non_error_fraction analyses)).
Proof.
  intros M. unfold orchestrator._calculate_confidence_score.
  destruct analyses as [|kv ar]; [exists 6; cbn; repeat split; try lia; congruence|].
  set (l := kv :: ar) in *.
  replace (negb (truthy (VDict l))) with false by reflexivity.
  rewrite (count_error_sections_mappings l M). cbn [bind].
  pose proof (filter_split_length (fun kv => shaped_as_error (snd kv)) l) as S.
  set (e := List.length (filter (fun kv => shaped_as_error (snd kv)) l)) in *.
  set (g := List.length (filter (fun kv => negb (shaped_as_error (snd kv))) l)) in *.
  assert (P : (0 < List.length l)%nat) by (subst l; cbn; lia).
  destruct (Z.of_nat (List.length l) =? 0) eqn:Z0; [apply Z.eqb_eq in Z0; lia|].
  eexists. split; [reflexivity|].
  assert (G : Z.of_nat (List.length l) - Z.of_nat e = Z.of_nat g) by lia.
  rewrite G.
  assert (Tpos : (0 < inject_Z (Z.of_nat (List.length l)))%Q).
  { replace 0%Q with (inject_Z 0) by reflexivity. rewrite <- Zlt_Qlt. lia. }
  assert (F0 : (0 <= inject_Z (Z.of_nat g) / inject_Z (Z.of_nat (List.length l)))%Q).
  { apply Qle_shift_div_l; [exact Tpos|].
    rewrite Qmult_0_l. replace 0%Q with (inject_Z 0) by reflexivity.
    rewrite <- Zle_Qle. lia. }
  assert (F1 : (inject_Z (Z.of_nat g) / inject_Z (Z.of_nat (List.length l)) <= 1)%Q).
  { apply Qle_shift_div_r; [exact Tpos|].
    rewrite Qmult_1_l. rewrite <- Zle_Qle. lia. }
  split; [|split].
  - apply py_round_bounds.
    + change (inject_Z 5) with 5%Q. lra.
    + change (inject_Z 10) with 10%Q. lra.
  - discriminate.
  - intros _. apply py_round_comp. unfold non_error_fraction. fold g. lra.
Qed.

Lemma confidence_score_between_5_and_10_witness :
  exists n : Z,
    orchestrator._calculate_confidence_score failed_market_analyses = Ok n
    /\ 5 <= n <= 10
    /\ (failed_market_analyses = [] -> n = 6)
    /\ (failed_market_analyses <> [] ->
        n = py_round (5 + 5 * non_error_fraction failed_market_analyses)).
Proof.
  apply (confidence_score_between_5_and_10 failed_market_analyses).
  repeat constructor.
Defined.

(** ** The weights of the scoring engine *)


Lemma Qgtb_true (a b : Q) : Qgtb a b = true <-> (b < a)%Q.
Proof.
  unfold Qgtb. rewrite negb_true_iff, <- not_true_iff_false, Qle_bool_iff.
  split; [apply Qnot_le_lt | apply Qlt_not_le].
Qed.




Lemma lookup_none_notin {A : Type} (k : string) (d : list (string * A)) :
  lookup k d = None <-> ~ In k (map fst d).
Proof.
  induction d as [|[k' v] d IH]; cbn; [tauto|].
  destruct (String.eqb_spec k k') as [->|N].
  - split; [discriminate | intros H; exfalso; apply H; now left].
  - rewrite IH. split; [intros H [E|I]; [congruence | tauto] | tauto].
Qed.

Lemma dict_set_keys {A : Type} (k : string) (v : A) (d : list (string * A)) :
  dict_mem k d = true -> map fst (dict_set k v d) = map fst d.
Proof.
  unfold dict_mem. induction d as [|[k' v'] d IH]; cbn; [discriminate|].
  destruct (String.eqb_spec k k') as [->|N]; cbn; [reflexivity|].
  intros H. now rewrite IH.
Qed.

Lemma override_step_keys (w : list (string * Q)) (cw : string * Q) :
  map fst (override_step w cw) = map fst w.
Proof.
  unfold override_step. destruct (dict_mem (fst cw) w) eqn:M; [|reflexivity].
  now apply dict_set_keys.
Qed.

Lemma override_loop_keys (ov w : list (string * Q)) :
  map fst (fold_left override_step ov w) = map fst w.
Proof.
  revert w. induction ov as [|cw ov IH]; intros w; cbn; [reflexivity|].
  now rewrite IH, override_step_keys.
Qed.

Lemma get_weights_keys (config_weights : list (string * Q)) :
  map fst (_get_weights config_weights) = map fst DEFAULT_WEIGHTS.
Proof.
  unfold _get_weights.
  destruct (Qgtb _ 0).
  - rewrite map_map. cbn [fst]. apply override_loop_keys.
  - apply override_loop_keys.
Qed.







(** ** Categories shaped as errors in the scoring engine *)

Lemma bind_ok {A B : Type} (r : result A) (k : A -> result B) (b : B) :
  bind r k = Ok b -> exists a, r = Ok a /\ k a = Ok b.
Proof.
  destruct r as [a|e]; cbn; [eauto | discriminate].
Qed.

Ltac bind_inv H :=
  let a := fresh "a" in
  let E := fresh "E" in
  apply bind_ok in H; destruct H as (a & E & H).

Lemma score_categories_entry
  (w : list (string * Q)) (ar : dict) (res : value)
  (scores : list (string * CategoryScore)) (category : string) (d : dict) (q : Q) :
  score_categories w ar res = Ok scores ->
  lookup category w = Some q ->
  lookup category ar = Some (VDict d) ->
  lookup "category_average" d = None ->
  exists cs, lookup category scores = Some cs
             /\ raw_score cs = VNum 0 /\ weight cs = q.
Proof.
  intros S Lw La Ld. revert scores S Lw.
  induction w as [|[c x] w IH]; intros scores S Lw; [discriminate|].
  cbn [score_categories] in S. cbn [lookup] in Lw.
  destruct (String.eqb_spec category c) as [->|N].
  - injection Lw as ->. rewrite La in S.
    bind_inv S. bind_inv S. bind_inv S. bind_inv S. injection S as <-.
    cbn [lookup]. rewrite String.eqb_refl. eexists. split; [reflexivity|].
    cbn. split; [|reflexivity].
    cbn in E. unfold get_default in E. rewrite Ld in E. congruence.
  - destruct (lookup c ar) eqn:Lc; [|now apply IH].
    bind_inv S. bind_inv S. bind_inv S. bind_inv S. injection S as <-.
    cbn [lookup]. destruct (String.eqb_spec category c); [contradiction|].
    now apply IH.
Qed.

Lemma score_categories_absent
  (w : list (string * Q)) (ar : dict) (res : value)
  (scores : list (string * CategoryScore)) (category : string) :
  score_categories w ar res = Ok scores ->
  lookup category ar = None ->
  lookup category scores = None.
Proof.
  intros S La. revert scores S.
  induction w as [|[c x] w IH]; intros scores S.
  - injection S as <-. reflexivity.
  - cbn [score_categories] in S. destruct (lookup c ar) eqn:Lc; [|now apply IH].
    bind_inv S. bind_inv S. bind_inv S. bind_inv S. injection S as <-.
    cbn [lookup]. destruct (String.eqb_spec category c) as [->|N]; [congruence|].
    now apply IH.
Qed.

Lemma lookup_in_keys {A : Type} (k : string) (d : list (string * A)) :
  In k (map fst d) -> exists v, lookup k d = Some v.
Proof.
  intros I. destruct (lookup k d) eqn:L; [eauto|].
  apply lookup_none_notin in L. contradiction.
Qed.

(** C1, amended: a weighted category whose analysis is an error object
    (a mapping without [category_average]) still has its entry in
    [category_scores], with the default raw score 0 and its full weight;
    only a category that is absent from the analyses map has no entry. *)
Theorem score_error_category_has_entry
  (config_weights : list (string * Q)) (now : string)
  (analyses : dict) (research : value) (r : ScoringResult)
  (category : string) (d : dict) :
  In category (map fst DEFAULT_WEIGHTS) ->
  lookup category analyses = Some (VDict d) ->
  lookup "category_average" d = None ->
  score config_weights now analyses research = Ok r ->
  (exists cs, lookup category (category_scores r) = Some cs
              /\ raw_score cs = VNum 0
              /\ lookup category (_get_weights config_weights) = Some (weight cs))
  /\ (forall absent, lookup absent analyses = None ->
                     lookup absent (category_scores r) = None).
Proof.
  intros I La Ld S. unfold score in S.
  bind_inv S. bind_inv S. bind_inv S. bind_inv S. injection S as <-.
  cbn [category_scores]. split.
  - rewrite <- (get_weights_keys config_weights) in I.
    destruct (lookup_in_keys _ _ I) as [q Lq].
    destruct (score_categories_entry _ _ _ _ _ _ _ E Lq La Ld) as (cs & L & R & W).
    exists cs. subst q. auto.
  - intros absent Lab. eapply score_categories_absent; eauto.
Qed.

Lemma score_error_category_has_entry_witness :
  exists r cs,
    score [] "2025-01-01T00:00:00" failed_market_analyses VNone = Ok r
    /\ lookup "MarketAnalysis" (category_scores r) = Some cs
    /\ raw_score cs = VNum 0
    /\ lookup "MarketAnalysis" (_get_weights []) = Some (weight cs).
Proof.
  destruct (score [] "2025-01-01T00:00:00" failed_market_analyses VNone)
    as [r|e] eqn:S; [|vm_compute in S; discriminate].
  destruct (score_error_category_has_entry [] "2025-01-01T00:00:00"
              failed_market_analyses VNone r "MarketAnalysis"
              [("error", VStr "timeout")]) as [(cs & L & R & W) _].
  - cbn. auto.
  - reflexivity.
  - reflexivity.
  - exact S.
  - exists r, cs. auto.
Defined.

(** C1 as stated fails: the failed market category is scored with raw
    score 0 and weight 0.2, and pulls [overall_raw] from the 8.0 of the
    run without it down to 4.4. *)
Lemma score_error_category_is_scored :
  shaped_as_error (get "MarketAnalysis" failed_market_analyses) = true
  /\ (exists r cs,
        score [] "2025-01-01T00:00:00" failed_market_analyses VNone = Ok r
        /\ lookup "MarketAnalysis" (category_scores r) = Some cs
        /\ raw_score cs = VNum 0
        /\ (weight cs == 0.2)%Q
        /\ (overall_raw r == 4.4)%Q)
  /\ (exists r',
        score [] "2025-01-01T00:00:00" finance_only_analyses VNone = Ok r'
        /\ lookup "MarketAnalysis" (category_scores r') = None
        /\ (overall_raw r' == 8)%Q).
Proof.
  split; [reflexivity|]. split.
  - eexists. eexists. split; [vm_compute; reflexivity|].
    split; [vm_compute; reflexivity|]. repeat split; reflexivity.
  - eexists. split; [vm_compute; reflexivity|]. split; reflexivity.
Qed.

(** ** The market-size hierarchy rule *)


Lemma market_value_of_validated (ma d : dict) (metric s : string) :
  lookup metric ma = Some (VDict d) ->
  get "validated" d = VStr s ->
  s <> "" ->
  market_value (VDict ma) metric = Ok (parse_market_value s).
Proof.
  intros L G N. unfold market_value. cbn [py_in bind]. unfold dict_mem. rewrite L.
  cbn [getitem bind]. rewrite L. cbn [bind attr_get].
  fold (get "validated" d). rewrite G. cbn [truthy].
  destruct (String.eqb_spec s ""); [contradiction|]. reflexivity.
Qed.

Lemma market_value_mapping (ma : dict) (metric : string) :
  absent_or_mapping metric ma ->
  exists o, market_value (VDict ma) metric = Ok o
            /\ (lookup metric ma = None -> o = None)
            /\ (o <> None -> exists d, lookup metric ma = Some (VDict d)).
Proof.
  unfold absent_or_mapping, market_value. cbn [py_in bind]. unfold dict_mem.
  destruct (lookup metric ma) as [v|] eqn:L.
  - intros D. destruct v; try discriminate. cbn [getitem bind]. rewrite L.
    cbn [bind attr_get].
    destruct (get_default "validated" VNone d) eqn:G;
      try (eexists; split; [reflexivity | split; [discriminate | eauto]]).
    destruct (truthy (VStr s));
      eexists; (split; [reflexivity | split; [discriminate | eauto]]).
  - intros _. eexists. split; [reflexivity|]. split; [reflexivity | congruence].
Qed.

Lemma sam_som_part (ma : dict) (sam : Q) (o : option Q) :
  (o <> None -> exists d, lookup "som" ma = Some (VDict d)) ->
  exists issues fixes,
    match o with
    | Some som =>
        if Qle_bool sam som
        then hierarchy_violation (VDict ma) "sam" "som"
               "sam_som_hierarchy" "SAM" "SOM" sam som
        else Ok ([], [])
    | None => Ok ([], [])
    end = Ok (issues, fixes)
    /\ Forall (fun i => entry "field" i <> VStr "tam_sam_hierarchy") issues
    /\ Forall (fun f => entry "field" f <> VStr "sam.validated") fixes
    /\ (o = None -> issues = [] /\ fixes = []).
Proof.
  intros Osome. destruct o as [som|].
  - destruct Osome as [d L]; [discriminate|].
    unfold hierarchy_violation. cbn [getitem]. rewrite L. cbn [bind attr_get].
    destruct (Qle_bool sam som); [destruct (Qgtb sam 0)|];
      eexists; eexists; (split; [reflexivity|]);
      (split; [|split; [|discriminate]]); repeat constructor; cbn; discriminate.
  - exists [], []. repeat split; constructor.
Qed.

(** C5: with [tam.validated = "$100M"] and [sam.validated = "$150M"] the
    market rule emits one issue for [tam_sam_hierarchy], of high
    severity, and one fix for [sam.validated] whose corrected value is
    ["$25,000,000"]; no other issue or fix bears these fields, and none
    at all is emitted when there is no SOM metric. *)
Theorem tam_below_sam_flagged (normalized_data : value) (analyses ma tam_d sam_d : dict) :
  lookup "MarketAnalysis" analyses = Some (VDict ma) ->
  lookup "tam" ma = Some (VDict tam_d) ->
  get "validated" tam_d = VStr "$100M" ->
  lookup "sam" ma = Some (VDict sam_d) ->
  get "validated" sam_d = VStr "$150M" ->
  absent_or_mapping "som" ma ->
  exists issue repair more_issues more_fixes,
    _check_market_size_hierarchy normalized_data analyses
    = Ok (issue :: more_issues, repair :: more_fixes)
    /\ entry "field" issue = VStr "tam_sam_hierarchy"
    /\ entry "severity" issue = VStr "high"
    /\ entry "field" repair = VStr "sam.validated"
    /\ entry "current" repair = VStr "$150M"
    /\ entry "corrected" repair = VStr "$25,000,000"
    /\ Forall (fun i => entry "field" i <> VStr "tam_sam_hierarchy") more_issues
    /\ Forall (fun f => entry "field" f <> VStr "sam.validated") more_fixes
    /\ (lookup "som" ma = None -> more_issues = [] /\ more_fixes = []).
Proof.
  intros LM Lt Gt Ls Gs Som. unfold _check_market_size_hierarchy. rewrite LM.
  rewrite (market_value_of_validated ma tam_d "tam" "$100M" Lt Gt) by discriminate.
  rewrite (market_value_of_validated ma sam_d "sam" "$150M" Ls Gs) by discriminate.
  destruct (market_value_mapping ma "som" Som) as (o & Eo & Onone & Osome).
  rewrite Eo. cbn [bind].
  replace (parse_market_value "$100M") with (Some 100000000%Q) by (vm_compute; reflexivity).
  replace (parse_market_value "$150M") with (Some 150000000%Q) by (vm_compute; reflexivity).
  replace (Qle_bool 100000000 150000000) with true by reflexivity.
  unfold hierarchy_violation at 1.
  replace (Qgtb 100000000 0) with true by reflexivity.
  cbn [getitem bind]. rewrite Ls. cbn [bind attr_get].
  fold (get "validated" sam_d). rewrite Gs.
  destruct (sam_som_part ma 150000000 o Osome) as (is2 & fs2 & E2 & Fi & Ff & N2).
  rewrite E2. cbn [bind fst snd app].
  do 4 eexists. split; [reflexivity|].
  repeat (split; [first [reflexivity | assumption]|]).
  intros L. apply N2, Onone, L.
Qed.

Lemma tam_below_sam_flagged_witness :
  exists issue repair,
    _check_market_size_hierarchy VNone [("MarketAnalysis", VDict market_100_150)]
    = Ok ([issue], [repair])
    /\ entry "field" issue = VStr "tam_sam_hierarchy"
    /\ entry "severity" issue = VStr "high"
    /\ entry "field" repair = VStr "sam.validated"
    /\ entry "corrected" repair = VStr "$25,000,000".
Proof.
  destruct (tam_below_sam_flagged VNone
              [("MarketAnalysis", VDict market_100_150)] market_100_150
              [("validated", VStr "$100M")] [("validated", VStr "$150M")])
    as (issue & repair & mi & mf & E & Fi & Si & Ff & _ & Cf & _ & _ & N);
    try reflexivity; try exact I.
  destruct N as [-> ->]; [reflexivity|]. exists issue, repair. auto.
Defined.

(** ** The CAGR rule *)

Lemma sign_prefix_comp (x y : Q) : (x == y)%Q -> sign_prefix x = sign_prefix y.
Proof.
  intros E. unfold sign_prefix.
  now rewrite (Qcompare_comp x y E 0%Q 0%Q (Qeq_refl 0)).
Qed.

Lemma format_1f_comp (x y : Q) : (x == y)%Q -> format_1f x = format_1f y.
Proof.
  intros E. unfold format_1f.
  rewrite (sign_prefix_comp x y E).
  assert (R : py_round (Qabs x * 10) = py_round (Qabs y * 10)).
  { apply py_round_comp. now rewrite E. }
  now rewrite R.
Qed.

Lemma Qgtb_comp (a b c d : Q) : (a == b)%Q -> (c == d)%Q -> Qgtb a c = Qgtb b d.
Proof.
  intros E F. unfold Qgtb. f_equal.
  apply eq_true_iff_eq. rewrite !Qle_bool_iff. now rewrite E, F.
Qed.

Lemma dated_two_points (r1 r2 : dict) :
  get "period" r1 = VStr "2021" -> get "value" r1 = VNum 100 ->
  get "period" r2 = VStr "2023" -> get "value" r2 = VNum 144 ->
  dated_revenues [VDict r1; VDict r2] = Ok [(2021, VNum 100); (2023, VNum 144)].
Proof.
  intros P1 V1 P2 V2. cbn [dated_revenues attr_get bind].
  fold (get "period" r1) (get "value" r1) (get "period" r2) (get "value" r2).
  rewrite P1, V1, P2, V2. reflexivity.
Qed.

Lemma claimed_50 (analyses ma cagr_d : dict) :
  lookup "MarketAnalysis" analyses = Some (VDict ma) ->
  lookup "cagr" ma = Some (VDict cagr_d) ->
  lookup "claimed" cagr_d = Some (VStr "50%") ->
  claimed_cagr_of analyses = Ok (Some (50%Q, VDict cagr_d)).
Proof.
  intros LM Lc Lcl. unfold claimed_cagr_of. rewrite LM.
  cbn [py_in bind]. unfold dict_mem. rewrite Lc. cbn [getitem bind]. rewrite Lc.
  cbn [bind attr_get]. unfold get_default. rewrite Lcl. reflexivity.
Qed.

(** C6: on the revenues 100 in 2021 and 144 in 2023 the CAGR rule
    computes [(144/100) ** (1/2) - 1], which is 20.0% as soon as the
    power is the square root 1.2; against a claimed CAGR of 50% it emits
    one issue of medium severity and one fix whose corrected value is the
    calculated ["20.0%"]. *)
Theorem cagr_rule_flags_claim_of_50
  (py_pow : Q -> Q -> Q) (nd fin r1 r2 analyses ma cagr_d : dict) :
  (py_pow (144 / 100) (1 / inject_Z 2) == 1.2)%Q ->
  lookup "finance" nd = Some (VDict fin) ->
  lookup "revenues" fin = Some (VList [VDict r1; VDict r2]) ->
  get "period" r1 = VStr "2021" -> get "value" r1 = VNum 100 ->
  get "period" r2 = VStr "2023" -> get "value" r2 = VNum 144 ->
  lookup "MarketAnalysis" analyses = Some (VDict ma) ->
  lookup "cagr" ma = Some (VDict cagr_d) ->
  lookup "claimed" cagr_d = Some (VStr "50%") ->
  exists issue repair,
    _check_cagr_calculations py_pow (VDict nd) analyses = Ok ([issue], [repair])
    /\ entry "field" issue = VStr "cagr"
    /\ entry "severity" issue = VStr "medium"
    /\ entry "issue" issue
       = VStr "CAGR inconsistency: claimed 50.0%, calculated 20.0%"
    /\ entry "field" repair = VStr "cagr.validated"
    /\ entry "current" repair = get "validated" cagr_d
    /\ entry "corrected" repair = VStr "20.0%".
Proof.
  intros P Lf Lr P1 V1 P2 V2 LM Lc Lcl.
  unfold _check_cagr_calculations. cbn [attr_get bind]. unfold get_default.
  rewrite Lf. cbn [attr_get bind]. unfold get_default. rewrite Lr.
  cbn [py_len bind List.length Nat.ltb Nat.leb].
  unfold cagr_try. rewrite (dated_two_points r1 r2 P1 V1 P2 V2).
  cbn [bind]. rewrite (claimed_50 analyses ma cagr_d LM Lc Lcl).
  change (sort_by_year [(2021, VNum 100); (2023, VNum 144)])
    with [(2021, VNum 100); (2023, VNum 144)].
  cbn [List.length Nat.leb rev app as_num bind].
  change (Qle_bool 100 0 || (2023 - 2021 <=? 0)) with false. cbv iota.
  change (2023 - 2021) with 2.
  set (pct := ((py_pow (144 / 100) (1 / inject_Z 2) - 1) * 100)%Q).
  assert (E : (pct == 20)%Q) by (unfold pct; rewrite P; reflexivity).
  rewrite (Qgtb_comp (Qabs (50 - pct)) (Qabs (50 - 20)) 5 5)
    by (try rewrite E; reflexivity).
  change (Qgtb (Qabs (50 - 20)) 5) with true. cbv iota.
  rewrite (format_1f_comp pct 20 E).
  cbn [attr_get bind]. do 2 eexists. split; [reflexivity|].
  repeat split; reflexivity.
Qed.

Lemma cagr_rule_flags_claim_of_50_witness :
  exists issue repair,
    _check_cagr_calculations sqrt_pow (VDict revenues_100_144) claimed_cagr_50
    = Ok ([issue], [repair])
    /\ entry "severity" issue = VStr "medium"
    /\ entry "current" repair = VStr "45%"
    /\ entry "corrected" repair = VStr "20.0%".
Proof.
  destruct (cagr_rule_flags_claim_of_50 sqrt_pow revenues_100_144
              [ ("revenues",
                 VList [ VDict [("period", VStr "2021"); ("value", VNum 100)];
                         VDict [("period", VStr "2023"); ("value", VNum 144)] ]) ]
              [("period", VStr "2021"); ("value", VNum 100)]
              [("period", VStr "2023"); ("value", VNum 144)]
              claimed_cagr_50
              [ ("cagr", VDict [("claimed", VStr "50%"); ("validated", VStr "45%")]) ]
              [("claimed", VStr "50%"); ("validated", VStr "45%")])
    as (issue & repair & E & _ & S & _ & _ & C & K); try reflexivity.
  exists issue, repair. auto.
Defined.

(** ** The currency rule *)

Section Units.
Variable py_str : value -> string.

Lemma check_unit_spec section exempt a base metric :
  absent_or_mapping metric a ->
  check_unit py_str section exempt (VDict a) base metric
  = Ok (if flagged exempt a base metric
        then ([unit_issue py_str section a base metric], [unit_fix section a base metric])
        else ([], [])).
Proof.
  unfold absent_or_mapping, check_unit, flagged, unit_issue, unit_fix, declared_unit.
  cbn [py_in bind]. unfold dict_mem.
  destruct (lookup metric a) as [v|] eqn:L.
  - intros D. destruct v; try discriminate. cbn [getitem bind]. rewrite L.
    cbn [bind attr_get]. fold (get "unit" d). unfold unit_mismatch.
    destruct (truthy (get "unit" d) && negb (py_eqb (get "unit" d) base) && _);
      reflexivity.
  - intros _. reflexivity.
Qed.

Lemma check_units_spec section exempt a base metrics :
  Forall (fun m => absent_or_mapping m a) metrics ->
  check_units py_str section exempt (VDict a) base metrics
  = Ok (map (unit_issue py_str section a base) (filter (flagged exempt a base) metrics),
        map (unit_fix section a base) (filter (flagged exempt a base) metrics)).
Proof.
  induction 1 as [|m ms Hm _ IH]; [reflexivity|].
  cbn [check_units]. rewrite (check_unit_spec _ _ _ _ _ Hm), IH. cbn [bind filter].
  destruct (flagged exempt a base m); reflexivity.
Qed.

Lemma length_append (s t : string) :
  String.length (s ++ t) = (String.length s + String.length t)%nat.
Proof.
  induction s as [|c s IH]; cbn; [reflexivity | now rewrite IH].
Qed.

Lemma append_inj_r (s m m' : string) : m' ++ s = m ++ s -> m' = m.
Proof.
  revert m. induction m' as [|c m' IH]; intros [|d m] E; cbn in E.
  - reflexivity.
  - apply (f_equal String.length) in E. cbn in E.
    rewrite length_append in E. lia.
  - apply (f_equal String.length) in E. cbn in E.
    rewrite length_append in E. lia.
  - injection E as -> E. f_equal. now apply IH.
Qed.

Lemma eqb_append_r (s m m' : string) :
  String.eqb (m' ++ s) (m ++ s) = String.eqb m' m.
Proof.
  destruct (String.eqb_spec m' m) as [->|N].
  - apply String.eqb_refl.
  - apply String.eqb_neq. intros E. apply N. eapply append_inj_r, E.
Qed.

Lemma filter_one (f : string -> bool) (metric : string) (ms : list string) :
  NoDup ms -> In metric ms -> f metric = true ->
  filter (fun m => String.eqb m metric) (filter f ms) = [metric].
Proof.
  induction 1 as [|m ms Nin ND IH]; intros I F; [contradiction|].
  cbn [filter]. destruct I as [->|I].
  - rewrite F. cbn [filter]. rewrite String.eqb_refl. f_equal.
    clear IH ND. induction ms as [|x ms IHm]; [reflexivity|].
    cbn [filter]. cbn in Nin.
    destruct (f x); [cbn [filter];
      destruct (String.eqb_spec x metric) as [->|_]; [tauto|]|]; apply IHm; tauto.
  - destruct (f m); [cbn [filter];
      destruct (String.eqb_spec m metric) as [->|_]; [contradiction|]|]; now apply IH.
Qed.

Lemma filter_map {A B : Type} (p : B -> bool) (g : A -> B) (l : list A) :
  filter p (map g l) = map g (filter (fun x => p (g x)) l).
Proof.
  induction l as [|x l IH]; [reflexivity|]. cbn. destruct (p (g x)); cbn; now rewrite IH.
Qed.

Lemma filter_none {A : Type} (p : A -> bool) (l : list A) :
  (forall x, p x = false) -> filter p l = [].
Proof.
  intros H. induction l as [|x l IH]; [reflexivity|]. cbn. now rewrite H.
Qed.

Lemma issues_of_section (sec sec' : string) (a : dict) (base : value)
  (f : string -> bool) (metric : string) (ms : list string) :
  filter (issue_for sec metric) (map (unit_issue py_str sec' a base) (filter f ms))
  = map (unit_issue py_str sec' a base)
      (filter (fun m => String.eqb sec' sec && String.eqb m metric) (filter f ms)).
Proof.
  rewrite filter_map. reflexivity.
Qed.

Lemma fixes_of_section (sec sec' : string) (a : dict) (base : value)
  (f : string -> bool) (metric : string) (ms : list string) :
  filter (issue_for sec (metric ++ ".unit")) (map (unit_fix sec' a base) (filter f ms))
  = map (unit_fix sec' a base)
      (filter (fun m => String.eqb sec' sec && String.eqb m metric) (filter f ms)).
Proof.
  rewrite filter_map. f_equal. apply filter_ext. intros m.
  unfold issue_for. cbn. now rewrite eqb_append_r.
Qed.

Lemma own_section (sec : string) (f : string -> bool) (metric : string)
  (ms : list string) :
  NoDup ms -> In metric ms -> f metric = true ->
  filter (fun m => String.eqb sec sec && String.eqb m metric) (filter f ms) = [metric].
Proof.
  intros. rewrite String.eqb_refl. cbn [andb]. now apply filter_one.
Qed.

Lemma other_section (sec sec' : string) (f : string -> bool) (metric : string)
  (ms : list string) :
  sec' <> sec ->
  filter (fun m => String.eqb sec' sec && String.eqb m metric) (filter f ms) = [].
Proof.
  intros N. apply filter_none. intros m.
  apply String.eqb_neq in N. now rewrite N.
Qed.

(** C8, amended: for the metrics the rule inspects (tam, sam, som of the
    market analysis; gross_margin, ebitda, valuation, ask of the finance
    analysis) a declared unit that is set, differs from the base currency
    and, in the finance analysis, is neither Percent nor Ratio, yields
    exactly one issue for the metric, of medium severity, and exactly one
    fix for its unit, from the declared unit to the base currency. *)
Theorem unit_mismatch_flagged
  (nd : value) (analyses : dict) (base : value)
  (section : string) (exempt metrics : list string) (a : dict) (metric : string) :
  base_currency_of nd = Ok base ->
  section_shaped "MarketAnalysis" MARKET_METRICS analyses ->
  section_shaped "Finance" FINANCE_METRICS analyses ->
  In (section, exempt, metrics) CHECKED_SECTIONS ->
  In metric metrics ->
  lookup section analyses = Some (VDict a) ->
  unit_mismatch exempt base (declared_unit a metric) = true ->
  exists issues fixes issue repair,
    _check_currency_consistency py_str nd analyses = Ok (issues, fixes)
    /\ filter (issue_for section metric) issues = [issue]
    /\ entry "severity" issue = VStr "medium"
    /\ filter (issue_for section (metric ++ ".unit")) fixes = [repair]
    /\ entry "current" repair = declared_unit a metric
    /\ entry "corrected" repair = base.
Proof.
  intros B SM SF Isec Im La U. unfold _check_currency_consistency.
  rewrite B. cbn [bind]. unfold section_shaped in SM, SF.
  assert (NDm : NoDup MARKET_METRICS)
    by (repeat constructor; cbn; intuition discriminate).
  assert (NDf : NoDup FINANCE_METRICS)
    by (repeat constructor; cbn; intuition discriminate).
  destruct Isec as [E|[E|[]]]; injection E as <- <- <-.
  - rewrite La in *. destruct SM as (a' & Ea & Sa). injection Ea as <-.
    rewrite (check_units_spec _ _ _ _ _ Sa). cbn [bind].
    destruct (lookup "Finance" analyses) as [v|].
    + destruct SF as (b & -> & Sb). rewrite (check_units_spec _ _ _ _ _ Sb).
      cbn [bind fst snd]. do 4 eexists. split; [reflexivity|].
      rewrite !filter_app, issues_of_section, fixes_of_section,
        issues_of_section, fixes_of_section.
      rewrite (own_section _ _ _ _ NDm Im U).
      rewrite !(other_section "MarketAnalysis" "Finance") by discriminate.
      cbn [map app]. repeat split; reflexivity.
    + cbn [bind fst snd]. do 4 eexists. split; [reflexivity|].
      rewrite !filter_app, issues_of_section, fixes_of_section.
      rewrite (own_section _ _ _ _ NDm Im U).
      cbn [map app filter]. repeat split; reflexivity.
  - rewrite La in *. destruct SF as (a' & Ea & Sa). injection Ea as <-.
    rewrite (check_units_spec _ _ _ _ _ Sa).
    destruct (lookup "MarketAnalysis" analyses) as [v|].
    + destruct SM as (b & -> & Sb). rewrite (check_units_spec _ _ _ _ _ Sb).
      cbn [bind fst snd]. do 4 eexists. split; [reflexivity|].
      rewrite !filter_app, issues_of_section, fixes_of_section,
        issues_of_section, fixes_of_section.
      rewrite (own_section _ _ _ _ NDf Im U).
      rewrite !(other_section "Finance" "MarketAnalysis") by discriminate.
      cbn [map app]. repeat split; reflexivity.
    + cbn [bind fst snd]. do 4 eexists. split; [reflexivity|].
      rewrite !filter_app, issues_of_section, fixes_of_section.
      rewrite (own_section _ _ _ _ NDf Im U).
      cbn [map app filter]. repeat split; reflexivity.
Qed.
End Units.

Lemma unit_mismatch_flagged_witness :
  exists issues fixes issue repair,
    _check_currency_consistency plain_str usd_pitch market_tam_eur = Ok (issues, fixes)
    /\ filter (issue_for "MarketAnalysis" "tam") issues = [issue]
    /\ entry "severity" issue = VStr "medium"
    /\ filter (issue_for "MarketAnalysis" ("tam" ++ ".unit")) fixes = [repair]
    /\ entry "current" repair = VStr "EUR"
    /\ entry "corrected" repair = VStr "USD".
Proof.
  apply (unit_mismatch_flagged plain_str usd_pitch market_tam_eur (VStr "USD")
           "MarketAnalysis" [] MARKET_METRICS
           [ ("tam", VDict [ ("validated", VStr "$100M");
                             ("data_type", VStr "currency");
                             ("unit", VStr "EUR") ]) ] "tam").
  - reflexivity.
  - eexists. split; [reflexivity|]. repeat constructor.
  - exact I.
  - left. reflexivity.
  - left. reflexivity.
  - reflexivity.
  - reflexivity.
Defined.

(** C8 as stated fails: a finance metric outside the rule's list, here an
    ARR declared in INR against the base currency USD, raises no issue
    and gets no fix. *)
Lemma unlisted_metric_not_checked :
  declared_unit [ ("arr", VDict [ ("claimed", VStr "INR 10,000,000");
                                  ("data_type", VStr "currency");
                                  ("unit", VStr "INR") ]) ] "arr" = VStr "INR"
  /\ base_currency_of usd_pitch = Ok (VStr "USD")
  /\ _check_currency_consistency plain_str usd_pitch finance_arr_inr = Ok ([], []).
Proof.
  repeat split; reflexivity.
Qed.

(** ** The currency converter *)

Lemma rate_for_present (c : string) (rates : list (string * Q)) (r : Q) :
  lookup c rates = Some r -> rate_for (VStr c) rates = Ok r.
Proof.
  intros L. unfold rate_for. cbn. now rewrite L.
Qed.

Lemma py_div_nonzero (a b : Q) : ~ (b == 0)%Q -> py_div a b = Ok (a / b)%Q.
Proof.
  intros N. unfold py_div. destruct (Qeq_bool b 0) eqn:E; [|reflexivity].
  apply Qeq_bool_iff in E. contradiction.
Qed.

Lemma sane_rate_nonzero (r : Q) : sane_rate r -> ~ (r == 0)%Q.
Proof.
  intros [L _] Z. rewrite Z in L. vm_compute in L. now apply L.
Qed.

(** C7, amended: for currencies [a] and [b] that are both in the rate
    table with rates of ordinary size (so not zero) and an amount within
    the floating-point range, converting the amount from [a] to [b] and
    back succeeds and returns the amount: exactly over the rationals of
    this embedding, so up to rounding in the code. *)
Theorem convert_round_trip
  (cfg : config) (a b : string) (ra rb v : Q) :
  lookup a (_get_currency_rates cfg) = Some ra ->
  lookup b (_get_currency_rates cfg) = Some rb ->
  sane_rate ra -> sane_rate rb -> float_safe v ->
  exists there back,
    convert_currency (VNum v) (VStr a) (VStr b) cfg = Ok (VNum there)
    /\ convert_currency (VNum there) (VStr b) (VStr a) cfg = Ok (VNum back)
    /\ (back == v)%Q.
Proof.
  intros La Lb Sa Sb _.
  assert (Na : ~ (ra == 0)%Q) by (apply sane_rate_nonzero, Sa).
  assert (Nb : ~ (rb == 0)%Q) by (apply sane_rate_nonzero, Sb).
  unfold convert_currency. cbn [py_eqb].
  rewrite (String.eqb_sym b a).
  destruct (String.eqb_spec a b) as [->|Nab].
  - exists v, v. repeat split; reflexivity.
  - rewrite (rate_for_present a _ ra La), (rate_for_present b _ rb Lb).
    destruct (String.eqb a "USD"), (String.eqb b "USD");
      cbn [negb bind as_num];
      do 2 eexists;
      (split; [rewrite ?py_div_nonzero by assumption; reflexivity|]);
      cbn [negb bind as_num];
      (split; [rewrite ?py_div_nonzero by assumption; reflexivity|]);
      first [reflexivity | now field].
Qed.

Lemma convert_round_trip_witness :
  exists there back,
    convert_currency (VNum 1000000) (VStr "INR") (VStr "EUR") configured_rates
    = Ok (VNum there)
    /\ convert_currency (VNum there) (VStr "EUR") (VStr "INR") configured_rates
       = Ok (VNum back)
    /\ (back == 1000000)%Q.
Proof.
  apply (convert_round_trip configured_rates "INR" "EUR" 87.0%Q 0.85%Q 1000000).
  - reflexivity.
  - reflexivity.
  - split; discriminate.
  - split; discriminate.
  - right. split; discriminate.
Defined.

(** C7 as stated fails on a table whose rate for EUR is 0: EUR and USD
    are both in the table, yet converting from EUR divides by zero, and
    the amount converted to EUR cannot be converted back. *)
Lemma convert_zero_rate_no_round_trip :
  lookup "EUR" (_get_currency_rates zero_eur_rates) = Some 0%Q
  /\ lookup "USD" (_get_currency_rates zero_eur_rates) = Some 1.0%Q
  /\ convert_currency (VNum 100) (VStr "EUR") (VStr "USD") zero_eur_rates
     = Raise ZeroDivisionError
  /\ convert_currency (VNum 100) (VStr "USD") (VStr "EUR") zero_eur_rates
     = Ok (VNum (100 * 0))
  /\ convert_currency (VNum (100 * 0)) (VStr "EUR") (VStr "USD") zero_eur_rates
     = Raise ZeroDivisionError.
Proof.
  repeat split; reflexivity.
Qed.

(** ** The schema normalizer: every amount in USD *)

Lemma normalize_currency_shape (cfg : config) (x v : value) :
  _normalize_currency cfg x = Ok v ->
  exists a b, v = VDict [("value", a); ("currency", VStr "USD"); ("raw", b)].
Proof.
  unfold _normalize_currency, money_default. intros H.
  destruct x; try (injection H as <-; eauto).
  destruct (negb (truthy (VDict d))); [injection H as <-; eauto|].
  bind_inv H. injection H as <-. eauto.
Qed.

Lemma revenue_entries_usd (cfg : config) (l rs : list value) :
  normalize_revenue_entries cfg l = Ok rs -> Forall in_usd rs.
Proof.
  revert rs. induction l as [|x l IH]; intros rs H; cbn in H.
  - injection H as <-. constructor.
  - destruct x; try (now apply IH).
    bind_inv H. bind_inv H. injection H as <-.
    constructor; [reflexivity | now apply IH].
Qed.

Lemma insert_by_period_usd (x : value) (l l' : list value) :
  insert_by_period x l = Some l' -> in_usd x -> Forall in_usd l -> Forall in_usd l'.
Proof.
  revert l'. induction l as [|y l IH]; intros l' H Hx Hl; cbn in H.
  - injection H as <-. auto.
  - inversion Hl; subst.
    destruct (py_lt (period_of x) (period_of y)) as [[|]|]; try discriminate.
    + injection H as <-. auto.
    + destruct (insert_by_period x l) eqn:E; [|discriminate].
      injection H as <-. auto.
Qed.

Lemma sort_by_period_usd (sorted todo l' : list value) :
  sort_by_period sorted todo = Some l' ->
  Forall in_usd sorted -> Forall in_usd todo -> Forall in_usd l'.
Proof.
  revert sorted l'. induction todo as [|x todo IH]; intros sorted l' H Hs Ht; cbn in H.
  - now injection H as <-.
  - inversion Ht; subst.
    destruct (insert_by_period x sorted) eqn:E; [|discriminate].
    eapply IH; eauto. eapply insert_by_period_usd; eauto.
Qed.

Lemma normalize_revenues_usd (cfg : config) (x v : value) :
  _normalize_revenues cfg x = Ok v ->
  exists rs, v = VList rs /\ Forall in_usd rs.
Proof.
  unfold _normalize_revenues. intros H. bind_inv H. bind_inv H. injection H as <-.
  eexists. split; [reflexivity|].
  apply revenue_entries_usd in E0. unfold sort_revenues.
  destruct (sort_by_period [] a0) eqn:S; [|exact E0].
  eapply sort_by_period_usd; eauto.
Qed.


Lemma Ok_inj {A : Type} (x y : A) : Ok x = Ok y -> x = y.
Proof.
  intros H. now injection H.
Qed.

(** C3: whatever [normalize] returns has [units.base_currency = "USD"],
    and each of its eleven monetary leaves and each entry of
    [finance.revenues] has [currency = "USD"]. *)
Theorem normalized_amounts_in_usd (cfg : config) (raw n : value) :
  normalize cfg raw = Ok n ->
  _get_by_path n ["units"; "base_currency"] = VStr "USD"
  /\ Forall (fun leaf => in_usd (_get_by_path n [fst leaf; snd leaf])) MONEY_LEAVES
  /\ exists revenues,
       _get_by_path n ["finance"; "revenues"] = VList revenues
       /\ Forall in_usd revenues.
Proof.
  unfold normalize. intros H. bind_inv H.
  destruct raw as [| | | | |rawd]; try discriminate E.
  destruct a as [| | | | |e]; try discriminate H.
  bind_inv H. apply Ok_inj in H. subst n.
  unfold map_fields in E0.
  do 13 bind_inv E0.
  apply Ok_inj in E0. subst a.
  repeat match goal with
  | H : _normalize_currency _ _ = Ok ?v |- _ =>
      apply normalize_currency_shape in H; destruct H as (? & ? & ->)
  end.
  apply normalize_revenues_usd in E10. destruct E10 as (rs & -> & Hrs).
  match goal with
  | |- context [_extract_extras ?x ?y] => generalize (_extract_extras x y)
  end.
  intros extras. split; [vm_compute; reflexivity|]. split.
  - repeat constructor; vm_compute; reflexivity.
  - exists rs. split; [vm_compute; reflexivity | exact Hrs].
Qed.

Lemma normalized_amounts_in_usd_witness :
  exists n,
    normalize configured_rates sample_raw = Ok n
    /\ _get_by_path n ["units"; "base_currency"] = VStr "USD"
    /\ Forall (fun leaf => in_usd (_get_by_path n [fst leaf; snd leaf])) MONEY_LEAVES
    /\ exists revenues,
         _get_by_path n ["finance"; "revenues"] = VList revenues
         /\ Forall in_usd revenues.
Proof.
  destruct (normalize configured_rates sample_raw) as [n|x] eqn:E;
    [|vm_compute in E; discriminate E].
  exists n. split; [reflexivity|].
  exact (normalized_amounts_in_usd configured_rates sample_raw n E).
Defined.

(** ** The schema normalizer: extras *)








Lemma lookup_dict_set_same {A : Type} (k : string) (v : A) (d : list (string * A)) :
  lookup k (dict_set k v d) = Some v.
Proof.
  induction d as [|[k' v'] d IH]; cbn.
  - now rewrite String.eqb_refl.
  - destruct (String.eqb_spec k k') as [->|N]; cbn.
    + now rewrite String.eqb_refl.
    + destruct (String.eqb_spec k k'); [contradiction | exact IH].
Qed.

Lemma lookup_dict_set_other {A : Type} (k k' : string) (v : A) (d : list (string * A)) :
  k <> k' -> lookup k (dict_set k' v d) = lookup k d.
Proof.
  intros N. induction d as [|[k2 v2] d IH]; cbn.
  - destruct (String.eqb_spec k k'); [contradiction | reflexivity].
  - destruct (String.eqb_spec k' k2) as [->|N2]; cbn.
    + destruct (String.eqb_spec k k2); [contradiction | reflexivity].
    + destruct (String.eqb_spec k k2); [reflexivity | exact IH].
Qed.

Section Extras.
Variables (extraction : value) (canonical_paths : list string).
Variables (path : string) (v : value).
Hypothesis unmapped : existsb (fun p => ends_with p path) canonical_paths = false.
Hypothesis found : _get_by_path extraction (split_char "." path) = v.
Hypothesis not_none : v <> VNone.




End Extras.


Lemma lookup_set_in_other (s s' k : string) (v : value) (c : dict) :
  s <> s' -> lookup s (set_in s' k v c) = lookup s c.
Proof.
  intros N. unfold set_in. destruct (lookup s' c) as [[| | | | |d]|]; try reflexivity.
  now apply lookup_dict_set_other.
Qed.








(** The defect next to it: an unmapped field [name] is lost as well,
    because the text of the canonical path [metadata.company_name] ends
    with "name"; the amended claim leaves such fields out. *)
Lemma name_lost_to_text_suffix :
  ends_with "metadata.company_name" "name" = true
  /\ exists n,
       normalize None raw_with_name = Ok (VDict n)
       /\ lookup "extras" n = Some (VDict []).
Proof.
  split; [reflexivity|]. eexists. split; vm_compute; reflexivity.
Qed.

(** ** The pipeline of the orchestrator *)

Lemma extract_basic_details_shape (data details : value) :
  orchestrator._extract_basic_details data = Ok details ->
  exists n d b c,
    details = VDict [("name", n); ("domain", d); ("business_model", b); ("CEO", c)].
Proof.
  unfold orchestrator._extract_basic_details. intros H.
  apply bind_ok in H. destruct H as ([[[n d] b] c] & _ & H).
  apply Ok_inj in H. subst. eauto.
Qed.

Lemma count_validated_items_ok (items : dict) :
  exists n, orchestrator.count_validated_items items = Ok n.
Proof.
  induction items as [|[k v] items [n IH]]; cbn; [eauto|].
  destruct v; eauto. rewrite IH. cbn. eauto.
Qed.

Lemma count_points_mappings (l : dict) :
  all_mappings l -> exists n, orchestrator.count_points l = Ok n.
Proof.
  induction 1 as [|[k v] l Hv _ [n IH]]; cbn; [eauto|].
  destruct v; try discriminate.
  destruct (count_validated_items_ok d) as [c ->]. rewrite IH. cbn. eauto.
Qed.

Lemma scores_at_least_7_readable (metric : string) (r : value) :
  readable_result metric r = true ->
  exists b, orchestrator.scores_at_least_7 r metric = Ok b.
Proof.
  destruct r; try discriminate. cbn -[truthy].
  intros H. apply andb_prop in H. destruct H as [H _].
  unfold orchestrator.scores_at_least_7. destruct (truthy (VDict d)); [|eauto].
  cbn [py_in bind]. unfold dict_mem, scored_metric_ok in *. cbn [getitem].
  destruct (lookup metric d) as [m|]; [|eauto]. cbn.
  destruct m; try discriminate. cbn.
  destruct (get_default "final_score" (VNum 0) d0) as [ |[]| | | | ]; try discriminate; cbn; eauto.
Qed.

Lemma weighted_totals_readable (l : dict) :
  Forall (fun kv => exists d, snd kv = VDict d /\ category_average_ok d = true) l ->
  forall a b, exists t, orchestrator.weighted_totals l a b = Ok t.
Proof.
  induction 1 as [|[k v] l (d & E & Hd) _ IH]; intros a b; cbn [orchestrator.weighted_totals]; [eauto|].
  cbn in E. subst v.
  destruct (lookup k orchestrator.INVESTMENT_WEIGHTS) as [w|]; [|apply IH].
  cbn [py_in bind]. unfold dict_mem, category_average_ok in *. cbn [getitem].
  destruct (lookup "category_average" d) as [v|]; [|apply IH]. cbn [bind].
  destruct v as [ |[]| | | | ]; try discriminate; cbn; apply IH.
Qed.

Lemma confidence_score_mappings (l : dict) :
  all_mappings l -> exists n, orchestrator._calculate_confidence_score l = Ok n.
Proof.
  intros H. unfold orchestrator._calculate_confidence_score.
  rewrite (count_error_sections_mappings l H). cbn [bind].
  destruct (negb (truthy (VDict l))); [eauto|].
  destruct (Z.of_nat (List.length l) =? 0); eauto.
Qed.

Lemma consolidable_mappings (l : dict) : consolidable l -> all_mappings l.
Proof.
  intros [H _]. unfold all_mappings. eapply Forall_impl; [|exact H].
  intros [k v] (d & E & _). cbn in *. now subst.
Qed.

Lemma run_analyses_consolidable
  (agents : list string) (market finance : value -> result value)
  (exn_str : exn -> string) (data : value) :
  agent_outcome_ok "tam" (market data) = true ->
  agent_outcome_ok "runway" (finance data) = true ->
  consolidable (orchestrator.run_analyses agents market finance exn_str data).
Proof.
  intros Hm Hf. unfold orchestrator.run_analyses, orchestrator.run_agent.
  destruct (orchestrator.available agents "market_analysis");
    destruct (orchestrator.available agents "finance_analysis");
    destruct (market data) as [[ | | | | |dm]|em]; try discriminate;
    destruct (finance data) as [[ | | | | |df]|ef]; try discriminate;
    cbn in Hm, Hf;
    try (apply andb_prop in Hm; destruct Hm as [Hm1 Hm2]);
    try (apply andb_prop in Hf; destruct Hf as [Hf1 Hf2]);
    cbn [dict_set String.eqb Ascii.eqb Bool.eqb];
    (split; [repeat constructor; cbn [snd]; eauto|]);
    cbn; rewrite ?Hm1, ?Hm2, ?Hf1, ?Hf2; auto.
Qed.

Lemma extract_pros_consolidable (l : dict) :
  consolidable l -> exists pros, orchestrator._extract_pros l = Ok pros.
Proof.
  intros (_ & Hm & Hf). unfold orchestrator._extract_pros.
  destruct l as [|kv l]; [eauto|].
  destruct (scores_at_least_7_readable _ _ Hm) as [bm ->].
  destruct (scores_at_least_7_readable _ _ Hf) as [bf ->].
  cbn [bind]. eauto.
Qed.

Lemma investment_score_consolidable (l : dict) :
  consolidable l -> exists n, orchestrator._calculate_investment_score l = Ok n.
Proof.
  intros (H & _). unfold orchestrator._calculate_investment_score.
  destruct l as [|kv l]; [eauto|].
  destruct (weighted_totals_readable _ H 0%Q 0%Q) as [t ->]. cbn [bind].
  destruct (Qgtb (snd t) 0); eauto.
Qed.

Lemma fallback_run_returns
  (agents : list string) (fetch : string -> result value)
  (normalizer market finance : value -> result value)
  (now : string) (exn_str : exn -> string) (py_str : value -> string)
  (pitch_id : string) (raw : dict) (e : exn) (details : value) :
  orchestrator.available agents "mongo_fetcher" = true ->
  fetch pitch_id = Ok (VDict raw) ->
  normalizer (VDict raw) = Raise e ->
  agent_outcome_ok "tam" (market (VDict raw)) = true ->
  agent_outcome_ok "runway" (finance (VDict raw)) = true ->
  orchestrator._extract_basic_details (VDict raw) = Ok details ->
  exists results,
    orchestrator._process_pitch_async agents fetch normalizer market finance
      now exn_str py_str pitch_id = Ok (VDict results)
    /\ lookup "raw_data" results = Some (VDict raw)
    /\ lookup "normalized_data" results = None
    /\ lookup "analysis" results
       = Some (VDict (orchestrator.run_analyses agents market finance exn_str
                        (VDict raw)))
    /\ lookup "details" results = Some details.
Proof.
  intros Hav Hfetch Hnorm Hm Hf Hd.
  pose proof (run_analyses_consolidable agents market finance exn_str _ Hm Hf) as Hc.
  set (l := orchestrator.run_analyses agents market finance exn_str (VDict raw)) in *.
  destruct (extract_pros_consolidable l Hc) as [pros Hpros].
  destruct (investment_score_consolidable l Hc) as [irs Hirs].
  destruct (confidence_score_mappings l (consolidable_mappings l Hc)) as [cs Hcs].
  destruct (count_points_mappings l (consolidable_mappings l Hc)) as [pts Hpts].
  destruct (extract_basic_details_shape _ _ Hd) as (n & d & b & c & ->).
  unfold orchestrator._process_pitch_async. rewrite Hav, Hfetch. cbn [bind attr_get].
  assert (Hstep : forall results,
    orchestrator.normalize_step agents normalizer (VDict raw) results
    = (VDict raw, results)).
  { intros results. unfold orchestrator.normalize_step. rewrite Hnorm.
    now destruct (truthy (VDict raw) && orchestrator.available agents "schema_normalizer"). }
  rewrite Hstep. fold l. unfold orchestrator.consolidate.
  rewrite Hd. cbn [bind attr_get]. rewrite Hpros. cbn [bind]. rewrite Hirs. cbn [bind].
  rewrite Hcs. cbn [bind]. unfold orchestrator._count_validation_points.
  rewrite Hpts. cbn [bind].
  eexists. split; [reflexivity|]. repeat split; reflexivity.
Qed.

(** X1: when the fetch gives a mapping and the schema normalizer raises,
    the run goes on with the raw document: the analysis agents and the
    detail extraction are given the raw document itself, [raw_data] is
    stored, no [normalized_data] is stored, and the run returns the
    consolidated report whenever the detail extraction succeeds on the
    raw document and each analysis agent raises or returns a readable
    result (a mapping whose inspected metric has a numeric score and
    whose category average is a number within the floating-point
    range). *)
Theorem normalization_failure_passes_raw_through
  (agents : list string) (fetch : string -> result value)
  (normalizer market finance : value -> result value)
  (now : string) (exn_str : exn -> string) (py_str : value -> string)
  (pitch_id : string) (raw : dict) (e : exn) (details : value) :
  orchestrator.available agents "mongo_fetcher" = true ->
  fetch pitch_id = Ok (VDict raw) ->
  normalizer (VDict raw) = Raise e ->
  agent_outcome_ok "tam" (market (VDict raw)) = true ->
  agent_outcome_ok "runway" (finance (VDict raw)) = true ->
  orchestrator._extract_basic_details (VDict raw) = Ok details ->
  exists results,
    orchestrator._process_pitch_async agents fetch normalizer market finance
      now exn_str py_str pitch_id = Ok (VDict results)
    /\ lookup "raw_data" results = Some (VDict raw)
    /\ lookup "normalized_data" results = None
    /\ lookup "analysis" results
       = Some (VDict (orchestrator.run_analyses agents market finance exn_str
                        (VDict raw)))
    /\ lookup "details" results = Some details.
Proof.
  apply fallback_run_returns.
Qed.

Lemma normalization_failure_passes_raw_through_witness :
  exists results,
    orchestrator._process_pitch_async ALL_AGENTS sample_fetcher
      (schema_normalizer.normalize None) sample_market_agent sample_finance_agent
      "2025-01-01T00:00:00" sample_exn_str plain_str "p1" = Ok (VDict results)
    /\ lookup "raw_data" results = Some (VDict raw_bad_revenues)
    /\ lookup "normalized_data" results = None
    /\ lookup "analysis" results
       = Some (VDict (orchestrator.run_analyses ALL_AGENTS sample_market_agent
                        sample_finance_agent sample_exn_str (VDict raw_bad_revenues)))
    /\ lookup "details" results = Some sample_details.
Proof.
  apply (normalization_failure_passes_raw_through ALL_AGENTS sample_fetcher
           (schema_normalizer.normalize None) sample_market_agent
           sample_finance_agent "2025-01-01T00:00:00" sample_exn_str plain_str
           "p1" raw_bad_revenues TypeError sample_details);
    vm_compute; reflexivity.
Defined.




Lemma normalize_needs_mapping (cfg : currency_converter.config) (raw : dict) (x : value) :
  lookup "extraction" raw = Some x -> is_dict x = false ->
  schema_normalizer.normalize cfg (VDict raw) = Raise AttributeError.
Proof.
  intros L N. unfold schema_normalizer.normalize. cbn [attr_get bind].
  unfold get_default. rewrite L. destruct x; try reflexivity. discriminate.
Qed.

Lemma extract_basic_details_needs_mapping (raw : dict) (x : value) :
  lookup "extraction" raw = Some x -> truthy x = true -> is_dict x = false ->
  orchestrator._extract_basic_details (VDict raw) = Raise AttributeError.
Proof.
  intros L T N. unfold orchestrator._extract_basic_details.
  assert (truthy (VDict raw) = true) as -> by (destruct raw; [discriminate|reflexivity]).
  cbn [attr_get bind]. 
  destruct (truthy (get_default "metadata" (VDict []) raw)).
  - destruct (get_default "metadata" (VDict []) raw); try reflexivity.
    cbn [attr_get bind]. unfold get_default. rewrite L. rewrite T.
    destruct x; try reflexivity. discriminate.
  - cbn [bind]. unfold get_default. rewrite L, T.
    destruct x; try reflexivity. discriminate.
Qed.

(** X2: with the repository's normalizer, a fetched document whose
    [extraction] is a non-empty value that is not a mapping makes the
    whole run raise [AttributeError]: normalization fails, the raw
    document is passed on, and the detail extraction, which no [try]
    guards, fails on it. *)
Theorem malformed_extraction_fails_run
  (agents : list string) (fetch : string -> result value)
  (cfg : currency_converter.config) (market finance : value -> result value)
  (now : string) (exn_str : exn -> string) (py_str : value -> string)
  (pitch_id : string) (raw : dict) (x : value) :
  orchestrator.available agents "mongo_fetcher" = true ->
  fetch pitch_id = Ok (VDict raw) ->
  lookup "extraction" raw = Some x -> truthy x = true -> is_dict x = false ->
  orchestrator._process_pitch_async agents fetch (schema_normalizer.normalize cfg)
    market finance now exn_str py_str pitch_id = Raise AttributeError.
Proof.
  intros Hav Hfetch L T N.
  unfold orchestrator._process_pitch_async. rewrite Hav, Hfetch. cbn [bind attr_get].
  unfold orchestrator.normalize_step.
  rewrite (normalize_needs_mapping cfg raw x L N).
  assert (E : forall (b : bool) (r : dict),
    (if b then (VDict raw, r) else (VDict raw, r)) = (VDict raw, r))
    by (now intros []).
  rewrite E. unfold orchestrator.consolidate.
  now rewrite (extract_basic_details_needs_mapping raw x L T N).
Qed.

Lemma malformed_extraction_fails_run_witness :
  orchestrator._process_pitch_async ALL_AGENTS
    corrupt_fetcher
    (schema_normalizer.normalize None) sample_market_agent sample_finance_agent
    "2025-01-01T00:00:00" sample_exn_str plain_str "p1" = Raise AttributeError.
Proof.
  apply (malformed_extraction_fails_run ALL_AGENTS corrupt_fetcher None
           sample_market_agent sample_finance_agent "2025-01-01T00:00:00"
           sample_exn_str plain_str "p1" raw_corrupt (VStr "corrupt"));
    reflexivity.
Defined.

(** ** More on the currency converter *)

Lemma py_eqb_str_sym (a : value) (s : string) :
  py_eqb (VStr s) a = py_eqb a (VStr s).
Proof.
  destruct a; try reflexivity. cbn. apply String.eqb_sym.
Qed.

(** X3: a conversion between two different currencies is the conversion
    to USD followed by the conversion from USD, exceptions included. *)
Theorem convert_through_usd (amount a b : value) (cfg : config) :
  py_eqb a b = false ->
  convert_currency amount a b cfg
  = (usd <- convert_currency amount a (VStr "USD") cfg ;;
     convert_currency usd (VStr "USD") b cfg).
Proof.
  intros N. unfold convert_currency. rewrite N.
  rewrite (py_eqb_str_sym b "USD").
  destruct amount as [ |x|q|s|l|d].
  1: reflexivity.
  all: destruct (py_eqb a (VStr "USD")) eqn:Ea; cbn [negb bind].
  all: destruct (py_eqb b (VStr "USD")) eqn:Eb; cbn [negb bind]; try reflexivity.
  all: try (destruct (rate_for a (_get_currency_rates cfg)) as [ra|e]; cbn [bind as_num]; [|reflexivity]).
  all: try (destruct x); cbn [bind as_num]; try reflexivity.
  all: try (match goal with |- context [py_div ?u ?v] => destruct (py_div u v) end; cbn [bind as_num]; try rewrite Eb; reflexivity).
Qed.

Lemma convert_through_usd_witness :
  convert_currency (VNum 8700) (VStr "INR") (VStr "EUR") configured_rates
  = (usd <- convert_currency (VNum 8700) (VStr "INR") (VStr "USD") configured_rates ;;
     convert_currency usd (VStr "USD") (VStr "EUR") configured_rates).
Proof.
  apply (convert_through_usd (VNum 8700) (VStr "INR") (VStr "EUR") configured_rates).
  reflexivity.
Defined.

(** X4: a currency that neither the rate table nor the fallback table
    lists is converted with the rate 50, for an amount within the
    floating-point range: no exception is raised for the unknown
    currency. *)
Theorem convert_unknown_currency_uses_50 (q : Q) (c : string) (cfg : config) :
  c <> "USD" ->
  lookup c (_get_currency_rates cfg) = None ->
  lookup c FALLBACK_RATES = None ->
  float_safe q ->
  convert_currency (VNum q) (VStr c) (VStr "USD") cfg = Ok (VNum (q / 50.0))
  /\ convert_currency (VNum q) (VStr "USD") (VStr c) cfg = Ok (VNum (q * 50.0)).
Proof.
  intros N L F _. unfold convert_currency. cbn [py_eqb].
  rewrite (String.eqb_sym "USD" c).
  destruct (String.eqb_spec c "USD") as [E|_]; [contradiction|].
  cbn [negb String.eqb Ascii.eqb Bool.eqb bind].
  unfold rate_for, _get_default_rate. cbn [find_rate bind]. rewrite L, F.
  cbn [bind as_num]. split; reflexivity.
Qed.

Lemma convert_unknown_currency_uses_50_witness :
  convert_currency (VNum 1000) (VStr "XYZ") (VStr "USD") configured_rates
  = Ok (VNum (1000 / 50.0))
  /\ convert_currency (VNum 1000) (VStr "USD") (VStr "XYZ") configured_rates
     = Ok (VNum (1000 * 50.0)).
Proof.
  apply (convert_unknown_currency_uses_50 1000 "XYZ" configured_rates).
  - discriminate.
  - reflexivity.
  - reflexivity.
  - right. split; discriminate.
Defined.

Lemma lookup_dict_update {A : Type} (c : string) (other d : list (string * A)) :
  NoDup (map fst other) ->
  lookup c (dict_update d other)
  = match lookup c other with Some r => Some r | None => lookup c d end.
Proof.
  unfold dict_update. revert d.
  induction other as [|[k v] other IH]; intros d ND; cbn [fold_left lookup fst snd];
    [reflexivity|].
  inversion ND as [|? ? Hk ND']; subst. rewrite (IH _ ND').
  destruct (String.eqb_spec c k) as [->|N].
  - apply lookup_none_notin in Hk. rewrite Hk. apply lookup_dict_set_same.
  - now rewrite lookup_dict_set_other.
Qed.

(** X5: the rate table is the default table overridden by the
    configured rates: a configured currency has its configured rate, any
    other currency its default rate, if it has one. *)
Theorem configured_rates_take_precedence (config_rates : list (string * Q)) (c : string) :
  NoDup (map fst config_rates) ->
  lookup c (_get_currency_rates (Some config_rates))
  = match lookup c config_rates with
    | Some r => Some r
    | None => lookup c DEFAULT_RATES
    end.
Proof.
  intros ND. unfold _get_currency_rates.
  destruct config_rates as [|kv rest] eqn:E; [reflexivity|].
  rewrite <- E in *. now apply lookup_dict_update.
Qed.

Lemma configured_rates_take_precedence_witness :
  lookup "INR" (_get_currency_rates configured_rates) = Some 87.0%Q
  /\ lookup "JPY" (_get_currency_rates configured_rates) = Some 110.0%Q.
Proof.
  split.
  - apply (configured_rates_take_precedence
             [ ("INR", 87.0%Q); ("EUR", 0.85%Q); ("GBP", 0.73%Q) ] "INR").
    repeat constructor; cbn; intuition discriminate.
  - apply (configured_rates_take_precedence
             [ ("INR", 87.0%Q); ("EUR", 0.85%Q); ("GBP", 0.73%Q) ] "JPY").
    repeat constructor; cbn; intuition discriminate.
Defined.

(** ** The bounds of the scoring engine *)

Lemma clamp_1_10_bounds (x : Q) : (1 <= clamp_1_10 x <= 10)%Q.
Proof.
  unfold clamp_1_10.
  destruct (Qgtb 10 x) eqn:A.
  - apply Qgtb_true in A. destruct (Qgtb x 1) eqn:B.
    + apply Qgtb_true in B. lra.
    + lra.
  - destruct (Qgtb 10 1) eqn:B; [lra|discriminate].
Qed.

Lemma py_round1_bounds (x : Q) : (1 <= x <= 10)%Q -> (1 <= py_round1 x <= 10)%Q.
Proof.
  intros [L U]. unfold py_round1.
  destruct (py_round_bounds 10 100 (x * 10)) as [A B];
    [unfold inject_Z; lra | unfold inject_Z; lra |].
  rewrite Zle_Qle in A, B.
  set (r := inject_Z (py_round (x * 10))) in *.
  change (inject_Z 10) with 10%Q in A. change (inject_Z 100) with 100%Q in B.
  split.
  - apply Qle_shift_div_l; [reflexivity|]. lra.
  - apply Qle_shift_div_r; [reflexivity|]. lra.
Qed.

Lemma apply_overall_adjustments_bounds (overall_raw q : Q) (analysis_results : dict) :
  _apply_overall_adjustments overall_raw analysis_results = Ok q -> (1 <= q <= 10)%Q.
Proof.
  unfold _apply_overall_adjustments. intros H.
  bind_inv H. bind_inv H. bind_inv H. apply Ok_inj in H. subst q.
  apply py_round1_bounds, clamp_1_10_bounds.
Qed.

(** X6: every result of [score] has its adjusted overall score between
    1 and 10. *)
Theorem score_overall_adjusted_between_1_and_10
  (config_weights : list (string * Q)) (now : string)
  (analysis_results : dict) (research_results : value) (r : ScoringResult) :
  score config_weights now analysis_results research_results = Ok r ->
  (1 <= overall_adjusted r <= 10)%Q.
Proof.
  unfold score. intros H.
  bind_inv H. bind_inv H. bind_inv H. bind_inv H. apply Ok_inj in H. subst r.
  cbn [overall_adjusted]. eapply apply_overall_adjustments_bounds; eassumption.
Qed.

Lemma score_overall_adjusted_between_1_and_10_witness :
  exists r,
    score [] "2025-01-01T00:00:00" failed_market_analyses VNone = Ok r
    /\ (1 <= overall_adjusted r <= 10)%Q.
Proof.
  destruct (score [] "2025-01-01T00:00:00" failed_market_analyses VNone)
    as [r|e] eqn:E.
  - exists r. split; [reflexivity|].
    exact (score_overall_adjusted_between_1_and_10 [] "2025-01-01T00:00:00"
             failed_market_analyses VNone r E).
  - vm_compute in E. discriminate.
Defined.

(** X7: with research results at hand, the adjusted category score is a
    number between 1 and 10, whatever the raw score. *)
Theorem adjust_score_with_research_bounds
  (category : string) (score research_results v : value) :
  truthy research_results = true ->
  _adjust_score_with_research category score research_results = Ok v ->
  exists q, v = VNum q /\ (1 <= q <= 10)%Q.
Proof.
  unfold _adjust_score_with_research. intros T H. rewrite T in H. cbn [negb] in H.
  bind_inv H. bind_inv H. bind_inv H. bind_inv H. apply Ok_inj in H. subst v.
  eexists. split; [reflexivity|]. apply clamp_1_10_bounds.
Qed.

Lemma adjust_score_with_research_bounds_witness :
  exists q, VNum (clamp_1_10 (10 + 0.5)) = VNum q /\ (1 <= q <= 10)%Q.
Proof.
  apply (adjust_score_with_research_bounds "Finance" (VNum 10)
           (VDict [("summary", VDict [("credibility_score", VNum 90)])]));
    reflexivity.
Defined.

(** X8: in every result of [score] the recommendation and the first
    explanation speak of the same band of the overall score. *)
Theorem score_recommendation_matches_explanation
  (config_weights : list (string * Q)) (now : string)
  (analysis_results : dict) (research_results : value) (r : ScoringResult) :
  score config_weights now analysis_results research_results = Ok r ->
  exists overall rest,
    explanations r = overall :: rest
    /\ In (recommendation (investment_recommendation r), overall) BANDS.
Proof.
  unfold score. intros H.
  bind_inv H. bind_inv H. bind_inv H. bind_inv H. apply Ok_inj in H. subst r.
  cbn [explanations investment_recommendation].
  unfold _generate_explanations in E1. bind_inv E1. apply Ok_inj in E1. subst a1.
  do 2 eexists. split; [reflexivity|].
  unfold _generate_investment_recommendation, BANDS.
  destruct (Qgeb a0 THRESHOLD_excellent); [cbn; tauto|].
  destruct (Qgeb a0 THRESHOLD_good); [cbn; tauto|].
  destruct (Qgeb a0 THRESHOLD_average); [cbn; tauto|].
  destruct (Qgeb a0 THRESHOLD_below_average); cbn; tauto.
Qed.

Lemma score_recommendation_matches_explanation_witness :
  exists r overall rest,
    score [] "2025-01-01T00:00:00" failed_market_analyses VNone = Ok r
    /\ explanations r = overall :: rest
    /\ In (recommendation (investment_recommendation r), overall) BANDS.
Proof.
  destruct (score [] "2025-01-01T00:00:00" failed_market_analyses VNone)
    as [r|e] eqn:E.
  - destruct (score_recommendation_matches_explanation [] "2025-01-01T00:00:00"
                failed_market_analyses VNone r E) as (overall & rest & H).
    exists r, overall, rest. split; [reflexivity | exact H].
  - vm_compute in E. discriminate.
Defined.

(** ** The summary figures of the orchestrator *)

(** X9: the strengths and the concerns of a report are always three
    each, whatever the analyses hold. *)
Theorem pros_and_red_flags_are_three (analysis_results : dict) (pros : list string) :
  orchestrator._extract_pros analysis_results = Ok pros ->
  List.length pros = 3%nat
  /\ List.length (orchestrator._extract_red_flags analysis_results) = 3%nat.
Proof.
  unfold orchestrator._extract_pros, orchestrator._extract_red_flags. intros H.
  destruct analysis_results as [|kv l].
  - apply Ok_inj in H. subst. split; reflexivity.
  - bind_inv H. bind_inv H. apply Ok_inj in H. subst.
    destruct a, a0; split; reflexivity.
Qed.

Lemma pros_and_red_flags_are_three_witness :
  orchestrator._extract_pros failed_market_analyses
  = Ok [ "Experienced founding team with domain expertise";
         "Scalable business model with multiple revenue streams";
         "Clear product differentiation in competitive landscape" ]
  /\ List.length
    [ "Experienced founding team with domain expertise";
      "Scalable business model with multiple revenue streams";
      "Clear product differentiation in competitive landscape" ] = 3%nat
  /\ List.length (orchestrator._extract_red_flags failed_market_analyses) = 3%nat.
Proof.
  split; [reflexivity|].
  apply (pros_and_red_flags_are_three failed_market_analyses). reflexivity.
Defined.

Lemma investment_weights_positive (c : string) (w : Q) :
  lookup c orchestrator.INVESTMENT_WEIGHTS = Some w -> (0 < w)%Q.
Proof.
  cbn. repeat (destruct (String.eqb c _); [intros [= <-]; reflexivity|]).
  discriminate.
Qed.

Lemma weighted_totals_between (items : dict) (lo hi : Q) :
  (forall c d q, In (c, VDict d) items ->
     lookup "category_average" d = Some (VNum q) -> (lo <= q <= hi)%Q) ->
  (forall c d b, In (c, VDict d) items ->
     lookup "category_average" d <> Some (VBool b)) ->
  forall ts tw ts' tw',
    (0 <= tw)%Q -> (lo * tw <= ts <= hi * tw)%Q ->
    orchestrator.weighted_totals items ts tw = Ok (ts', tw') ->
    (tw <= tw')%Q /\ (lo * tw' <= ts' <= hi * tw')%Q.
Proof.
  induction items as [|[c v] items IH]; intros Hq Hb ts tw ts' tw' Ptw Pts H.
  - cbn in H. apply Ok_inj in H. injection H as <- <-. split; [lra|assumption].
  - cbn [orchestrator.weighted_totals] in H.
    assert (Hq' : forall c d q, In (c, VDict d) items ->
              lookup "category_average" d = Some (VNum q) -> (lo <= q <= hi)%Q)
      by (intros; eapply Hq; [right|]; eassumption).
    assert (Hb' : forall c d b, In (c, VDict d) items ->
              lookup "category_average" d <> Some (VBool b))
      by (intros; eapply Hb; right; eassumption).
    destruct (lookup c orchestrator.INVESTMENT_WEIGHTS) as [w|] eqn:W;
      [|eapply IH; eassumption].
    apply investment_weights_positive in W.
    bind_inv H. destruct a; [|eapply IH; eassumption].
    bind_inv H. bind_inv H.
    destruct v; try discriminate. cbn in E, E0.
    unfold dict_mem in E. destruct (lookup "category_average" d) as [x|] eqn:L;
      [|discriminate].
    apply Ok_inj in E0. subst a.
    destruct x; try discriminate.
    + exfalso. eapply Hb; [left; reflexivity | exact L].
    + cbn in E1. apply Ok_inj in E1. subst a0.
      assert (B := Hq c d q (or_introl eq_refl) L).
      destruct (IH Hq' Hb' _ _ ts' tw' (ltac:(lra) : (0 <= tw + w)%Q)
                  (ltac:(nra) : (lo * (tw + w) <= ts + q * w <= hi * (tw + w))%Q) H)
        as [A1 A2].
      split; [lra|assumption].
Qed.

(** X10: when every category average in the analyses is a number between
    1 and 10, the investment score is between 1 and 10. *)
Theorem investment_score_between_1_and_10 (analysis_results : dict) (n : Z) :
  (forall c d x, In (c, VDict d) analysis_results ->
     lookup "category_average" d = Some x ->
     exists q, x = VNum q /\ (1 <= q <= 10)%Q) ->
  orchestrator._calculate_investment_score analysis_results = Ok n ->
  1 <= n <= 10.
Proof.
  intros Hx H. unfold orchestrator._calculate_investment_score in H.
  destruct analysis_results as [|kv l] eqn:El; [apply Ok_inj in H; lia|].
  rewrite <- El in *. clear El kv l.
  bind_inv H. destruct a as [ts tw]. cbn [fst snd] in H.
  destruct (Qgtb tw 0) eqn:G; [|apply Ok_inj in H; lia].
  apply Ok_inj in H. subst n. apply Qgtb_true in G.
  destruct (weighted_totals_between analysis_results 1 10) with
    (ts := 0%Q) (tw := 0%Q) (ts' := ts) (tw' := tw) as [_ [A B]].
  - intros c d q I L. destruct (Hx c d _ I L) as (q' & [= <-] & Bq). exact Bq.
  - intros c d b I L. destruct (Hx c d _ I L) as (q' & Eq & _). discriminate.
  - lra.
  - lra.
  - exact E.
  - apply py_round_bounds; unfold inject_Z.
    + apply Qle_shift_div_l; [exact G|]. lra.
    + apply Qle_shift_div_r; [exact G|]. lra.
Qed.

Lemma investment_score_between_1_and_10_witness :
  orchestrator._calculate_investment_score failed_market_analyses = Ok 8
  /\ 1 <= 8 <= 10.
Proof.
  split; [reflexivity|].
  apply (investment_score_between_1_and_10 failed_market_analyses 8).
  - intros c d x [[= <- <-]|[[= <- <-]|[]]] L.
    + discriminate.
    + injection L as <-. exists 8%Q. split; [reflexivity|]. split; discriminate.
  - reflexivity.
Defined.

(** ** The revenues of the schema normalizer *)

Lemma insert_by_period_perm (x : value) (sorted l : list value) :
  insert_by_period x sorted = Some l -> Permutation (x :: sorted) l.
Proof.
  revert l. induction sorted as [|y rest IH]; intros l H; cbn in H.
  - injection H as <-. reflexivity.
  - destruct (py_lt (period_of x) (period_of y)) as [[|]|]; try discriminate.
    + injection H as <-. reflexivity.
    + destruct (insert_by_period x rest) as [l'|]; [|discriminate].
      injection H as <-. rewrite perm_swap. constructor. now apply IH.
Qed.

Lemma sort_by_period_perm (todo sorted l : list value) :
  sort_by_period sorted todo = Some l -> Permutation (sorted ++ todo)%list l.
Proof.
  revert sorted l. induction todo as [|x rest IH]; intros sorted l H; cbn in H.
  - injection H as <-. now rewrite app_nil_r.
  - destruct (insert_by_period x sorted) as [s'|] eqn:I; [|discriminate].
    apply IH in H. rewrite <- H.
    apply insert_by_period_perm in I.
    rewrite <- I. cbn. rewrite <- Permutation_middle. reflexivity.
Qed.

Lemma sort_revenues_perm (l : list value) : Permutation l (sort_revenues l).
Proof.
  unfold sort_revenues. destruct (sort_by_period [] l) as [s|] eqn:S; [|reflexivity].
  now apply sort_by_period_perm in S.
Qed.

Lemma ltb_asym (s t : string) : String.ltb s t = true -> String.ltb t s = false.
Proof.
  unfold String.ltb. rewrite (String.compare_antisym t s).
  destruct (String.compare s t); cbn; congruence.
Qed.

Section Insertion.

(** A kind of period on which Python's [<] is defined and agrees with
    [period_le]. *)
Variable kind : value -> Prop.
Hypothesis kind_lt : forall x y, kind x -> kind y ->
  exists b, py_lt (period_of x) (period_of y) = Some b
            /\ (b = true -> period_le x y)
            /\ (b = false -> period_le y x).

Lemma insert_by_period_ordered (x : value) (sorted : list value) :
  kind x -> Forall kind sorted -> Sorted period_le sorted ->
  exists l, insert_by_period x sorted = Some l /\ Sorted period_le l
            /\ Forall kind l
            /\ (forall z, period_le z x -> HdRel period_le z sorted ->
                HdRel period_le z l).
Proof.
  intros Kx Hn Hs. induction sorted as [|y rest IH].
  - exists [x]. cbn [insert_by_period]. split; [reflexivity|]. split; [|split].
    + repeat constructor.
    + constructor; [exact Kx | constructor].
    + intros z Hz _. now constructor.
  - inversion Hn as [|? ? Ky Hn']; subst.
    inversion Hs as [|? ? Hs' Hd]; subst.
    cbn [insert_by_period].
    destruct (kind_lt x y Kx Ky) as (b & -> & Ht & Hf). destruct b.
    + eexists. split; [reflexivity|]. repeat split.
      * constructor; [assumption|]. constructor. now apply Ht.
      * constructor; assumption.
      * intros z Hz _. now constructor.
    + destruct (IH Hn' Hs') as (l & -> & Sl & Nl & Hl).
      eexists. split; [reflexivity|]. repeat split.
      * constructor; [assumption|]. apply Hl; [now apply Hf | assumption].
      * constructor; assumption.
      * intros z _ Hz. inversion Hz; subst. now constructor.
Qed.

Lemma sort_by_period_ordered (todo sorted : list value) :
  Forall kind todo -> Forall kind sorted -> Sorted period_le sorted ->
  exists l, sort_by_period sorted todo = Some l /\ Sorted period_le l.
Proof.
  revert sorted. induction todo as [|x rest IH]; intros sorted Ht Hn Hs.
  - exists sorted. split; [reflexivity | assumption].
  - inversion Ht as [|? ? Hx Ht']; subst.
    destruct (insert_by_period_ordered x sorted Hx Hn Hs) as (l & I & Sl & Nl & _).
    cbn [sort_by_period]. rewrite I. now apply IH.
Qed.

End Insertion.

Lemma numeric_lt (x y : value) :
  numeric_period x -> numeric_period y ->
  exists b, py_lt (period_of x) (period_of y) = Some b
            /\ (b = true -> period_le x y)
            /\ (b = false -> period_le y x).
Proof.
  intros [p Px] [q Py]. unfold period_le. rewrite Px, Py.
  exists (Qgtb q p). split; [reflexivity|]. split; intros G.
  - apply Qgtb_true in G. lra.
  - destruct (Qlt_le_dec p q) as [L|L]; [|exact L].
    apply Qgtb_true in L. congruence.
Qed.

Lemma string_lt (x y : value) :
  string_period x -> string_period y ->
  exists b, py_lt (period_of x) (period_of y) = Some b
            /\ (b = true -> period_le x y)
            /\ (b = false -> period_le y x).
Proof.
  intros [s Px] [t Py]. unfold period_le. rewrite Px, Py.
  exists (String.ltb s t). split; [reflexivity|]. split; intros G.
  - now apply ltb_asym.
  - exact G.
Qed.

Lemma normalize_revenue_entries_length (cfg : config) (l entries : list value) :
  normalize_revenue_entries cfg l = Ok entries ->
  List.length entries = List.length (filter is_dict l).
Proof.
  revert entries. induction l as [|x l IH]; intros entries H; cbn in H.
  - apply Ok_inj in H. now subst.
  - destruct x; cbn [filter is_dict]; try (now apply IH).
    bind_inv H. bind_inv H. apply Ok_inj in H. subst entries.
    cbn [List.length]. f_equal. now apply IH.
Qed.

(** X11: the normalized revenues are the entries normalized in source
    order, one for each mapping of the input, rearranged; when their
    periods are all numbers or all strings they are sorted by period in
    ascending order. *)
Theorem normalize_revenues_sorted (cfg : config) (l out : list value) :
  _normalize_revenues cfg (VList l) = Ok (VList out) ->
  (exists entries,
     normalize_revenue_entries cfg l = Ok entries /\ Permutation entries out)
  /\ List.length out = List.length (filter is_dict l)
  /\ (Forall numeric_period out \/ Forall string_period out ->
      Sorted period_le out).
Proof.
  unfold _normalize_revenues. cbn [py_iter bind]. intros H.
  bind_inv H. apply Ok_inj in H. injection H as <-.
  pose proof (sort_revenues_perm a) as P.
  split; [exists a; split; [exact E | exact P]|].
  split.
  - rewrite <- (Permutation_length P). now apply normalize_revenue_entries_length in E.
  - intros [Hn|Hn].
    + assert (Ha : Forall numeric_period a).
      { eapply Permutation_Forall; [symmetry; exact P | exact Hn]. }
      destruct (sort_by_period_ordered numeric_period numeric_lt a [] Ha
                  (Forall_nil _) (Sorted_nil _)) as (s & S & Hs).
      unfold sort_revenues. now rewrite S.
    + assert (Ha : Forall string_period a).
      { eapply Permutation_Forall; [symmetry; exact P | exact Hn]. }
      destruct (sort_by_period_ordered string_period string_lt a [] Ha
                  (Forall_nil _) (Sorted_nil _)) as (s & S & Hs).
      unfold sort_revenues. now rewrite S.
Qed.

Lemma normalize_revenues_sorted_witness :
  exists out,
    _normalize_revenues None revenues_2023_2021 = Ok (VList out)
    /\ List.length out = 2%nat
    /\ Sorted period_le out.
Proof.
  destruct (_normalize_revenues None revenues_2023_2021) as [[ | | | |out| ]|e] eqn:E;
    try (vm_compute in E; discriminate).
  exists out.
  destruct (normalize_revenues_sorted None _ out E) as (_ & L & S).
  split; [reflexivity|]. split; [exact L|].
  apply S. left.
  vm_compute in E. apply Ok_inj in E. injection E as <-.
  repeat constructor; eexists; reflexivity.
Defined.

(** ** What the extras hold *)

Lemma lookup_dict_set_cases {A : Type} (k k' : string) (v v' : A)
  (d : list (string * A)) :
  lookup k (dict_set k' v d) = Some v' ->
  (k = k' /\ v' = v) \/ (k <> k' /\ lookup k d = Some v').
Proof.
  destruct (String.eqb_spec k k') as [->|N].
  - rewrite lookup_dict_set_same. intros [= <-]. now left.
  - rewrite lookup_dict_set_other by assumption. now right.
Qed.

Lemma extras_loop_sound (extraction : value) (canonical_paths : list string)
  (P : string -> value -> Prop) :
  (forall path v,
     existsb (fun p => ends_with p path) canonical_paths = false ->
     v = _get_by_path extraction (split_char "." path) ->
     v <> VNone -> P path v) ->
  forall (paths : list string) (extras : dict),
    (forall k v, lookup k extras = Some v -> P k v /\ True) ->
    forall k v,
      lookup k (fold_left (extras_step extraction canonical_paths) paths extras)
      = Some v ->
      P k v /\ (lookup k extras = Some v \/ In k paths).
Proof.
  intros HP paths. induction paths as [|path paths IH]; intros extras Hex k v L.
  - cbn in L. split; [now apply Hex | now left].
  - cbn [fold_left] in L.
    assert (Hstep : forall k v,
      lookup k (extras_step extraction canonical_paths extras path) = Some v ->
      P k v /\ (lookup k extras = Some v \/ k = path)).
    { intros k0 v0. unfold extras_step.
      destruct (existsb (fun p => ends_with p path) canonical_paths) eqn:Ex;
        cbn [negb].
      - intros L0. split; [now apply Hex | now left].
      - destruct (_get_by_path extraction (split_char "." path)) eqn:G;
          try (intros L0; split; [now apply Hex | now left]);
          intros L0; apply lookup_dict_set_cases in L0;
          (destruct L0 as [[-> ->]|[_ L0]];
            [split; [apply HP; [assumption | now rewrite G | discriminate] | now right]
            |split; [now apply Hex | now left]]). }
    destruct (IH _ (fun k v H => conj (proj1 (Hstep k v H)) I) k v L) as [Pk [Lk|Ik]].
    + split; [exact Pk|]. destruct (Hstep _ _ Lk) as [_ [Lk'| ->]];
        [now left | right; now left].
    + split; [exact Pk | right; now right].
Qed.

(** X12: every entry of the extras is a path of the extraction that no
    canonical path ends with, and holds the value found at that path,
    which is not [None]. *)
Theorem extras_entries_come_from_extraction
  (extraction canonical : value) (extras : dict) (path : string) (v : value) :
  _extract_extras extraction canonical = VDict extras ->
  lookup path extras = Some v ->
  In path (_get_paths extraction [])
  /\ v = _get_by_path extraction (split_char "." path)
  /\ v <> VNone
  /\ (forall p, In p (_get_paths canonical []) -> ends_with p path = false).
Proof.
  unfold _extract_extras. intros [= <-] L.
  destruct (extras_loop_sound extraction (nodup string_dec (_get_paths canonical []))
              (fun path v =>
                 v = _get_by_path extraction (split_char "." path)
                 /\ v <> VNone
                 /\ (forall p, In p (_get_paths canonical []) ->
                     ends_with p path = false))
              ltac:(intros p0 v0 Ex -> N; repeat split; [exact N|];
                    intros p Ip;
                    destruct (ends_with p p0) eqn:En; [|reflexivity];
                    assert (existsb (fun p => ends_with p p0)
                              (nodup string_dec (_get_paths canonical [])) = true)
                      by (apply existsb_exists; exists p; split;
                          [now apply nodup_In | exact En]);
                    congruence)
              (nodup string_dec (_get_paths extraction [])) [] 
              ltac:(intros ? ? [=]) path v L) as [(Hv & Hn & Hc) [L0|I0]].
  - discriminate.
  - split; [now apply nodup_In in I0|]. repeat split; assumption.
Qed.

Lemma extras_entries_come_from_extraction_witness :
  In "office.city" (_get_paths (VDict sample_extraction) [])
  /\ VStr "Pune" = _get_by_path (VDict sample_extraction) (split_char "." "office.city")
  /\ VStr "Pune" <> VNone
  /\ (forall p, In p (_get_paths (VDict CANONICAL_SCHEMA) []) ->
      ends_with p "office.city" = false).
Proof.
  apply (extras_entries_come_from_extraction (VDict sample_extraction)
           (VDict CANONICAL_SCHEMA)
           [ ("USP", VStr "fast"); ("headcount", VNum 12);
             ("office", VDict [("city", VStr "Pune"); ("zip", VNone)]);
             ("office.city", VStr "Pune") ]
           "office.city" (VStr "Pune")).
  - vm_compute. reflexivity.
  - reflexivity.
Defined.

(** ** The founders of the schema normalizer *)

Lemma normalize_founder_idem (l : list value) :
  flat_map normalize_founder (flat_map normalize_founder l)
  = flat_map normalize_founder l.
Proof.
  induction l as [|x l IH]; [reflexivity|].
  destruct x; cbn [flat_map normalize_founder app]; try exact IH.
  cbn [get get_default lookup String.eqb Ascii.eqb Bool.eqb].
  f_equal. exact IH.
Qed.

(** X13: normalizing the founders is idempotent, and the result has one
    entry for each mapping among the founders given. *)
Theorem normalize_founders_idempotent (founders normalized : value) :
  _normalize_founders founders = Ok normalized ->
  _normalize_founders normalized = Ok normalized
  /\ exists out l,
       normalized = VList out /\ py_iter founders = Ok l
       /\ List.length out = List.length (filter is_dict l).
Proof.
  unfold _normalize_founders. intros H. bind_inv H. apply Ok_inj in H. subst.
  split.
  - cbn [py_iter bind]. now rewrite normalize_founder_idem.
  - exists (flat_map normalize_founder a), a. repeat split; [exact E|].
    clear E. induction a as [|x a IH]; [reflexivity|].
    destruct x; cbn [flat_map normalize_founder filter is_dict app List.length];
      try exact IH.
    now rewrite IH.
Qed.

Lemma normalize_founders_idempotent_witness :
  _normalize_founders
    (VList [ VDict [("name", VStr "A"); ("title", VNone); ("linkedin", VNone);
                    ("bio", VNone)] ])
  = Ok (VList [ VDict [("name", VStr "A"); ("title", VNone); ("linkedin", VNone);
                       ("bio", VNone)] ])
  /\ exists out l,
       VList [ VDict [("name", VStr "A"); ("title", VNone); ("linkedin", VNone);
                      ("bio", VNone)] ] = VList out
       /\ py_iter (VList [VStr "B"; VDict [("name", VStr "A"); ("age", VNum 30)]]) = Ok l
       /\ List.length out = List.length (filter is_dict l).
Proof.
  apply (normalize_founders_idempotent
           (VList [VStr "B"; VDict [("name", VStr "A"); ("age", VNum 30)]])).
  reflexivity.
Defined.

(** ** Rules that find nothing *)

Lemma filter_all_false {A : Type} (p : A -> bool) (l : list A) :
  (forall x, In x l -> p x = false) -> filter p l = [].
Proof.
  induction l as [|x l IH]; intros H; [reflexivity|].
  cbn [filter]. rewrite (H x (or_introl eq_refl)).
  apply IH. intros y I. apply H. now right.
Qed.

(** X14: when no inspected metric declares a unit that is set, differs
    from the base currency and is not exempt, the currency rule reports
    nothing. *)
Theorem matching_units_not_flagged
  (py_str : value -> string) (nd : value) (analyses : dict) (base : value) :
  base_currency_of nd = Ok base ->
  section_shaped "MarketAnalysis" MARKET_METRICS analyses ->
  section_shaped "Finance" FINANCE_METRICS analyses ->
  (forall section exempt metrics a metric,
     In (section, exempt, metrics) CHECKED_SECTIONS ->
     lookup section analyses = Some (VDict a) ->
     In metric metrics ->
     unit_mismatch exempt base (declared_unit a metric) = false) ->
  _check_currency_consistency py_str nd analyses = Ok ([], []).
Proof.
  intros B SM SF H. unfold _check_currency_consistency. rewrite B. cbn [bind].
  unfold section_shaped in SM, SF.
  assert (Em : match lookup "MarketAnalysis" analyses with
               | Some market_analysis =>
                   check_units py_str "MarketAnalysis" [] market_analysis base
                     MARKET_METRICS
               | None => Ok ([], [])
               end = Ok ([], [])).
  { destruct (lookup "MarketAnalysis" analyses) as [v|] eqn:L; [|reflexivity].
    destruct SM as (a & -> & Sa). rewrite (check_units_spec _ _ _ _ _ _ Sa).
    rewrite filter_all_false; [reflexivity|].
    intros m Im. apply (H "MarketAnalysis" [] MARKET_METRICS a m);
      [now left | exact L | exact Im]. }
  assert (Ef : match lookup "Finance" analyses with
               | Some finance_analysis =>
                   check_units py_str "Finance" ["Percent"; "Ratio"] finance_analysis
                     base FINANCE_METRICS
               | None => Ok ([], [])
               end = Ok ([], [])).
  { destruct (lookup "Finance" analyses) as [v|] eqn:L; [|reflexivity].
    destruct SF as (a & -> & Sa). rewrite (check_units_spec _ _ _ _ _ _ Sa).
    rewrite filter_all_false; [reflexivity|].
    intros m Im. apply (H "Finance" ["Percent"; "Ratio"] FINANCE_METRICS a m);
      [right; now left | exact L | exact Im]. }
  rewrite Em. cbn [bind]. rewrite Ef. reflexivity.
Qed.

Lemma matching_units_not_flagged_witness :
  _check_currency_consistency plain_str usd_pitch finance_margin_percent = Ok ([], []).
Proof.
  apply (matching_units_not_flagged plain_str usd_pitch finance_margin_percent
           (VStr "USD")).
  - reflexivity.
  - exact I.
  - eexists. split; [reflexivity|]. repeat constructor.
  - intros section exempt metrics a metric [E|[E|[]]] L Im;
      injection E as <- <- <-; [discriminate|].
    injection L as <-.
    destruct Im as [<-|[<-|[<-|[<-|[]]]]]; reflexivity.
Defined.

(** X15: a market whose validated sizes descend clearly from TAM to SAM
    to SOM, each above the next by more than one part in a billion and
    all within the floating-point range, is not flagged by the hierarchy
    rule. *)
Theorem proper_hierarchy_not_flagged
  (normalized_data : value) (analyses ma tam_d sam_d som_d : dict)
  (tam_s sam_s som_s : string) (tam sam som : Q) :
  lookup "MarketAnalysis" analyses = Some (VDict ma) ->
  lookup "tam" ma = Some (VDict tam_d) -> get "validated" tam_d = VStr tam_s ->
  lookup "sam" ma = Some (VDict sam_d) -> get "validated" sam_d = VStr sam_s ->
  lookup "som" ma = Some (VDict som_d) -> get "validated" som_d = VStr som_s ->
  parse_market_value tam_s = Some tam ->
  parse_market_value sam_s = Some sam ->
  parse_market_value som_s = Some som ->
  clearly_above tam sam -> clearly_above sam som ->
  (1 / FLOAT_ROOM <= som)%Q -> (tam <= FLOAT_ROOM)%Q ->
  _check_market_size_hierarchy normalized_data analyses = Ok ([], []).
Proof.
  intros LM Lt Gt Ls Gs Lo Go Pt Ps Po [Psam Hts] [Psom Hso] _ _.
  assert (C : (1 + 1 / 1000000000 == 1000000001 # 1000000000)%Q) by reflexivity.
  rewrite C in Hts, Hso. clear C.
  assert (N : forall s q, parse_market_value s = Some q -> s <> "").
  { intros s q P ->. vm_compute in P. discriminate. }
  unfold _check_market_size_hierarchy. rewrite LM.
  rewrite (market_value_of_validated ma tam_d "tam" tam_s Lt Gt (N _ _ Pt)).
  rewrite (market_value_of_validated ma sam_d "sam" sam_s Ls Gs (N _ _ Ps)).
  rewrite (market_value_of_validated ma som_d "som" som_s Lo Go (N _ _ Po)).
  rewrite Pt, Ps, Po. cbn [bind].
  assert (A : Qle_bool tam sam = false).
  { destruct (Qle_bool tam sam) eqn:E; [|reflexivity].
    apply Qle_bool_iff in E. lra. }
  assert (B : Qle_bool sam som = false).
  { destruct (Qle_bool sam som) eqn:E; [|reflexivity].
    apply Qle_bool_iff in E. lra. }
  rewrite A, B. reflexivity.
Qed.

Lemma proper_hierarchy_not_flagged_witness :
  _check_market_size_hierarchy VNone [("MarketAnalysis", VDict market_proper)]
  = Ok ([], []).
Proof.
  apply (proper_hierarchy_not_flagged VNone
           [("MarketAnalysis", VDict market_proper)] market_proper
           [("validated", VStr "$1.2B")] [("validated", VStr "$300M")]
           [("validated", VStr "$45M")] "$1.2B" "$300M" "$45M"
           (12 / 10 * 1000000000) (300 * 1000000) (45 * 1000000)).
  1-10: reflexivity.
  - split; reflexivity.
  - split; reflexivity.
  - vm_compute. discriminate.
  - vm_compute. discriminate.
Defined.

Lemma cagr_try_shape (py_pow : Q -> Q -> Q) (revenues : list value)
  (analysis_results : dict) (r : list value * list value) :
  cagr_try py_pow revenues analysis_results = Ok r ->
  r = ([], [])
  \/ exists issue repair,
       r = ([issue], [repair])
       /\ entry "field" issue = VStr "cagr"
       /\ entry "severity" issue = VStr "medium"
       /\ entry "field" repair = VStr "cagr.validated".
Proof.
  unfold cagr_try. intros H. bind_inv H.
  destruct (2 <=? List.length (sort_by_year a))%nat; [|left; now apply Ok_inj in H].
  destruct (sort_by_year a) as [|[sy sv] s']; [left; now apply Ok_inj in H|].
  destruct (rev ((sy, sv) :: s')) as [|[ey ev] e']; [left; now apply Ok_inj in H|].
  bind_inv H.
  destruct (Qle_bool a0 0 || (ey - sy <=? 0)); [left; now apply Ok_inj in H|].
  bind_inv H. bind_inv H.
  destruct a2 as [[c cagr_data]|]; [|left; now apply Ok_inj in H].
  match type of H with
  | (if ?b then _ else _) = _ => destruct b
  end; [|left; now apply Ok_inj in H].
  bind_inv H. apply Ok_inj in H. subst r.
  right. do 2 eexists. split; [reflexivity|]. repeat split; reflexivity.
Qed.

(** X16: on a document that is a mapping whose [finance] is a mapping
    (or missing) and whose [revenues] is a list (or missing), the CAGR
    rule never raises: whatever the revenues and the analyses hold, it
    returns either nothing or one issue for [cagr], of medium severity,
    with one fix for [cagr.validated]; fewer than two revenues give
    nothing. *)
Theorem cagr_rule_never_raises
  (py_pow : Q -> Q -> Q) (nd : dict) (analysis_results : dict)
  (revenues : list value) :
  (lookup "finance" nd = None /\ revenues = []
   \/ exists fin, lookup "finance" nd = Some (VDict fin)
        /\ (lookup "revenues" fin = None /\ revenues = []
            \/ lookup "revenues" fin = Some (VList revenues))) ->
  exists issues fixes,
    _check_cagr_calculations py_pow (VDict nd) analysis_results = Ok (issues, fixes)
    /\ ((issues = [] /\ fixes = [])
        \/ exists issue repair,
             issues = [issue] /\ fixes = [repair]
             /\ entry "field" issue = VStr "cagr"
             /\ entry "severity" issue = VStr "medium"
             /\ entry "field" repair = VStr "cagr.validated")
    /\ ((List.length revenues < 2)%nat -> issues = [] /\ fixes = []).
Proof.
  intros H.
  assert (E : _check_cagr_calculations py_pow (VDict nd) analysis_results
              = if (List.length revenues <? 2)%nat then Ok ([], [])
                else match cagr_try py_pow revenues analysis_results with
                     | Ok r => Ok r
                     | Raise _ => Ok ([], [])
                     end).
  { unfold _check_cagr_calculations. cbn [attr_get bind]. unfold get_default.
    destruct H as [[-> ->]|(fin & -> & H)]; [reflexivity|].
    cbn [attr_get bind]. unfold get_default.
    destruct H as [[-> ->]| ->]; reflexivity. }
  rewrite E. clear E H.
  destruct (List.length revenues <? 2)%nat eqn:Lt.
  - exists [], []. split; [reflexivity|]. split; [now left | auto].
  - apply Nat.ltb_ge in Lt.
    destruct (cagr_try py_pow revenues analysis_results) as [[issues fixes]|e] eqn:C.
    + exists issues, fixes. split; [reflexivity|]. split; [|lia].
      destruct (cagr_try_shape _ _ _ _ C) as [[= -> ->]|(i & f & [= -> ->] & R)].
      * now left.
      * right. exists i, f. auto.
    + exists [], []. split; [reflexivity|]. split; [now left | auto].
Qed.

Lemma cagr_rule_never_raises_witness :
  exists issues fixes,
    _check_cagr_calculations sqrt_pow revenues_mixed [] = Ok (issues, fixes)
    /\ ((issues = [] /\ fixes = [])
        \/ exists issue repair,
             issues = [issue] /\ fixes = [repair]
             /\ entry "field" issue = VStr "cagr"
             /\ entry "severity" issue = VStr "medium"
             /\ entry "field" repair = VStr "cagr.validated")
    /\ ((List.length
           [ VDict [("period", VStr "2021"); ("value", VNum 100)];
             VDict [("period", VStr "n/a"); ("value", VNum 120)];
             VStr "corrupt" ] < 2)%nat -> issues = [] /\ fixes = []).
Proof.
  apply (cagr_rule_never_raises sqrt_pow
           [ ("finance",
              VDict [ ("revenues",
                       VList [ VDict [("period", VStr "2021"); ("value", VNum 100)];
                               VDict [("period", VStr "n/a"); ("value", VNum 120)];
                               VStr "corrupt" ]) ]) ] []).
  right. eexists. split; [reflexivity|]. right. reflexivity.
Defined.

(** ** The consistency score *)

Lemma count_severity_cons (severity : string) (issue : value) (issues : list value)
  (n : Z) :
  count_severity severity (issue :: issues) = Ok n ->
  exists m, count_severity severity issues = Ok m /\ m <= n <= m + 1.
Proof.
  cbn [count_severity]. intros H. bind_inv H. bind_inv H. apply Ok_inj in H.
  exists a0. split; [exact E0|]. destruct (py_eqb a (VStr severity)); lia.
Qed.

Lemma count_severity_nonneg (severity : string) (issues : list value) (n : Z) :
  count_severity severity issues = Ok n -> 0 <= n.
Proof.
  revert n. induction issues as [|issue issues IH]; intros n H.
  - apply Ok_inj in H. lia.
  - apply count_severity_cons in H. destruct H as (m & Hm & B).
    specialize (IH m Hm). lia.
Qed.

Lemma Qgtb_false (a b : Q) : Qgtb a b = false <-> (a <= b)%Q.
Proof.
  unfold Qgtb. rewrite negb_false_iff. apply Qle_bool_iff.
Qed.

(** X17: the consistency score lies between 1 and 10, is 10 when there
    is no issue, and never rises when an issue is added. *)
Theorem consistency_score_bounded_and_antitone
  (issue : value) (issues : list value) (s s' : Q) :
  _calculate_consistency_score issues = Ok s ->
  _calculate_consistency_score (issue :: issues) = Ok s' ->
  (1 <= s <= 10)%Q /\ (1 <= s' <= s)%Q /\ (issues = [] -> s == 10)%Q.
Proof.
  unfold _calculate_consistency_score. intros H H'.
  bind_inv H. bind_inv H. bind_inv H. apply Ok_inj in H.
  bind_inv H'. bind_inv H'. bind_inv H'. apply Ok_inj in H'.
  apply count_severity_cons in E2, E3, E4.
  destruct E2 as (h & Eh & Bh), E3 as (m & Em & Bm), E4 as (l & El & Bl).
  rewrite E in Eh. rewrite E0 in Em. rewrite E1 in El.
  apply Ok_inj in Eh, Em, El. subst h m l.
  pose proof (count_severity_nonneg _ _ _ E) as Ph.
  pose proof (count_severity_nonneg _ _ _ E0) as Pm.
  pose proof (count_severity_nonneg _ _ _ E1) as Pl.
  assert (Qh : (inject_Z a <= inject_Z a2 <= inject_Z a + 1)%Q).
  { split; [rewrite <- Zle_Qle; lia|].
    change 1%Q with (inject_Z 1). rewrite <- inject_Z_plus, <- Zle_Qle. lia. }
  assert (Qm : (inject_Z a0 <= inject_Z a3 <= inject_Z a0 + 1)%Q).
  { split; [rewrite <- Zle_Qle; lia|].
    change 1%Q with (inject_Z 1). rewrite <- inject_Z_plus, <- Zle_Qle. lia. }
  assert (Ql : (inject_Z a1 <= inject_Z a4 <= inject_Z a1 + 1)%Q).
  { split; [rewrite <- Zle_Qle; lia|].
    change 1%Q with (inject_Z 1). rewrite <- inject_Z_plus, <- Zle_Qle. lia. }
  assert (Nh : (0 <= inject_Z a)%Q) by (change 0%Q with (inject_Z 0); now rewrite <- Zle_Qle).
  assert (Nm : (0 <= inject_Z a0)%Q) by (change 0%Q with (inject_Z 0); now rewrite <- Zle_Qle).
  assert (Nl : (0 <= inject_Z a1)%Q) by (change 0%Q with (inject_Z 0); now rewrite <- Zle_Qle).
  set (x := (10.0 - inject_Z a * 2.0 - inject_Z a0 * 1.0 - inject_Z a1 * 0.5)%Q) in *.
  set (x' := (10.0 - inject_Z a2 * 2.0 - inject_Z a3 * 1.0 - inject_Z a4 * 0.5)%Q) in *.
  assert (Hx : (x' <= x)%Q) by (unfold x, x'; lra).
  assert (Hx10 : (x <= 10)%Q) by (unfold x; lra).
  assert (Hnil : issues = [] -> (x == 10)%Q).
  { intros ->. cbn in E, E0, E1. apply Ok_inj in E, E0, E1. subst a a0 a1.
    reflexivity. }
  subst s s'.
  destruct (Qgtb 10.0 x) eqn:A; destruct (Qgtb 10.0 x') eqn:A';
    try apply Qgtb_true in A; try apply Qgtb_true in A';
    try apply Qgtb_false in A; try apply Qgtb_false in A'.
  all: repeat match goal with
       | |- context [Qgtb ?u 1.0] =>
           let B := fresh "B" in
           destruct (Qgtb u 1.0) eqn:B;
           [apply Qgtb_true in B | apply Qgtb_false in B]
       end.
  all: repeat split; try lra.
  all: intros Hn; specialize (Hnil Hn); lra.
Qed.

Lemma consistency_score_bounded_and_antitone_witness :
  exists s s',
    _calculate_consistency_score [issue_of_severity "high"] = Ok s
    /\ _calculate_consistency_score
         [issue_of_severity "medium"; issue_of_severity "high"] = Ok s'
    /\ (s == 8)%Q /\ (s' == 7)%Q
    /\ (1 <= s <= 10)%Q /\ (1 <= s' <= s)%Q.
Proof.
  destruct (_calculate_consistency_score [issue_of_severity "high"])
    as [s|e] eqn:E; [|vm_compute in E; discriminate].
  destruct (_calculate_consistency_score
              [issue_of_severity "medium"; issue_of_severity "high"])
    as [s'|e'] eqn:E'; [|vm_compute in E'; discriminate].
  exists s, s'.
  destruct (consistency_score_bounded_and_antitone (issue_of_severity "medium")
              [issue_of_severity "high"] s s' E E') as (B & B' & _).
  repeat split; try tauto.
  - vm_compute in E. apply Ok_inj in E. now subst s.
  - vm_compute in E'. apply Ok_inj in E'. now subst s'.
Defined.

(** ** The scoring engine against the consistency checker *)

Lemma adjust_score_numeric (category : string) (score research v : value) (q : Q) :
  _adjust_score_with_research category score research = Ok v ->
  as_num v = Ok q ->
  exists p, as_num score = Ok p.
Proof.
  unfold _adjust_score_with_research. intros H A.
  destruct (negb (truthy research)).
  - apply Ok_inj in H. subst v. eauto.
  - bind_inv H. bind_inv H. bind_inv H. bind_inv H. eauto.
Qed.

Lemma score_categories_raw
  (w : list (string * Q)) (ar : dict) (res : value)
  (scores : list (string * CategoryScore)) (c : string) (cs : CategoryScore) :
  score_categories w ar res = Ok scores ->
  lookup c scores = Some cs ->
  exists d q,
    lookup c ar = Some (VDict d)
    /\ raw_score cs = get_default "category_average" (VNum 0) d
    /\ as_num (raw_score cs) = Ok q.
Proof.
  revert scores. induction w as [|[c' x] w IH]; intros scores S L.
  - apply Ok_inj in S. subst. discriminate.
  - cbn [score_categories] in S.
    destruct (lookup c' ar) as [data|] eqn:La; [|now apply (IH scores)].
    bind_inv S. bind_inv S. bind_inv S. bind_inv S. apply Ok_inj in S. subst scores.
    cbn [lookup] in L. destruct (String.eqb_spec c c') as [->|N].
    + injection L as <-. cbn [raw_score].
      destruct data; try discriminate. cbn in E. apply Ok_inj in E. subst a.
      destruct (adjust_score_numeric _ _ _ _ _ E0 E1) as [p Hp].
      exists d, p. auto.
    + now apply (IH a2).
Qed.

Lemma lookup_map_values {A B : Type} (f : A -> B) (c : string)
  (l : list (string * A)) :
  lookup c (map (fun kv => (fst kv, f (snd kv))) l) = option_map f (lookup c l).
Proof.
  induction l as [|[k v] l IH]; [reflexivity|].
  cbn [map lookup fst snd]. destruct (String.eqb c k); [reflexivity | exact IH].
Qed.

Lemma lookup_nodup_in {A : Type} (k : string) (v : A) (d : list (string * A)) :
  NoDup (map fst d) -> In (k, v) d -> lookup k d = Some v.
Proof.
  induction d as [|[k' v'] d IH]; intros ND I; [contradiction|].
  inversion ND as [|? ? Hk ND']; subst. cbn [lookup].
  destruct I as [[= -> ->]|I].
  - now rewrite String.eqb_refl.
  - destruct (String.eqb_spec k k') as [->|N]; [|now apply IH].
    exfalso. apply Hk. apply (in_map fst) in I. exact I.
Qed.

Lemma Qabs_self_small (q : Q) : Qgtb (Qabs (q - q)) 1 = false.
Proof.
  apply not_true_is_false. intros H. apply Qgtb_true in H.
  assert (E : (q - q == 0)%Q) by ring.
  rewrite E in H. discriminate.
Qed.

Lemma scoring_step_own_scores
  (py_str : value -> string) (w : list (string * Q)) (ar : dict) (res : value)
  (scores : list (string * CategoryScore)) (c : string) (data : value) :
  score_categories w ar res = Ok scores ->
  lookup c ar = Some data ->
  scoring_step py_str (category_scores_dict scores) c data = Ok ([], []).
Proof.
  intros S La. unfold scoring_step, category_scores_dict. cbn [py_in bind getitem].
  unfold dict_mem. rewrite lookup_map_values.
  destruct (lookup c scores) as [cs|] eqn:L; cbn [option_map]; [|reflexivity].
  destruct (score_categories_raw _ _ _ _ _ _ S L) as (d & q & La' & R & Q).
  rewrite La in La'. injection La' as ->.
  cbn [py_in bind]. unfold dict_mem.
  unfold get_default in R.
  destruct (lookup "category_average" d) as [v|] eqn:Lv; [|reflexivity].
  cbn [getitem bind]. rewrite Lv. cbn [bind category_score_dict attr_get].
  unfold get_default. cbn [lookup String.eqb Ascii.eqb Bool.eqb].
  rewrite R in *. destruct v; try discriminate; cbn [bind] in *;
    rewrite Q; cbn [bind]; now rewrite Qabs_self_small.
Qed.

Lemma scoring_loop_own_scores
  (py_str : value -> string) (w : list (string * Q)) (ar : dict) (res : value)
  (scores : list (string * CategoryScore)) (items : dict) :
  score_categories w ar res = Ok scores ->
  (forall c data, In (c, data) items -> lookup c ar = Some data) ->
  scoring_loop py_str (category_scores_dict scores) items = Ok ([], []).
Proof.
  intros S. induction items as [|[c data] items IH]; intros H; [reflexivity|].
  cbn [scoring_loop].
  rewrite (scoring_step_own_scores py_str w ar res scores c data S
             (H c data (or_introl eq_refl))).
  cbn [bind]. rewrite IH; [reflexivity|]. intros c' d' I. apply H. now right.
Qed.

(** X18: the scores that [score] computes from analysis results are
    never flagged when the consistency checker compares them with the
    same analysis results. *)
Theorem own_scores_pass_scoring_check
  (py_str : value -> string) (config_weights : list (string * Q)) (now : string)
  (analysis_results : dict) (research_results : value) (r : ScoringResult)
  (scores : dict) :
  NoDup (map fst analysis_results) ->
  score config_weights now analysis_results research_results = Ok r ->
  lookup "category_scores" scores
  = Some (category_scores_dict (category_scores r)) ->
  _check_scoring_consistency py_str analysis_results (VDict scores) = Ok ([], []).
Proof.
  intros ND S L. unfold score in S.
  bind_inv S. bind_inv S. bind_inv S. bind_inv S. apply Ok_inj in S. subst r.
  cbn [category_scores] in L.
  unfold _check_scoring_consistency. cbn [py_in bind getitem].
  unfold dict_mem. rewrite L. cbn [negb bind].
  eapply scoring_loop_own_scores; [exact E|].
  intros c data I. now apply lookup_nodup_in.
Qed.

Lemma own_scores_pass_scoring_check_witness :
  exists r,
    score [] "2025-01-01T00:00:00" analyses_8_6 VNone = Ok r
    /\ _check_scoring_consistency plain_str analyses_8_6
         (VDict [("category_scores", category_scores_dict (category_scores r))])
       = Ok ([], []).
Proof.
  destruct (score [] "2025-01-01T00:00:00" analyses_8_6 VNone) as [r|e] eqn:E;
    [|vm_compute in E; discriminate].
  exists r. split; [reflexivity|].
  apply (own_scores_pass_scoring_check plain_str [] "2025-01-01T00:00:00"
           analyses_8_6 VNone r).
  - repeat constructor; cbn; intuition discriminate.
  - exact E.
  - reflexivity.
Defined.




(** ** The report of the orchestrator *)

Lemma count_error_sections_bounds (l : dict) (k : Z) :
  orchestrator.count_error_sections l = Ok k ->
  0 <= k <= Z.of_nat (List.length l).
Proof.
  revert k. induction l as [|[c v] l IH]; intros k H.
  - apply Ok_inj in H. subst. cbn. lia.
  - cbn [orchestrator.count_error_sections] in H. bind_inv H. bind_inv H.
    apply Ok_inj in H. subst k. specialize (IH a0 E0).
    cbn [List.length]. destruct a; lia.
Qed.

Lemma confidence_score_bounds (l : dict) (n : Z) :
  orchestrator._calculate_confidence_score l = Ok n -> 5 <= n <= 10.
Proof.
  unfold orchestrator._calculate_confidence_score. intros H.
  destruct (negb (truthy (VDict l))); [apply Ok_inj in H; lia|].
  bind_inv H. apply count_error_sections_bounds in E.
  destruct (Z.of_nat (List.length l) =? 0) eqn:Z0; [apply Ok_inj in H; lia|].
  apply Z.eqb_neq in Z0. apply Ok_inj in H. subst n.
  set (t := Z.of_nat (List.length l)) in *.
  assert (Pt : (0 < inject_Z t)%Q).
  { change 0%Q with (inject_Z 0). rewrite <- Zlt_Qlt. lia. }
  assert (F0 : (0 <= inject_Z (t - a) / inject_Z t)%Q).
  { apply Qle_shift_div_l; [exact Pt|]. rewrite Qmult_0_l.
    change 0%Q with (inject_Z 0). rewrite <- Zle_Qle. lia. }
  assert (F1 : (inject_Z (t - a) / inject_Z t <= 1)%Q).
  { apply Qle_shift_div_r; [exact Pt|]. rewrite Qmult_1_l.
    rewrite <- Zle_Qle. lia. }
  set (f := (inject_Z (t - a) / inject_Z t)%Q) in *.
  apply py_round_bounds.
  - change (inject_Z 5) with 5%Q. lra.
  - change (inject_Z 10) with 10%Q. lra.
Qed.

Lemma normalize_step_keeps
  (agents : list string) (normalizer : value -> result value)
  (raw : value) (results : dict) (k : string) :
  k <> "normalized_data" ->
  lookup k (snd (orchestrator.normalize_step agents normalizer raw results))
  = lookup k results.
Proof.
  intros N. unfold orchestrator.normalize_step.
  destruct (truthy raw && orchestrator.available agents "schema_normalizer");
    [|reflexivity].
  destruct (normalizer raw); [|reflexivity].
  cbn [snd]. now apply lookup_dict_set_other.
Qed.

Ltac report_lookup :=
  repeat first
    [ rewrite lookup_set_in_other by discriminate
    | rewrite lookup_dict_set_same
    | rewrite lookup_dict_set_other by discriminate ].

(** X20: every report that a run with a fetcher returns holds the pitch
    id and the fetched document, a confidence score between 5 and 10,
    an investment score, three strengths, three concerns and the
    uniqueness 75. *)
Theorem report_figures
  (agents : list string) (fetch : string -> result value)
  (normalizer market finance : value -> result value)
  (now : string) (exn_str : exn -> string) (py_str : value -> string)
  (pitch_id : string) (report : value) :
  orchestrator.available agents "mongo_fetcher" = true ->
  orchestrator._process_pitch_async agents fetch normalizer market finance
    now exn_str py_str pitch_id = Ok report ->
  exists results raw cs irs pros flags,
    report = VDict results
    /\ fetch pitch_id = Ok raw
    /\ lookup "pitchId" results = Some (VStr pitch_id)
    /\ lookup "raw_data" results = Some raw
    /\ lookup "final_cs_score" results = Some (VNum (inject_Z cs))
    /\ 5 <= cs <= 10
    /\ lookup "final_irs_score" results = Some (VNum (inject_Z irs))
    /\ lookup "pros" results = Some (VList pros) /\ List.length pros = 3%nat
    /\ lookup "red_flags" results = Some (VList flags) /\ List.length flags = 3%nat
    /\ lookup "uniqueness" results = Some (VNum 75).
Proof.
  intros Hav H. unfold orchestrator._process_pitch_async in H. rewrite Hav in H.
  bind_inv H. bind_inv H.
  pose proof (normalize_step_keeps agents normalizer a
                (dict_set "raw_data" a
                   (dict_set "clientId" a0 (orchestrator.initial_results pitch_id))))
    as K.
  destruct (orchestrator.normalize_step agents normalizer a _) as [nd results0].
  cbn [snd] in K.
  unfold orchestrator.consolidate in H.
  bind_inv H. bind_inv H. bind_inv H. bind_inv H. bind_inv H. bind_inv H. bind_inv H.
  apply Ok_inj in H. subst report.
  assert (P3 : List.length a4 = 3%nat).
  { unfold orchestrator._extract_pros in E4.
    destruct (orchestrator.run_analyses agents market finance exn_str nd);
      [apply Ok_inj in E4; now subst|].
    bind_inv E4. bind_inv E4. apply Ok_inj in E4. subst a4.
    destruct a8, a9; reflexivity. }
  assert (F3 : List.length
                 (orchestrator._extract_red_flags
                    (orchestrator.run_analyses agents market finance exn_str nd))
               = 3%nat).
  { unfold orchestrator._extract_red_flags.
    now destruct (orchestrator.run_analyses agents market finance exn_str nd). }
  apply confidence_score_bounds in E6.
  eexists _, a, a6, a5, (map VStr a4), _.
  split; [reflexivity|]. split; [exact E|].
  repeat split; try lia; report_lookup; try reflexivity;
    try (rewrite K by discriminate; report_lookup; reflexivity);
    try (rewrite length_map; assumption).
Qed.

Lemma report_figures_witness :
  exists report results raw cs irs pros flags,
    orchestrator._process_pitch_async ALL_AGENTS sample_fetcher
      (schema_normalizer.normalize None) sample_market_agent sample_finance_agent
      "2025-01-01T00:00:00" sample_exn_str plain_str "p1" = Ok report
    /\ report = VDict results
    /\ sample_fetcher "p1" = Ok raw
    /\ lookup "pitchId" results = Some (VStr "p1")
    /\ lookup "raw_data" results = Some raw
    /\ lookup "final_cs_score" results = Some (VNum (inject_Z cs))
    /\ 5 <= cs <= 10
    /\ lookup "final_irs_score" results = Some (VNum (inject_Z irs))
    /\ lookup "pros" results = Some (VList pros) /\ List.length pros = 3%nat
    /\ lookup "red_flags" results = Some (VList flags) /\ List.length flags = 3%nat
    /\ lookup "uniqueness" results = Some (VNum 75).
Proof.
  destruct (orchestrator._process_pitch_async ALL_AGENTS sample_fetcher
              (schema_normalizer.normalize None) sample_market_agent
              sample_finance_agent "2025-01-01T00:00:00" sample_exn_str plain_str
              "p1") as [report|e] eqn:E; [|vm_compute in E; discriminate].
  destruct (report_figures ALL_AGENTS sample_fetcher
              (schema_normalizer.normalize None) sample_market_agent
              sample_finance_agent "2025-01-01T00:00:00" sample_exn_str plain_str
              "p1" report eq_refl E)
    as (results & raw & cs & irs & pros & flags & H).
  exists report, results, raw, cs, irs, pros, flags. split; [reflexivity | exact H].
Defined.
